(** * SkyHire career coach: dialogue manager, chatbot facade and response
    generator, embedded from
      Career-Coach/chatbot/dialogue_manager.py
      Career-Coach/chatbot/intent_classifier.py
      Career-Coach/chatbot/response_generator.py

    Python objects are records, dicts are insertion-ordered association
    lists, exceptions are an explicit result type, and everything that reads
    the clock, draws a uuid, touches the snapshot file or calls the
    generative service runs in a state-and-exception monad over one store. *)

From Stdlib Require Import String Ascii List ZArith QArith Bool Lia.
From Stdlib Require Import DecimalString DecimalNat.
Import ListNotations.
Open Scope string_scope.
Open Scope Z_scope.

(* ------------------------------------------------------------------ *)
(** ** Python [str] operations used by the chatbot

    A [str] is modelled by its UTF-8 bytes.  Case mapping and character
    classes are exact on ASCII.  Outside ASCII they are not Python's: a
    byte above 127 is left unchanged by [lower] (Python lower-cases
    accented capitals and has special cases such as the final sigma), it
    counts as alphanumeric in [isalnum] (Python's is false for non-ASCII
    punctuation, symbols and combining marks), and it is never white space
    in [isspace] (Python also strips U+00A0 and the other Unicode spaces).
    On the lower-case accented letters of the French texts involved the
    three agree with Python.  A property below either speaks of a string
    through the value these functions compute for it, or is stated for
    ASCII strings. *)

Module PyStr.

Definition code (c : ascii) : N := N_of_ascii c.

Definition is_upper (c : ascii) : bool := (65 <=? code c)%N && (code c <=? 90)%N.

Definition lower_char (c : ascii) : ascii :=
  if is_upper c then ascii_of_N (code c + 32) else c.

(** [s.lower()] *)
Fixpoint lower (s : string) : string :=
  match s with
  | EmptyString => EmptyString
  | String c r => String (lower_char c) (lower r)
  end.

(** [c.isalnum()] *)
Definition isalnum (c : ascii) : bool :=
  let n := code c in
  ((48 <=? n) && (n <=? 57) || (65 <=? n) && (n <=? 90)
   || (97 <=? n) && (n <=? 122) || (128 <=? n))%N.

(** [c.isspace()]: tab, newline, vertical tab, form feed, carriage return,
    the four separators 0x1c-0x1f and the space. *)
Definition isspace (c : ascii) : bool :=
  let n := code c in
  ((9 <=? n) && (n <=? 13) || (28 <=? n) && (n <=? 32))%N.

Fixpoint lstrip (s : string) : string :=
  match s with
  | EmptyString => EmptyString
  | String c r => if isspace c then lstrip r else s
  end.

(** Remove trailing white space: the result is empty when everything from
    here on is white space. *)
Fixpoint rstrip (s : string) : string :=
  match s with
  | EmptyString => EmptyString
  | String c r =>
      match rstrip r with
      | EmptyString => if isspace c then EmptyString else String c EmptyString
      | r' => String c r'
      end
  end.

(** [s.strip()] *)
Definition strip (s : string) : string := rstrip (lstrip s).

(** [s.startswith(p)] *)
Fixpoint startswith (p s : string) : bool :=
  match p, s with
  | EmptyString, _ => true
  | String a p', String b s' => Ascii.eqb a b && startswith p' s'
  | String _ _, EmptyString => false
  end.

(** [p in s] for two strings: [p] occurs as a substring of [s]. *)
Fixpoint contains (p s : string) : bool :=
  startswith p s ||
  match s with
  | EmptyString => false
  | String _ s' => contains p s'
  end.

(** Drop the first [n] characters. *)
Fixpoint drop (n : nat) (s : string) : string :=
  match n, s with
  | O, _ => s
  | S n', String _ r => drop n' r
  | S _, EmptyString => EmptyString
  end.

(** Last character, if any. *)
Fixpoint last_char (s : string) : option ascii :=
  match s with
  | EmptyString => None
  | String c EmptyString => Some c
  | String _ r => last_char r
  end.

(** [''.join(c.lower() for c in s if c.isalnum() or c == '_')] *)
Fixpoint normalize (s : string) : string :=
  match s with
  | EmptyString => EmptyString
  | String c r =>
      if isalnum c || Ascii.eqb c "_"%char
      then String (lower_char c) (normalize r)
      else normalize r
  end.

Definition is_empty (s : string) : bool :=
  match s with EmptyString => true | _ => false end.

(** Every character of the string satisfies [p]. *)
Fixpoint all_chars (p : ascii -> bool) (s : string) : bool :=
  match s with
  | EmptyString => true
  | String c r => p c && all_chars p r
  end.

End PyStr.

(* ------------------------------------------------------------------ *)
(** ** Exceptions *)

Inductive exn : Type :=
| TypeError | ValueError | KeyError | AttributeError | OverflowError
| OSError | JSONDecodeError | ServiceError.

Inductive res (A : Type) : Type :=
| Ok (a : A)
| Raise (e : exn).
Arguments Ok {A} a.
Arguments Raise {A} e.

(* ------------------------------------------------------------------ *)
(** ** [datetime]: naive date-times as the interpreter's library has them

    [datetime.utcnow()] yields a naive value, so only naive date-times are
    modelled.  [fromisoformat] accepts the naive spellings of CPython 3.7
    to 3.10: a date, then optionally a separator and
    HH[:MM[:SS[.fff[fff]]]].  It rejects what lies outside: a trailing UTC
    offset, which CPython accepts and turns into an aware value, and the
    further spellings of 3.11 on (other fraction lengths, the basic
    format).  [isoformat] writes none of these, so they never occur in a
    snapshot written by [to_dict]; a property below speaks of a stored
    date through what [fromisoformat] makes of it. *)

Module PyDatetime.

Record datetime : Type := mkDatetime {
  year : Z; month : Z; day : Z;
  hour : Z; minute : Z; second : Z; microsecond : Z
}.

Definition is_leap (y : Z) : bool :=
  (y mod 4 =? 0) && (negb (y mod 100 =? 0) || (y mod 400 =? 0)).

Definition days_in_month (y m : Z) : Z :=
  match m with
  | 1 | 3 | 5 | 7 | 8 | 10 | 12 => 31
  | 4 | 6 | 9 | 11 => 30
  | 2 => if is_leap y then 29 else 28
  | _ => 0
  end.

(** The class invariant of a [datetime] object. *)
Definition valid (d : datetime) : bool :=
  (1 <=? year d) && (year d <=? 9999)
  && (1 <=? month d) && (month d <=? 12)
  && (1 <=? day d) && (day d <=? days_in_month (year d) (month d))
  && (0 <=? hour d) && (hour d <? 24)
  && (0 <=? minute d) && (minute d <? 60)
  && (0 <=? second d) && (second d <? 60)
  && (0 <=? microsecond d) && (microsecond d <? 1000000).

Definition digit (k : Z) : ascii := ascii_of_N (Z.to_N (48 + k)).

Definition digit_val (c : ascii) : option Z :=
  let n := Z.of_N (N_of_ascii c) in
  if (48 <=? n) && (n <=? 57) then Some (n - 48) else None.

(** [w] decimal digits of [n], most significant first, followed by [rest]:
    the ["%0wd"] of the library's formatting. *)
Fixpoint pad (w : nat) (n : Z) (rest : string) : string :=
  match w with
  | O => rest
  | S w' => String (digit (n / 10 ^ Z.of_nat w'))
                   (pad w' (n mod 10 ^ Z.of_nat w') rest)
  end.

(** [d.isoformat()]: microseconds are written only when non-zero. *)
Definition isoformat (d : datetime) : string :=
  pad 4 (year d) (String "-" (pad 2 (month d) (String "-" (pad 2 (day d)
   (String "T" (pad 2 (hour d) (String ":" (pad 2 (minute d) (String ":"
     (pad 2 (second d)
        (if microsecond d =? 0 then EmptyString
         else String "." (pad 6 (microsecond d) EmptyString)))))))))))).

(** Read exactly [w] digits. *)
Fixpoint take_digits (w : nat) (acc : Z) (s : string) : option (Z * string) :=
  match w with
  | O => Some (acc, s)
  | S w' =>
      match s with
      | String c r =>
          match digit_val c with
          | Some v => take_digits w' (10 * acc + v) r
          | None => None
          end
      | EmptyString => None
      end
  end.

Definition expect (c : ascii) (s : string) : option string :=
  match s with
  | String b r => if Ascii.eqb b c then Some r else None
  | EmptyString => None
  end.

(** The fraction after the decimal point: three or six digits, to the end. *)
Definition parse_fraction (s : string) : option Z :=
  match take_digits 6 0 s with
  | Some (us, EmptyString) => Some us
  | _ =>
      match take_digits 3 0 s with
      | Some (ms, EmptyString) => Some (ms * 1000)
      | _ => None
      end
  end.

(** HH[:MM[:SS[.fff[fff]]]] *)
Definition parse_time (s : string) : option (Z * Z * Z * Z) :=
  match take_digits 2 0 s with
  | None => None
  | Some (h, EmptyString) => Some (h, 0, 0, 0)
  | Some (h, r1) =>
      match expect ":" r1 with
      | None => None
      | Some r2 =>
          match take_digits 2 0 r2 with
          | None => None
          | Some (mi, EmptyString) => Some (h, mi, 0, 0)
          | Some (mi, r3) =>
              match expect ":" r3 with
              | None => None
              | Some r4 =>
                  match take_digits 2 0 r4 with
                  | None => None
                  | Some (sec, EmptyString) => Some (h, mi, sec, 0)
                  | Some (sec, r5) =>
                      match expect "." r5 with
                      | None => None
                      | Some r6 =>
                          match parse_fraction r6 with
                          | Some us => Some (h, mi, sec, us)
                          | None => None
                          end
                      end
                  end
              end
          end
      end
  end.

(** YYYY-MM-DD and what follows it. *)
Definition parse_date (s : string) : option (Z * Z * Z * string) :=
  match take_digits 4 0 s with
  | None => None
  | Some (y, r1) =>
      match expect "-" r1 with
      | None => None
      | Some r2 =>
          match take_digits 2 0 r2 with
          | None => None
          | Some (m, r3) =>
              match expect "-" r3 with
              | None => None
              | Some r4 =>
                  match take_digits 2 0 r4 with
                  | None => None
                  | Some (d, r5) => Some (y, m, d, r5)
                  end
              end
          end
      end
  end.

Definition checked (d : datetime) : res datetime :=
  if valid d then Ok d else Raise ValueError.

(** [datetime.fromisoformat(s)] on a [str]. *)
Definition fromisoformat (s : string) : res datetime :=
  match parse_date s with
  | None => Raise ValueError
  | Some (y, m, d, EmptyString) => checked (mkDatetime y m d 0 0 0 0)
  | Some (y, m, d, String _ t) =>
      match parse_time t with
      | None => Raise ValueError
      | Some (h, mi, sec, us) => checked (mkDatetime y m d h mi sec us)
      end
  end.

(** Proleptic Gregorian ordinal of a date, day 1 being 0001-01-01. *)
Definition days_before_year (y : Z) : Z :=
  let y1 := y - 1 in y1 * 365 + y1 / 4 - y1 / 100 + y1 / 400.

Definition days_before_month (y m : Z) : Z :=
  nth (Z.to_nat m) [0; 0; 31; 59; 90; 120; 151; 181; 212; 243; 273; 304; 334] 0
  + (if (2 <? m) && is_leap y then 1 else 0).

Definition ymd2ord (y m d : Z) : Z :=
  days_before_year y + days_before_month y m + d.

Definition ord2ymd (ordinal : Z) : Z * Z * Z :=
  let n := ordinal - 1 in
  let n400 := n / 146097 in
  let n := n mod 146097 in
  let n100 := n / 36524 in
  let n := n mod 36524 in
  let n4 := n / 1461 in
  let n := n mod 1461 in
  let n1 := n / 365 in
  let n := n mod 365 in
  let y := n400 * 400 + 1 + n100 * 100 + n4 * 4 + n1 in
  if (n1 =? 4) || (n100 =? 4) then (y - 1, 12, 31)
  else
    let leapyear := (n1 =? 3) && (negb (n4 =? 24) || (n100 =? 3)) in
    let m := Z.shiftr (n + 50) 5 in
    let preceding := days_before_month y m in
    if n <? preceding
    then (y, m - 1, n - (preceding - days_in_month y (m - 1)) + 1)
    else (y, m, n - preceding + 1).

(** [d - timedelta(days=k)] *)
Definition sub_days (d : datetime) (k : Z) : res datetime :=
  let o := ymd2ord (year d) (month d) (day d) - k in
  if (o <? 1) || (3652059 <? o) then Raise OverflowError
  else
    let '(y, m, dd) := ord2ymd o in
    Ok (mkDatetime y m dd (hour d) (minute d) (second d) (microsecond d)).

Definition as_tuple (d : datetime) : list Z :=
  [year d; month d; day d; hour d; minute d; second d; microsecond d].

Fixpoint lex_ltb (a b : list Z) : bool :=
  match a, b with
  | x :: a', y :: b' => (x <? y) || ((x =? y) && lex_ltb a' b')
  | [], _ :: _ => true
  | _, [] => false
  end.

(** [a < b] on two naive date-times. *)
Definition ltb (a b : datetime) : bool := lex_ltb (as_tuple a) (as_tuple b).

End PyDatetime.

Export PyDatetime.

(* ------------------------------------------------------------------ *)
(** ** Python values

    The dynamically typed values the classes store and pass through: what
    [json.load] returns, plus [datetime] objects. *)

#[local] Set Warnings "-register-all".

Inductive pyval : Type :=
| PNone
| PBool (b : bool)
| PInt (z : Z)
| PFloat (q : Q)
| PStr (s : string)
| PList (l : list pyval)
| PDict (d : list (string * pyval))
| PDatetime (t : datetime).

(** ** Python [dict] with [str] keys: insertion-ordered, one entry per key *)

Module PyDict.

Definition pydict (V : Type) : Type := list (string * V).

Section Ops.
Context {V : Type}.

(** [d.get(k)] *)
Fixpoint get (k : string) (d : pydict V) : option V :=
  match d with
  | [] => None
  | (k', v) :: r => if String.eqb k k' then Some v else get k r
  end.

(** [k in d] *)
Definition mem (k : string) (d : pydict V) : bool :=
  match get k d with Some _ => true | None => false end.

(** [d.get(k, dflt)] *)
Definition get_default (k : string) (dflt : V) (d : pydict V) : V :=
  match get k d with Some v => v | None => dflt end.

(** [d[k] = v]: an existing key keeps its place, a new one goes last. *)
Fixpoint set (k : string) (v : V) (d : pydict V) : pydict V :=
  match d with
  | [] => [(k, v)]
  | (k', v') :: r =>
      if String.eqb k k' then (k', v) :: r else (k', v') :: set k v r
  end.

(** [del d[k]] *)
Fixpoint del (k : string) (d : pydict V) : pydict V :=
  match d with
  | [] => []
  | (k', v') :: r =>
      if String.eqb k k' then del k r else (k', v') :: del k r
  end.

(** [d.setdefault(k, v)] *)
Definition setdefault (k : string) (v : V) (d : pydict V) : pydict V :=
  if mem k d then d else (d ++ [(k, v)])%list.

(** [{**d, **e}] *)
Definition update (d e : pydict V) : pydict V :=
  fold_left (fun acc kv => set (fst kv) (snd kv) acc) e d.

(** [list(d.keys())] *)
Definition keys (d : pydict V) : list string := map fst d.

End Ops.
End PyDict.

Abbreviation pydict := PyDict.pydict.

(** Truth value of a Python object, as [if x:] and [x or y] test it. *)
Definition truthy (v : pyval) : bool :=
  match v with
  | PNone => false
  | PBool b => b
  | PInt z => negb (z =? 0)
  | PFloat q => negb (Qnum q =? 0)
  | PStr s => negb (PyStr.is_empty s)
  | PList l => match l with [] => false | _ => true end
  | PDict d => match d with [] => false | _ => true end
  | PDatetime _ => true
  end.

(** What [json.dump] can write: everything but [datetime] objects. *)
Fixpoint json_serializable (v : pyval) : bool :=
  match v with
  | PList l => forallb json_serializable l
  | PDict d =>
      (fix entries (d : list (string * pyval)) : bool :=
         match d with
         | [] => true
         | (_, x) :: r => json_serializable x && entries r
         end) d
  | PDatetime _ => false
  | _ => true
  end.

(** [datetime.fromisoformat(x)] on an arbitrary object: only a [str] is
    accepted. *)
Definition fromisoformat_obj (x : pyval) : res datetime :=
  match x with
  | PStr s => fromisoformat s
  | _ => Raise TypeError
  end.

(** [l[start:]] with Python's treatment of a negative or too large start. *)
Definition slice_from {A : Type} (start : Z) (l : list A) : list A :=
  let n := Z.of_nat (length l) in
  let s := if start <? 0 then Z.max 0 (start + n) else Z.min start n in
  skipn (Z.to_nat s) l.

(* ------------------------------------------------------------------ *)
(** ** The world outside the objects *)

(** The snapshot file as [open] and [json.load] see it. *)
Inductive disk : Type :=
| DiskMissing                 (* no such file *)
| DiskUnreadable              (* the file exists, reading it fails *)
| DiskGarbage                 (* content that is not a JSON document *)
| DiskJson (doc : pyval).

Record World : Type := mkWorld {
  clock_reads : nat;             (* calls of datetime.utcnow() so far *)
  uuid_draws : nat;              (* calls of uuid.uuid4() so far *)
  random_draws : nat;            (* calls of random.choice so far *)
  snapshot : disk;               (* the file at storage_path *)
  snapshot_writable : bool;      (* whether opening it for writing succeeds *)
  generate_calls : list string   (* prompts sent to the generative service *)
}.

(** What the environment answers.  These are the interpreter's and the
    service's doing, not the repository's, so they are parameters. *)
Record Env : Type := mkEnv {
  utcnow_at : nat -> datetime;            (* the n-th reading of the clock *)
  uuid4_at : nat -> string;               (* the n-th str(uuid.uuid4()) *)
  choice_at : nat -> nat;                 (* the n-th random index *)
  api_key_set : bool;                     (* GEMINI_API_KEY is configured *)
  generate_content : nat -> string -> res string;
                                          (* the service's n-th answer *)
  faq_file : disk;                        (* the FAQ file *)
  py_str : pyval -> string;               (* str(x), used by f-strings *)
  storage_dir_ok : bool                   (* the directory of the snapshot file
                                             is there or can be made *)
}.

(** ** Methods: state [S] is the object ([self]), threaded with the world;
    what a method did to [self] and to the world before it raised stays
    done. *)

Definition M (S A : Type) : Type := S -> World -> res A * S * World.

Definition ret {S A} (a : A) : M S A := fun s w => (Ok a, s, w).

Definition raise {S A} (e : exn) : M S A := fun s w => (Raise e, s, w).

Definition bind {S A B} (m : M S A) (k : A -> M S B) : M S B :=
  fun s w =>
    match m s w with
    | (Ok a, s', w') => k a s' w'
    | (Raise e, s', w') => (Raise e, s', w')
    end.

Notation "x <- m ;; k" := (bind m (fun x => k))
  (at level 61, m at next level, right associativity).
Notation "m ;;; k" := (bind m (fun _ => k))
  (at level 61, right associativity).

(** [try: m  except Exception: h] *)
Definition try_except {S A} (m : M S A) (h : exn -> M S A) : M S A :=
  fun s w =>
    match m s w with
    | (Ok a, s', w') => (Ok a, s', w')
    | (Raise e, s', w') => h e s' w'
    end.

Definition lift {S A} (r : res A) : M S A := fun s w => (r, s, w).

Definition get_self {S} : M S S := fun s w => (Ok s, s, w).

Definition put_self {S} (s : S) : M S unit := fun _ w => (Ok tt, s, w).

Definition gets {S A} (f : S -> A) : M S A := fun s w => (Ok (f s), s, w).

Definition modify {S} (f : S -> S) : M S unit := fun s w => (Ok tt, f s, w).

(** Run a method of a part of [self] (an attribute holding an object). *)
Definition on_part {S P A} (proj : S -> P) (inj : P -> S -> S) (m : M P A)
  : M S A :=
  fun s w => let '(r, p', w') := m (proj s) w in (r, inj p' s, w').

(** [for x in xs: body(x)] *)
Fixpoint for_each {S X} (xs : list X) (body : X -> M S unit) : M S unit :=
  match xs with
  | [] => ret tt
  | x :: r => body x ;;; for_each r body
  end.

(** [[f(x) for x in xs]] *)
Fixpoint map_m {S X Y} (f : X -> M S Y) (xs : list X) : M S (list Y) :=
  match xs with
  | [] => ret []
  | x :: r => y <- f x ;; ys <- map_m f r ;; ret (y :: ys)
  end.

(** [[x for x in xs if p(x)]] *)
Fixpoint filter_m {S X} (p : X -> M S bool) (xs : list X) : M S (list X) :=
  match xs with
  | [] => ret []
  | x :: r =>
      b <- p x ;; ys <- filter_m p r ;; ret (if b then x :: ys else ys)
  end.

Section Primitives.
Variable E : Env.
Context {S : Type}.

(** [datetime.utcnow()] *)
Definition utcnow : M S datetime :=
  fun s w =>
    (Ok (utcnow_at E (clock_reads w)), s,
     mkWorld (Datatypes.S (clock_reads w)) (uuid_draws w) (random_draws w)
             (snapshot w) (snapshot_writable w) (generate_calls w)).

(** [str(uuid.uuid4())] *)
Definition uuid4 : M S string :=
  fun s w =>
    (Ok (uuid4_at E (uuid_draws w)), s,
     mkWorld (clock_reads w) (Datatypes.S (uuid_draws w)) (random_draws w)
             (snapshot w) (snapshot_writable w) (generate_calls w)).

(** [random.choice(options)] on a non-empty list. *)
Definition random_choice {X} (dflt : X) (options : list X) : M S X :=
  fun s w =>
    (Ok (nth (Nat.modulo (choice_at E (random_draws w)) (length options))
             options dflt), s,
     mkWorld (clock_reads w) (uuid_draws w) (Datatypes.S (random_draws w))
             (snapshot w) (snapshot_writable w) (generate_calls w)).

(** [GeminiClient(...)]: refuses to be built without an API key. *)
Definition GeminiClient : M S unit :=
  if api_key_set E then ret tt else raise ValueError.

(** [await client.generate_text(prompt)]: the prompt goes out, the answer
    or the failure comes back. *)
Definition generate_text (prompt : string) : M S string :=
  fun s w =>
    (generate_content E (length (generate_calls w)) prompt, s,
     mkWorld (clock_reads w) (uuid_draws w) (random_draws w)
             (snapshot w) (snapshot_writable w)
             (generate_calls w ++ [prompt])%list).

(** [open(path, 'r')] followed by [json.load]. *)
Definition read_snapshot : M S (option pyval) :=
  fun s w =>
    match snapshot w with
    | DiskMissing => (Ok None, s, w)
    | DiskUnreadable => (Raise OSError, s, w)
    | DiskGarbage => (Raise JSONDecodeError, s, w)
    | DiskJson doc => (Ok (Some doc), s, w)
    end.

(** [open(path, 'w')] followed by [json.dump]: the file is truncated as
    soon as it is open, so a document that cannot be written leaves an
    unreadable file behind. *)
Definition write_snapshot (doc : pyval) : M S unit :=
  fun s w =>
    if snapshot_writable w then
      if json_serializable doc
      then (Ok tt, s,
            mkWorld (clock_reads w) (uuid_draws w) (random_draws w)
                    (DiskJson doc) (snapshot_writable w) (generate_calls w))
      else (Raise TypeError, s,
            mkWorld (clock_reads w) (uuid_draws w) (random_draws w)
                    DiskGarbage (snapshot_writable w) (generate_calls w))
    else (Raise OSError, s, w).

End Primitives.

(** [d[k]] on a dict: a missing key raises. *)
Definition subscript (k : string) (d : pydict pyval) : res pyval :=
  match PyDict.get k d with
  | Some v => Ok v
  | None => Raise KeyError
  end.

(** A number as far as [int] comparison and negation go: [bool] is an
    [int]. *)
Definition as_int (v : pyval) : option Z :=
  match v with
  | PInt z => Some z
  | PBool b => Some (if b then 1 else 0)
  | _ => None
  end.

(** [n > bound] for a length [n] and an arbitrary object. *)
Definition len_gt (n : nat) (bound : pyval) : res bool :=
  match bound with
  | PFloat q => Ok (negb (Qle_bool (inject_Z (Z.of_nat n)) q))
  | _ =>
      match as_int bound with
      | Some h => Ok (Z.of_nat n >? h)
      | None => Raise TypeError
      end
  end.

(** [l[-bound:]]: a slice index has to be an integer. *)
Definition last_items (bound : pyval) (l : list pyval) : res (list pyval) :=
  match as_int bound with
  | Some h => Ok (slice_from (- h) l)
  | None => Raise TypeError
  end.

(* ------------------------------------------------------------------ *)
(** ** dialogue_manager.py: [UserProfile] *)

Module UserProfile.

Record t : Type := mk {
  user_id : pyval;
  first_name : pyval;
  last_name : pyval;
  email : pyval;
  role : pyval;
  experience_years : pyval;
  languages : pyval;
  preferences : pyval;
  skills : pyval;
  certifications : pyval;
  last_active : datetime;
  created_at : datetime
}.

Definition set_last_active (d : datetime) (p : t) : t :=
  mk (user_id p) (first_name p) (last_name p) (email p) (role p)
     (experience_years p) (languages p) (preferences p) (skills p)
     (certifications p) d (created_at p).

Definition set_created_at (d : datetime) (p : t) : t :=
  mk (user_id p) (first_name p) (last_name p) (email p) (role p)
     (experience_years p) (languages p) (preferences p) (skills p)
     (certifications p) (last_active p) d.

(** [to_dict] *)
Definition to_dict (self : t) : pyval :=
  PDict [("user_id", user_id self);
         ("first_name", first_name self);
         ("last_name", last_name self);
         ("email", email self);
         ("role", role self);
         ("experience_years", experience_years self);
         ("languages", languages self);
         ("preferences", preferences self);
         ("skills", skills self);
         ("certifications", certifications self);
         ("last_active", PStr (isoformat (last_active self)));
         ("created_at", PStr (isoformat (created_at self)))].

Section Methods.
Variable E : Env.
Context {S : Type}.

(** [UserProfile(user_id)]: a falsy [user_id] is replaced by a new uuid. *)
Definition __init__ (uid : pyval) : M S t :=
  uid' <- (if truthy uid then ret uid
           else (u <- uuid4 E ;; ret (PStr u))) ;;
  la <- utcnow E ;;
  ca <- utcnow E ;;
  ret (mk uid' PNone PNone PNone PNone (PInt 0)
          (PList [PStr "Français"])
          (PDict [("notification_enabled", PBool true);
                  ("language", PStr "fr");
                  ("theme", PStr "light")])
          (PList []) (PList []) la ca).

(** [if key in data and data[key]: ... = datetime.fromisoformat(data[key])] *)
Definition stored_date (key : string) (d : pydict pyval) (dflt : datetime)
  : M S datetime :=
  match PyDict.get key d with
  | Some v => if truthy v then lift (fromisoformat_obj v) else ret dflt
  | None => ret dflt
  end.

(** [UserProfile.from_dict(data)] *)
Definition from_dict (data : pyval) : M S t :=
  match data with
  | PDict d =>
      profile <- __init__ (PyDict.get_default "user_id" PNone d) ;;
      la <- stored_date "last_active" d (last_active profile) ;;
      ca <- stored_date "created_at" d (created_at profile) ;;
      ret (mk (user_id profile)
              (PyDict.get_default "first_name" PNone d)
              (PyDict.get_default "last_name" PNone d)
              (PyDict.get_default "email" PNone d)
              (PyDict.get_default "role" PNone d)
              (PyDict.get_default "experience_years" (PInt 0) d)
              (PyDict.get_default "languages" (PList [PStr "Français"]) d)
              (PyDict.get_default "preferences" (PDict []) d)
              (PyDict.get_default "skills" (PList []) d)
              (PyDict.get_default "certifications" (PList []) d)
              la ca)
  | _ => raise AttributeError     (* no [.get] on anything but a dict *)
  end.

End Methods.
End UserProfile.

(* ------------------------------------------------------------------ *)
(** ** dialogue_manager.py: [ConversationContext] *)

Module ConversationContext.

Record t : Type := mk {
  user_id : pyval;
  session_id : pyval;
  created_at : datetime;
  last_activity : datetime;
  messages : pyval;
  current_intent : pyval;
  entities : pyval;
  slots : pyval;
  max_history : pyval
}.

Definition set_messages (m : pyval) (c : t) : t :=
  mk (user_id c) (session_id c) (created_at c) (last_activity c) m
     (current_intent c) (entities c) (slots c) (max_history c).

Definition set_last_activity (d : datetime) (c : t) : t :=
  mk (user_id c) (session_id c) (created_at c) d (messages c)
     (current_intent c) (entities c) (slots c) (max_history c).

Definition set_current_intent (i : pyval) (c : t) : t :=
  mk (user_id c) (session_id c) (created_at c) (last_activity c) (messages c)
     i (entities c) (slots c) (max_history c).

(** [to_dict]: [max_history] is not among the keys written. *)
Definition to_dict (self : t) : pyval :=
  PDict [("user_id", user_id self);
         ("session_id", session_id self);
         ("created_at", PStr (isoformat (created_at self)));
         ("last_activity", PStr (isoformat (last_activity self)));
         ("current_intent", current_intent self);
         ("entities", entities self);
         ("slots", slots self);
         ("messages", messages self)].

(** [get_last_messages(n)]: [self.messages[-n:] if self.messages else []] *)
Definition get_last_messages (n : Z) (self : t) : res pyval :=
  if truthy (messages self) then
    match messages self with
    | PList l => Ok (PList (slice_from (- n) l))
    | PStr s =>
        Ok (PStr (string_of_list_ascii
                    (slice_from (- n) (list_ascii_of_string s))))
    | _ => Raise TypeError
    end
  else Ok (PList []).

Section Methods.
Variable E : Env.

(** [ConversationContext(user_id, max_history)] *)
Definition __init__ {S} (uid : pyval) (bound : pyval) : M S t :=
  sid <- uuid4 E ;;
  ca <- utcnow E ;;
  la <- utcnow E ;;
  ret (mk uid (PStr sid) ca la (PList []) PNone (PDict []) (PDict []) bound).

(** [add_message(role, content, intent, **kwargs)], a method on [self] *)
Definition add_message (role content : string) (intent : pyval)
    (kwargs : pydict pyval) : M t unit :=
  now <- utcnow E ;;
  let message :=
    PDict (PyDict.update [("timestamp", PStr (isoformat now));
                          ("role", PStr role);
                          ("content", PStr content);
                          ("intent", intent)] kwargs) in
  self <- get_self ;;
  match messages self with
  | PList l =>
      modify (set_messages (PList (l ++ [message])%list)) ;;;
      now' <- utcnow E ;;
      modify (set_last_activity now') ;;;
      (* Garder uniquement les N derniers messages *)
      exceeds <- lift (len_gt (length (l ++ [message])%list) (max_history self)) ;;
      if (exceeds : bool) then
        kept <- lift (last_items (max_history self) (l ++ [message])%list) ;;
        modify (set_messages (PList kept))
      else ret tt
  | _ => raise AttributeError    (* no [.append] on anything but a list *)
  end.

(** [ConversationContext.from_dict(data)] *)
Definition from_dict {S} (data : pyval) : M S t :=
  match data with
  | PDict d =>
      uid <- lift (subscript "user_id" d) ;;
      context <- __init__ uid (PyDict.get_default "max_history" (PInt 10) d) ;;
      fresh <- uuid4 E ;;
      ca <- (x <- lift (subscript "created_at" d) ;; lift (fromisoformat_obj x)) ;;
      la <- (x <- lift (subscript "last_activity" d) ;; lift (fromisoformat_obj x)) ;;
      ret (mk (user_id context)
              (PyDict.get_default "session_id" (PStr fresh) d)
              ca la
              (PyDict.get_default "messages" (PList []) d)
              (PyDict.get_default "current_intent" PNone d)
              (PyDict.get_default "entities" (PDict []) d)
              (PyDict.get_default "slots" (PDict []) d)
              (max_history context))
  | _ => raise TypeError         (* [data["user_id"]] on a non-dict *)
  end.

End Methods.
End ConversationContext.

(* ------------------------------------------------------------------ *)
(** ** intent_classifier.py: [CareerCoachChatbot] *)

Module CareerCoachChatbot.

(** One entry of [conversation_history]: [{"role": ..., "content": ...}]. *)
Record Turn : Type := mkTurn { role : string; content : string }.

(** The [ChatResponse] dataclass.  Its [processing_time], a difference of
    two wall-clock floats that no caller reads, is left out. *)
Record ChatResponse : Type := mkChatResponse {
  response : string;
  confidence : Q
}.

Record t : Type := mk {
  use_gemini : bool;
  conversation_history : list Turn
}.

Definition set_conversation_history (h : list Turn) (self : t) : t :=
  mk (use_gemini self) h.

Definition nl : string := String (ascii_of_nat 10) EmptyString.

(** [self.career_context], set once by the constructor. *)
Definition career_context : string :=
  "
        Tu es un conseiller de carrière expert dans l'aviation civile, spécialisé dans les métiers de Personnel Navigant Commercial (PNC) - hôtesses de l'air et stewards.

        Domaines d'expertise :
        - Compétences requises pour devenir PNC
        - Conseils CV et lettres de motivation pour l'aviation
        - Préparation aux entretiens avec les compagnies aériennes
        - Formations et certifications (SMURF, sécurité, premiers secours)
        - Marché de l'emploi dans l'aviation civile
        - Évolution de carrière (chef de cabine, instructeur, etc.)

        Ta mission : Aider les candidats avec des conseils pratiques, personnalisés et précis sur les métiers du PNC.

        Si on te pose des questions hors de ton domaine d'expertise, réponds de manière utile tout en recentrant si possible sur l'aviation, ou explique poliment que tu es spécialisé dans ce domaine.
        ".

Definition empty_message_reply : string :=
  "Bonjour ! Comment puis-je vous aider dans votre projet de carrière dans l'aviation ?".

Definition greeting_reply : string :=
  "Bonjour ! 👋 Je suis votre conseiller carrière spécialisé dans l'aviation. Comment puis-je vous aider aujourd'hui pour votre projet de devenir hôtesse de l'air ou steward ?".

Definition thanks_reply : string :=
  "Je vous en prie ! N'hésitez pas si vous avez d'autres questions sur votre carrière dans l'aviation. 😊".

Definition no_gemini_reply : string :=
  "Je suis un assistant spécialisé dans les carrières de l'aviation. Posez-moi vos questions sur les métiers de PNC, les formations, les entretiens, ou tout autre sujet lié à l'aviation civile !".

Definition gemini_error_reply : string :=
  "Désolé, une erreur s'est produite lors du traitement de votre demande.".

(** [CareerCoachChatbot(use_gemini)] *)
Definition __init__ (use : bool) : t := mk use [].

(** [re.sub(r'^(Assistant|AI|Bot):\s*', '', s)] *)
Definition strip_speaker (s : string) : string :=
  if PyStr.startswith "Assistant:" s then PyStr.lstrip (PyStr.drop 10 s)
  else if PyStr.startswith "AI:" s then PyStr.lstrip (PyStr.drop 3 s)
  else if PyStr.startswith "Bot:" s then PyStr.lstrip (PyStr.drop 4 s)
  else s.

Definition ends_sentence (s : string) : bool :=
  match PyStr.last_char s with
  | Some c => Ascii.eqb c "." || Ascii.eqb c "!" || Ascii.eqb c "?"
  | None => false
  end.

(** [_clean_response] *)
Definition _clean_response (response : string) : string :=
  let response := strip_speaker (PyStr.strip response) in
  if negb (PyStr.is_empty response) && negb (ends_sentence response)
  then response ++ "."
  else response.

Definition greetings : list string :=
  ["bonjour"; "salut"; "hello"; "hi"; "coucou"; "hey"].

Definition thanks : list string :=
  ["merci"; "thank you"; "thanks"; "merci beaucoup"].

(** [_is_greeting]: [any(greeting in text.lower() for greeting in greetings)] *)
Definition _is_greeting (text : string) : bool :=
  existsb (fun greeting => PyStr.contains greeting (PyStr.lower text)) greetings.

(** [_is_thanks] *)
Definition _is_thanks (text : string) : bool :=
  existsb (fun thank => PyStr.contains thank (PyStr.lower text)) thanks.

(** The prompt [_call_gemini] builds: the career context, the last six
    entries of the history it is given, then the new message. *)
Definition build_prompt (user_message : string) (conversation_context : list Turn)
  : string :=
  let prompt := career_context ++ nl ++ nl in
  let prompt :=
    fold_left (fun p msg => p ++ (role msg ++ ": " ++ content msg ++ nl))
              (slice_from (-6) conversation_context) prompt in
  prompt ++ ("Utilisateur: " ++ user_message ++ nl ++ "Assistant:").

(** [len([msg for msg in self.conversation_history if msg["role"] == r])] *)
Definition count_role (r : string) (history : list Turn) : nat :=
  length (filter (fun msg => String.eqb (role msg) r) history).

(** [get_conversation_summary] *)
Definition get_conversation_summary (self : t) : pydict pyval :=
  [("total_messages", PInt (Z.of_nat (length (conversation_history self))));
   ("user_messages", PInt (Z.of_nat (count_role "user" (conversation_history self))));
   ("assistant_messages",
    PInt (Z.of_nat (count_role "assistant" (conversation_history self))))].

Section Methods.
Variable E : Env.

(** [_call_gemini]: whatever goes wrong becomes an apology.  The source
    has a second handler, for [ImportError], with another text; nothing in
    the [try] block imports a module, and the two calls in it raise none
    here, so that handler is never entered. *)
Definition _call_gemini (user_message : string) (conversation_context : list Turn)
  : M t string :=
  try_except
    (let prompt := build_prompt user_message conversation_context in
     GeminiClient E ;;;
     answer <- generate_text E prompt ;;
     ret (_clean_response answer))
    (fun _ => ret gemini_error_reply).

(** [send_message] *)
Definition send_message (user_message : string) : M t ChatResponse :=
  if PyStr.is_empty (PyStr.strip user_message) then
    ret (mkChatResponse empty_message_reply 1)
  (* Réponses rapides pour les salutations et remerciements *)
  else if _is_greeting user_message then
    ret (mkChatResponse greeting_reply 1)
  else if _is_thanks user_message then
    ret (mkChatResponse thanks_reply 1)
  else
    self <- get_self ;;
    if use_gemini self then
      modify (fun s => set_conversation_history
                (conversation_history s ++ [mkTurn "user" user_message])%list s) ;;;
      history <- gets conversation_history ;;
      gemini_response <- _call_gemini user_message history ;;
      modify (fun s => set_conversation_history
                (conversation_history s ++ [mkTurn "assistant" gemini_response])%list s) ;;;
      history <- gets conversation_history ;;
      (if (10 <? length history)%nat
       then modify (set_conversation_history (slice_from (-10) history))
       else ret tt) ;;;
      ret (mkChatResponse gemini_response (9 # 10))
    else
      ret (mkChatResponse no_gemini_reply 1).

(** [clear_conversation] *)
Definition clear_conversation : M t unit := modify (set_conversation_history []).

End Methods.
End CareerCoachChatbot.

(* ------------------------------------------------------------------ *)
(** ** response_generator.py: [ResponseGenerator] *)

(** [needle in v] for a [str] needle and an arbitrary object. *)
Definition py_in (needle : string) (v : pyval) : res bool :=
  match v with
  | PStr s => Ok (PyStr.contains needle s)
  | PList l =>
      Ok (existsb (fun x => match x with
                            | PStr y => String.eqb needle y
                            | _ => false
                            end) l)
  | PDict d => Ok (PyDict.mem needle d)
  | _ => Raise TypeError
  end.

Module ResponseGenerator.

Record t : Type := mk {
  faq : pyval;
  gemini_client : bool      (* [self.gemini_client is not None] *)
}.

Definition AEROSPACE_PROMPT : string :=
  "
Tu es un assistant de carrière expert dans le secteur aéronautique, spécialisé dans l'accompagnement du personnel navigant (hôtesses, stewards, PNC).
Ton rôle est de fournir des conseils professionnels précis et pertinents pour ce secteur spécifique.

Points clés à respecter :
- Utilise un langage professionnel mais accessible
- Sois précis sur les certifications et formations (SMURF, MCC, etc.)
- Mentionne les spécificités du métier (décalages horaires, conditions de travail, etc.)
- Reste à jour avec les dernières réglementations aériennes
- Privilégie les réponses concrètes et actionnables

Si la question sort de ton domaine d'expertise, indique-le clairement.
".

Definition prompt_part_0 : string :=
  "
            
            Contexte de la conversation:
            - Utilisateur: ".

Definition prompt_part_1 : string :=
  "
            - Dernière intention détectée: ".

Definition prompt_part_2 : string :=
  "
            - Historique récent: ".

Definition prompt_part_3 : string :=
  "
            
            Message de l'utilisateur: ".

Definition prompt_part_4 : string :=
  "
            
            Réponds de manière professionnelle en français, en te concentrant sur les aspects carrière dans l'aérien.
            Si la question concerne un sujet hors de ton domaine, explique-le poliment.
            ".

Definition service_unavailable_text : string :=
  "Désolé, le service de génération de réponses n'est pas disponible pour le moment.".

Definition technical_difficulty_text : string :=
  "Je rencontre des difficultés techniques pour générer une réponse. Veuillez réessayer plus tard.".

Definition default_text : string :=
  "Je ne suis pas sûr de comprendre. Pouvez-vous reformuler ?".

Definition fallback_text_0 : string :=
  "Je n'ai pas pu trouver de réponse appropriée dans ma base de connaissances. Pouvez-vous reformuler votre question ou la poser différemment ?".

Definition fallback_text_1 : string :=
  "Je ne suis pas sûr de bien comprendre votre demande. Pourriez-vous la reformuler ?".

Definition fallback_text_2 : string :=
  "Je n'ai pas d'information précise sur ce sujet. Avez-vous une autre question ?".

Definition fallback_responses : list string :=
  [fallback_text_0; fallback_text_1; fallback_text_2].

(** [_find_in_faq], first tier: the normalized names are equal. *)
Fixpoint find_exact (normalized_intent : string) (items : pydict pyval)
  : option (string * pyval) :=
  match items with
  | [] => None
  | (faq_intent, data) :: r =>
      if String.eqb normalized_intent (PyStr.normalize faq_intent)
      then Some (faq_intent, data)
      else find_exact normalized_intent r
  end.

(** Second tier: one normalized name occurs in the other. *)
Fixpoint find_partial (normalized_intent : string) (items : pydict pyval)
  : option (string * pyval) :=
  match items with
  | [] => None
  | (faq_intent, data) :: r =>
      let normalized_faq_intent := PyStr.normalize faq_intent in
      if PyStr.contains normalized_faq_intent normalized_intent
         || PyStr.contains normalized_intent normalized_faq_intent
      then Some (faq_intent, data)
      else find_partial normalized_intent r
  end.

(** [data.get("keywords", [])] as the sequence the [for] loop walks. *)
Definition keywords_of (data : pyval) : res (list pyval) :=
  match data with
  | PDict d =>
      match PyDict.get_default "keywords" (PList []) d with
      | PList ks => Ok ks
      | PStr s =>
          Ok (map (fun c => PStr (String c EmptyString)) (list_ascii_of_string s))
      | PDict kd => Ok (map PStr (PyDict.keys kd))
      | _ => Raise TypeError
      end
  | _ => Raise AttributeError
  end.

(** [keyword.lower() in user_message_lower] for some keyword. *)
Fixpoint keyword_hit (user_message_lower : string) (ks : list pyval) : res bool :=
  match ks with
  | [] => Ok false
  | PStr keyword :: r =>
      if PyStr.contains (PyStr.lower keyword) user_message_lower
      then Ok true
      else keyword_hit user_message_lower r
  | _ :: _ => Raise AttributeError
  end.

(** Third tier: a keyword of the entry occurs in the message. *)
Fixpoint find_keyword (user_message_lower : string) (items : pydict pyval)
  : res (option (string * pyval)) :=
  match items with
  | [] => Ok None
  | (faq_intent, data) :: r =>
      match keywords_of data with
      | Raise e => Raise e
      | Ok ks =>
          match keyword_hit user_message_lower ks with
          | Raise e => Raise e
          | Ok true => Ok (Some (faq_intent, data))
          | Ok false => find_keyword user_message_lower r
          end
      end
  end.

(** [self.faq.get("intents", {}).items()], or nothing when the guard
    [not self.faq or "intents" not in self.faq] holds. *)
Definition faq_items (f : pyval) : res (option (pydict pyval)) :=
  if negb (truthy f) then Ok None
  else
    match py_in "intents" f with
    | Raise e => Raise e
    | Ok false => Ok None
    | Ok true =>
        match f with
        | PDict d =>
            match PyDict.get_default "intents" (PDict []) d with
            | PDict items => Ok (Some items)
            | _ => Raise AttributeError
            end
        | _ => Raise AttributeError
        end
    end.

(** [_find_in_faq]: the entry found, with the key it is stored under. *)
Definition _find_in_faq (self : t) (intent user_message : string)
  : res (option (string * pyval)) :=
  match faq_items (faq self) with
  | Raise e => Raise e
  | Ok None => Ok None
  | Ok (Some items) =>
      let normalized_intent := PyStr.normalize intent in
      match find_exact normalized_intent items with
      | Some hit => Ok (Some hit)
      | None =>
          match find_partial normalized_intent items with
          | Some hit => Ok (Some hit)
          | None => find_keyword (PyStr.lower user_message) items
          end
      end
  end.

(** [self.faq["intents"][key] = entry]: where an entry that
    [_format_response] changed in place lives. *)
Definition store_entry (key : string) (entry : pyval) (self : t) : t :=
  match faq self with
  | PDict d =>
      match PyDict.get "intents" d with
      | Some (PDict items) =>
          mk (PDict (PyDict.set "intents" (PDict (PyDict.set key entry items)) d))
             (gemini_client self)
      | _ => self
      end
  | _ => self
  end.

Section Methods.
Variable E : Env.

(** [_load_faq]: any failure gives an empty table. *)
Definition _load_faq : pyval :=
  match faq_file E with
  | DiskJson doc => doc
  | _ => PDict [("intents", PDict [])]
  end.

(** [ResponseGenerator(faq_path)] *)
Definition __init__ (with_faq_path : bool) : t :=
  mk (if with_faq_path then _load_faq else PDict []) (api_key_set E).

(** [f"{x}"] *)
Definition fmt (v : pyval) : string :=
  match v with
  | PStr s => s
  | _ => py_str E v
  end.

(** [x[-3:]] *)
Definition last_three (v : pyval) : res pyval :=
  match v with
  | PList l => Ok (PList (slice_from (-3) l))
  | PStr s =>
      Ok (PStr (string_of_list_ascii (slice_from (-3) (list_ascii_of_string s))))
  | _ => Raise TypeError
  end.

(** The f-string of [_generate_with_gemini]. *)
Definition build_prompt (user_message : string) (context : pyval) : res string :=
  match context with
  | PDict c =>
      match last_three (PyDict.get_default "last_messages" (PList []) c) with
      | Raise e => Raise e
      | Ok recent =>
          Ok (AEROSPACE_PROMPT ++ prompt_part_0
              ++ fmt (PyDict.get_default "user_id" (PStr "Nouvel utilisateur") c)
              ++ prompt_part_1
              ++ fmt (PyDict.get_default "intent" (PStr "Inconnue") c)
              ++ prompt_part_2 ++ fmt recent
              ++ prompt_part_3 ++ user_message ++ prompt_part_4)
      end
  | _ => Raise AttributeError
  end.

(** [_generate_with_gemini] *)
Definition _generate_with_gemini (user_message : string) (context : pyval)
  : M t pyval :=
  self <- get_self ;;
  if negb (gemini_client self) then
    ret (PDict [("text", PStr service_unavailable_text);
                ("suggestions", PList [PStr "Voir l'aide"; PStr "Contacter le support"])])
  else
    try_except
      (prompt <- lift (build_prompt user_message context) ;;
       response_text <- generate_text E prompt ;;
       now <- utcnow E ;;
       ret (PDict [("text", PStr (PyStr.strip response_text));
                   ("source", PStr "gemini");
                   ("timestamp", PStr (isoformat now))]))
      (fun _ =>
         ret (PDict [("text", PStr technical_difficulty_text);
                     ("source", PStr "error");
                     ("suggestions", PList [PStr "Réessayer"; PStr "Contacter le support"])])).

(** The body of [_format_response], a method on the dict it is given: the
    dict is changed in place, and so is whoever else holds it. *)
Definition format_in_place (intent : string) (context : pyval)
  : M (pydict pyval) unit :=
  modify (PyDict.setdefault "text" (PStr default_text)) ;;;
  modify (PyDict.setdefault "suggestions" (PList [])) ;;;
  response_data <- get_self ;;
  is_faq <- lift (py_in "faq" (PyDict.get_default "source" (PStr "") response_data)) ;;
  modify (PyDict.setdefault "source"
            (PStr (if (is_faq : bool) then "faq" else "generated"))) ;;;
  modify (PyDict.set "intent" (PStr intent)) ;;;
  now <- utcnow E ;;
  modify (PyDict.set "timestamp" (PStr (isoformat now))) ;;;
  context_keys <- lift (match context with
                        | PDict c => Ok (PyDict.keys c)
                        | _ => Raise AttributeError
                        end) ;;
  response_data <- get_self ;;
  response_source <- lift (subscript "source" response_data) ;;
  modify (PyDict.set "_debug"
            (PDict [("intent", PStr intent);
                    ("context_keys", PList (map PStr context_keys));
                    ("response_source", response_source)])).

(** Run [format_in_place] on a dict and hand the dict back. *)
Definition formatted (intent : string) (context : pyval) (d : pydict pyval)
    (w : World) : res pyval * pydict pyval * World :=
  let '(r, d', w') := format_in_place intent context d w in
  (match r with Ok _ => Ok (PDict d') | Raise e => Raise e end, d', w').

(** [_format_response] on a dict nobody else holds. *)
Definition _format_response {S} (response_data : pyval) (intent : string)
    (context : pyval) : M S pyval :=
  fun s w =>
    let d := match response_data with
             | PDict d => d
             | other => [("text", PStr (fmt other))]
             end in
    let '(r, _, w') := formatted intent context d w in (r, s, w').

(** [_format_response] on an entry of the FAQ table: the entry itself is
    what gets formatted. *)
Definition format_faq_entry (key : string) (data : pyval) (intent : string)
    (context : pyval) : M t pyval :=
  match data with
  | PDict d =>
      fun self w =>
        let '(r, d', w') := formatted intent context d w in
        (r, store_entry key (PDict d') self, w')
  | _ => _format_response data intent context
  end.

(** The last stage of [generate_response]. *)
Definition fallback_response (intent : string) (context : pyval) : M t pyval :=
  fallback_text <- random_choice E fallback_text_0 fallback_responses ;;
  _format_response
    (PDict [("text", PStr fallback_text);
            ("source", PStr "fallback");
            ("suggestions", PList [PStr "Voir l'aide"; PStr "Poser une autre question"])])
    intent context.

(** The generative stage: a response with a non-empty text, or nothing. *)
Definition gemini_stage (user_message : string) (context : pyval)
  : M t (option pyval) :=
  self <- get_self ;;
  if gemini_client self then
    try_except
      (gemini_response <- _generate_with_gemini user_message context ;;
       text <- lift (match gemini_response with
                     | PDict g => Ok (PyDict.get_default "text" PNone g)
                     | _ => Raise AttributeError
                     end) ;;
       if truthy gemini_response && truthy text
       then ret (Some gemini_response)
       else ret None)
      (fun _ => ret None)
  else ret None.

(** [generate_response] *)
Definition generate_response (user_message intent : string) (context : pyval)
  : M t pyval :=
  let context := if truthy context then context else PDict [] in
  self <- get_self ;;
  (* D'abord chercher dans la FAQ *)
  faq_response <- lift (_find_in_faq self intent user_message) ;;
  match faq_response with
  | Some (key, data) =>
      if truthy data then format_faq_entry key data intent context
      else
        g <- gemini_stage user_message context ;;
        match g with
        | Some gemini_response => ret gemini_response
        | None => fallback_response intent context
        end
  | None =>
      g <- gemini_stage user_message context ;;
      match g with
      | Some gemini_response => ret gemini_response
      | None => fallback_response intent context
      end
  end.

End Methods.
End ResponseGenerator.

(* ------------------------------------------------------------------ *)
(** ** dialogue_manager.py: [DialogueManager]

    The snapshot file at [storage_path] is the [snapshot] of the world. *)

Module DialogueManager.

Record t : Type := mk {
  contexts : pydict ConversationContext.t;
  user_profiles : pydict UserProfile.t;
  chatbot : CareerCoachChatbot.t;
  response_generator : ResponseGenerator.t
}.

Definition set_contexts (c : pydict ConversationContext.t) (self : t) : t :=
  mk c (user_profiles self) (chatbot self) (response_generator self).

Definition set_user_profiles (p : pydict UserProfile.t) (self : t) : t :=
  mk (contexts self) p (chatbot self) (response_generator self).

Definition set_chatbot (c : CareerCoachChatbot.t) (self : t) : t :=
  mk (contexts self) (user_profiles self) c (response_generator self).

(** The document [_save_contexts] writes, given the time of the write. *)
Definition snapshot_document (self : t) (now : datetime) : pyval :=
  PDict [("contexts",
          PDict (map (fun kv => (fst kv, ConversationContext.to_dict (snd kv)))
                     (contexts self)));
         ("profiles",
          PDict (map (fun kv => (fst kv, UserProfile.to_dict (snd kv)))
                     (user_profiles self)));
         ("last_updated", PStr (isoformat now))].

Section Methods.
Variable E : Env.

(** Call a method of the context object stored under [user_id]. *)
Definition with_context {A} (user_id : string) (m : M ConversationContext.t A)
  : M t A :=
  fun self w =>
    match PyDict.get user_id (contexts self) with
    | Some c =>
        let '(r, c', w') := m c w in
        (r, set_contexts (PyDict.set user_id c' (contexts self)) self, w')
    | None => (Raise KeyError, self, w)
    end.

(** Call a method of the profile object stored under [user_id]. *)
Definition with_profile {A} (user_id : string) (m : M UserProfile.t A)
  : M t A :=
  fun self w =>
    match PyDict.get user_id (user_profiles self) with
    | Some p =>
        let '(r, p', w') := m p w in
        (r, set_user_profiles (PyDict.set user_id p' (user_profiles self)) self, w')
    | None => (Raise KeyError, self, w)
    end.

(** [x.items()], or [AttributeError] when [x] is not a dict. *)
Definition items (x : pyval) : res (pydict pyval) :=
  match x with
  | PDict d => Ok d
  | _ => Raise AttributeError
  end.

(** [{k: f(v) for k, v in d.items()}] *)
Fixpoint comprehension {S V} (f : pyval -> M S V) (d : pydict pyval)
    (acc : pydict V) : M S (pydict V) :=
  match d with
  | [] => ret acc
  | (k, v) :: r => x <- f v ;; comprehension f r (PyDict.set k x acc)
  end.

(** [_save_contexts] *)
Definition _save_contexts : M t unit :=
  try_except
    (self <- get_self ;;
     now <- utcnow E ;;
     write_snapshot (snapshot_document self now))
    (fun _ => ret tt).

(** [_load_contexts] *)
Definition _load_contexts : M t unit :=
  try_except
    (stored <- read_snapshot ;;
     match stored with
     | None => ret tt                       (* the file does not exist *)
     | Some data =>
         top <- lift (items data) ;;
         cdocs <- lift (items (PyDict.get_default "contexts" (PDict []) top)) ;;
         cs <- comprehension (ConversationContext.from_dict E) cdocs [] ;;
         modify (set_contexts cs) ;;;
         pdocs <- lift (items (PyDict.get_default "profiles" (PDict []) top)) ;;
         ps <- comprehension (UserProfile.from_dict E) pdocs [] ;;
         modify (set_user_profiles ps)
     end)
    (fun _ =>
       modify (set_contexts []) ;;;
       modify (set_user_profiles [])).

(** [self.storage_path.parent.mkdir(parents=True, exist_ok=True)] finds
    the directory in place whenever the snapshot file exists or can be
    written; otherwise the directory is made, or [OSError] is raised when
    it cannot be. *)
Definition dir_ready (w : World) : bool :=
  match snapshot w with
  | DiskMissing => snapshot_writable w || storage_dir_ok E
  | _ => true
  end.

Definition mkdir_storage_parent {S} : M S unit :=
  fun s w => if dir_ready w then (Ok tt, s, w) else (Raise OSError, s, w).

(** [DialogueManager(storage_path)]: the directory is made outside any
    [try], then the snapshot is loaded. *)
Definition __init__ {S} : M S t :=
  fun s w =>
    match mkdir_storage_parent s w with
    | (Raise e, s1, w1) => (Raise e, s1, w1)
    | (Ok _, s1, w1) =>
        let self := mk [] [] (CareerCoachChatbot.__init__ true)
                       (ResponseGenerator.__init__ E true) in
        let '(r, self', w') := _load_contexts self w1 in
        (match r with Ok _ => Ok self' | Raise e => Raise e end, s1, w')
    end.

(** [timedelta(days=n)] has a bounded range. *)
Definition timedelta_days (n : Z) : res Z :=
  if (Z.abs n <=? 999999999) then Ok n else Raise OverflowError.

(** [_cleanup_old_contexts(max_age_days)] *)
Definition _cleanup_old_contexts (max_age_days : Z) : M t unit :=
  now <- utcnow E ;;
  delta <- lift (timedelta_days max_age_days) ;;
  cutoff <- lift (sub_days now delta) ;;
  self <- get_self ;;
  to_remove <-
    filter_m (fun kv =>
                last <- lift (fromisoformat_obj
                                (PDatetime (ConversationContext.last_activity (snd kv)))) ;;
                ret (PyDatetime.ltb last cutoff))
             (contexts self) ;;
  for_each to_remove
    (fun kv => modify (fun s => set_contexts (PyDict.del (fst kv) (contexts s)) s)) ;;;
  _save_contexts.

(** [get_or_create_context(user_id)] *)
Definition get_or_create_context (user_id : string) : M t ConversationContext.t :=
  self <- get_self ;;
  match PyDict.get user_id (contexts self) with
  | Some c => ret c
  | None =>
      c <- ConversationContext.__init__ E (PStr user_id) (PInt 10) ;;
      modify (fun s => set_contexts (PyDict.set user_id c (contexts s)) s) ;;;
      _save_contexts ;;;
      ret c
  end.

(** [get_user_profile(user_id)] *)
Definition get_user_profile (user_id : string) : M t UserProfile.t :=
  self <- get_self ;;
  match PyDict.get user_id (user_profiles self) with
  | Some p => ret p
  | None =>
      p <- UserProfile.__init__ E (PStr user_id) ;;
      modify (fun s => set_user_profiles (PyDict.set user_id p (user_profiles s)) s) ;;;
      _save_contexts ;;;
      ret p
  end.

(** The [response] dict of [process_message]. *)
Definition response_of (chat_response : CareerCoachChatbot.ChatResponse)
    (current_intent : pyval) : pydict pyval :=
  [("text", PStr (CareerCoachChatbot.response chat_response));
   ("intent", current_intent);
   ("confidence", PFloat (CareerCoachChatbot.confidence chat_response));
   ("suggestions", PList []);
   ("source", PStr "generated")].

(** [process_message(user_id, message)] *)
Definition process_message (user_id message : string) : M t pyval :=
  (* Mettre à jour le profil utilisateur *)
  get_user_profile user_id ;;;
  now <- utcnow E ;;
  with_profile user_id (modify (UserProfile.set_last_active now)) ;;;
  (* Récupérer le contexte de conversation *)
  get_or_create_context user_id ;;;
  chat_response <-
    on_part chatbot set_chatbot (CareerCoachChatbot.send_message E message) ;;
  (* [ChatResponse] has no [intent] attribute *)
  let current_intent := PStr "General_Chat" in
  with_context user_id (modify (ConversationContext.set_current_intent current_intent)) ;;;
  with_context user_id
    (ConversationContext.add_message E "user" message current_intent []) ;;;
  let response := response_of chat_response current_intent in
  with_context user_id
    (ConversationContext.add_message E "assistant"
       (CareerCoachChatbot.response chat_response) current_intent []) ;;;
  _save_contexts ;;;
  (* [context] and [user_profile] are the objects fetched above; the
     clean-up below changes neither of them *)
  context <- with_context user_id get_self ;;
  user_profile <- with_profile user_id get_self ;;
  self <- get_self ;;
  (* Nettoyer les anciens contextes périodiquement *)
  (if (Nat.modulo (length (contexts self)) 10 =? 0)%nat
   then _cleanup_old_contexts 30
   else ret tt) ;;;
  ret (PDict [("response", PDict response);
              ("context", ConversationContext.to_dict context);
              ("user_profile", UserProfile.to_dict user_profile)]).

(** [end_session(user_id)] *)
Definition end_session (user_id : string) : M t bool :=
  self <- get_self ;;
  if PyDict.mem user_id (contexts self) then
    modify (fun s => set_contexts (PyDict.del user_id (contexts s)) s) ;;;
    _save_contexts ;;;
    ret true
  else ret false.

End Methods.
End DialogueManager.

(* ================================================================== *)
(** * Definitions used to state the properties *)

(** A concrete environment and an initial world to run the code in. *)
Definition sample_env : Env :=
  mkEnv (fun n => mkDatetime 2025 6 15 10 30 (Z.of_nat n mod 60) 250000)
        (fun n => "1b4e28ba-2fa1-4d3b-9c6e-" ++ NilEmpty.string_of_uint (Nat.to_uint n))
        (fun n => n)
        true
        (fun _ _ => Ok "Réponse générée.")
        DiskMissing
        (fun _ => "<object>")
        true.

Definition sample_world : World := mkWorld 0 0 0 DiskMissing true [].

(** The last [n] elements of a list. *)
Definition lastn {A : Type} (n : nat) (l : list A) : list A :=
  skipn (length l - n) l.

(** The message [add_message] builds when the clock shows [now]. *)
Definition message_at (now : datetime) (role content : string) (intent : pyval)
    (kwargs : pydict pyval) : pyval :=
  PDict (PyDict.update [("timestamp", PStr (isoformat now));
                        ("role", PStr role);
                        ("content", PStr content);
                        ("intent", intent)] kwargs).

(** One call of [add_message]: its arguments. *)
Record Call : Type := mkCall {
  call_role : string;
  call_content : string;
  call_intent : pyval;
  call_kwargs : pydict pyval
}.

(** [for call in calls: context.add_message(...)] *)
Definition add_messages (E : Env) (calls : list Call) : M ConversationContext.t unit :=
  for_each calls
    (fun c => ConversationContext.add_message E (call_role c) (call_content c)
                (call_intent c) (call_kwargs c)).

(** The messages those calls build, the clock having been read [n] times
    before: each call reads it twice. *)
Fixpoint built_messages (E : Env) (n : nat) (calls : list Call) : list pyval :=
  match calls with
  | [] => []
  | c :: r =>
      message_at (utcnow_at E n) (call_role c) (call_content c)
                 (call_intent c) (call_kwargs c)
      :: built_messages E (2 + n) r
  end.

(** A context created with a bound other than the default. *)
Definition context_bound_5 : ConversationContext.t :=
  ConversationContext.mk (PStr "u1") (PStr (uuid4_at sample_env 0))
    (mkDatetime 2025 6 15 10 30 0 250000) (mkDatetime 2025 6 15 10 30 1 250000)
    (PList []) PNone (PDict []) (PDict []) (PInt 5).

(** A manager holding a context last active 31 days ago and one last active
    29 days ago, the clock of [sample_env] showing 2025-06-15. *)
Definition stale_manager : DialogueManager.t :=
  DialogueManager.mk
    [("old", ConversationContext.mk (PStr "old") (PStr "sid-old")
               (mkDatetime 2025 5 1 9 0 0 0) (mkDatetime 2025 5 15 10 30 0 250000)
               (PList []) PNone (PDict []) (PDict []) (PInt 10));
     ("recent", ConversationContext.mk (PStr "recent") (PStr "sid-recent")
               (mkDatetime 2025 5 1 9 0 0 0) (mkDatetime 2025 5 17 10 30 0 250000)
               (PList []) PNone (PDict []) (PDict []) (PInt 10))]
    []
    (CareerCoachChatbot.__init__ true)
    (ResponseGenerator.mk (PDict []) true).

(** The FAQ table of the two scenarios. *)
Definition cv_faq : pyval :=
  PDict [("intents",
          PDict [("CV_Advice",
                  PDict [("text", PStr "Voici des conseils CV...");
                         ("keywords", PList [PStr "cv"; PStr "résumé"])])])].

Definition cv_generator : ResponseGenerator.t := ResponseGenerator.mk cv_faq true.

(** The source tags an envelope may carry. *)
Definition allowed_sources : list string := ["faq"; "generated"; "fallback"; "error"].

Definition source_allowed (envelope : pydict pyval) : bool :=
  match PyDict.get "source" envelope with
  | Some (PStr s) => existsb (String.eqb s) allowed_sources
  | _ => false
  end.

(** [sample_env] with a generative service that fails on every call. *)
Definition failing_env : Env :=
  mkEnv (utcnow_at sample_env) (uuid4_at sample_env) (choice_at sample_env) true
        (fun _ _ => Raise ServiceError) DiskMissing (py_str sample_env) true.

Definition plain_generator : ResponseGenerator.t := ResponseGenerator.mk (PDict []) true.

Definition fresh_manager : DialogueManager.t :=
  DialogueManager.mk [] [] (CareerCoachChatbot.__init__ true) plain_generator.

(** The world with another snapshot file. *)
Definition with_snapshot (d : disk) (w : World) : World :=
  mkWorld (clock_reads w) (uuid_draws w) (random_draws w) d
          (snapshot_writable w) (generate_calls w).

(** The world with a snapshot file that cannot be written. *)
Definition read_only (w : World) : World :=
  mkWorld (clock_reads w) (uuid_draws w) (random_draws w) (snapshot w)
          false (generate_calls w).

(** [stable f m]: running [m], whether it returns or raises, changes
    neither the observation [f] of [self] nor the list of prompts sent to
    the generative service. *)
Definition stable {S A X} (f : S -> X) (m : M S A) : Prop :=
  forall s w,
    f (snd (fst (m s w))) = f s
    /\ generate_calls (snd (m s w)) = generate_calls w.

(** A message that is neither blank, nor a greeting, nor thanks. *)
Definition takes_generative_path (message : string) : Prop :=
  PyStr.is_empty (PyStr.strip message) = false
  /\ CareerCoachChatbot._is_greeting message = false
  /\ CareerCoachChatbot._is_thanks message = false.

(** [conversation_history[-10:]] when it has grown beyond ten entries. *)
Definition trimmed (h : list CareerCoachChatbot.Turn) : list CareerCoachChatbot.Turn :=
  if (10 <? length h)%nat then slice_from (-10) h else h.

(** The reply [_call_gemini] makes of the service's answer. *)
Definition reply_of (answer : res string) : string :=
  match answer with
  | Ok a => CareerCoachChatbot._clean_response a
  | Raise _ => CareerCoachChatbot.gemini_error_reply
  end.

(** A context created with the bound 20 that holds twelve messages. *)
Definition long_context : ConversationContext.t :=
  ConversationContext.mk (PStr "u1") (PStr (uuid4_at sample_env 0))
    (mkDatetime 2025 6 15 10 30 0 250000) (mkDatetime 2025 6 15 10 42 0 250000)
    (PList (repeat (PDict [("timestamp", PStr "2025-06-15T10:31:00.250000");
                           ("role", PStr "user");
                           ("content", PStr "Une question");
                           ("intent", PStr "General_Chat")]) 12))
    (PStr "General_Chat") (PDict []) (PDict []) (PInt 20).

(** A stored date that [UserProfile.from_dict] can take: absent, falsy, or
    a [str] that [fromisoformat] accepts. *)
Definition profile_date_ok (key : string) (d : pydict pyval) : bool :=
  match PyDict.get key d with
  | Some v =>
      negb (truthy v)
      || match fromisoformat_obj v with Ok _ => true | Raise _ => false end
  | None => true
  end.

(** A stored date that [ConversationContext.from_dict] can take: present,
    and a [str] that [fromisoformat] accepts. *)
Definition context_date_ok (key : string) (d : pydict pyval) : bool :=
  match PyDict.get key d with
  | Some v => match fromisoformat_obj v with Ok _ => true | Raise _ => false end
  | None => false
  end.

(** A profile as the constructor makes it, some years of experience added. *)
Definition sample_profile : UserProfile.t :=
  UserProfile.mk (PStr "u1") (PStr "Lina") PNone PNone (PStr "PNC") (PInt 3)
    (PList [PStr "Français"; PStr "English"])
    (PDict [("notification_enabled", PBool true); ("language", PStr "fr");
            ("theme", PStr "light")])
    (PList [PStr "Service"]) (PList [])
    (mkDatetime 2025 6 15 10 30 2 250000) (mkDatetime 2025 6 15 10 30 1 0).

(** What [send_message] keeps true of [conversation_history]: at most ten
    entries, each said by the user or by the assistant. *)
Definition chat_history_ok (h : list CareerCoachChatbot.Turn) : Prop :=
  (length h <= 10)%nat
  /\ Forall (fun t => CareerCoachChatbot.role t = "user"
                      \/ CareerCoachChatbot.role t = "assistant") h.

(** [for m in messages: await bot.send_message(m)] *)
Definition send_all (E : Env) (messages : list string) : M CareerCoachChatbot.t unit :=
  for_each messages (fun m => CareerCoachChatbot.send_message E m ;;; ret tt).

(** A [source] that [_format_response] can test with ["faq" in ...]:
    absent, a [str], a list or a dict. *)
Definition source_testable (d : pydict pyval) : bool :=
  match PyDict.get "source" d with
  | None | Some (PStr _) | Some (PList _) | Some (PDict _) => true
  | Some _ => false
  end.

(** The prompt [_generate_with_gemini] builds for a message when the
    conversation context is empty. *)
Definition bare_prompt (E : Env) (message : string) : string :=
  match ResponseGenerator.build_prompt E message (PDict []) with
  | Ok prompt => prompt
  | Raise _ => ""
  end.

(** What [process_message] needs of the context it finds under a user:
    a list of messages and an integer bound of at least one.  A user
    without a context is given a new one, which has both. *)
Definition usable_context (c : ConversationContext.t) : bool :=
  match ConversationContext.messages c, ConversationContext.max_history c with
  | PList _, PInt h => 1 <=? h
  | _, _ => false
  end.

Definition turn_ready (u : string) (ctxs : pydict ConversationContext.t) : bool :=
  match PyDict.get u ctxs with
  | Some c => usable_context c
  | None => true
  end.

(** The messages kept for a user so far, and the bound on them. *)
Definition history_of (u : string) (ctxs : pydict ConversationContext.t)
  : list pyval :=
  match PyDict.get u ctxs with
  | Some c =>
      match ConversationContext.messages c with PList l => l | _ => [] end
  | None => []
  end.

Definition bound_of (u : string) (ctxs : pydict ConversationContext.t) : Z :=
  match PyDict.get u ctxs with
  | Some c =>
      match ConversationContext.max_history c with PInt h => h | _ => 10 end
  | None => 10
  end.

(** The number of contexts once the user has one. *)
Definition contexts_with (u : string) (ctxs : pydict ConversationContext.t) : nat :=
  if PyDict.mem u ctxs then length ctxs else S (length ctxs).

(** The two messages one turn adds to the user's context. *)
Definition turn_messages (t1 t2 : datetime) (message reply : string) : list pyval :=
  [message_at t1 "user" message (PStr "General_Chat") [];
   message_at t2 "assistant" reply (PStr "General_Chat") []].

(** A manager that holds nine contexts, none of them for the user "u10". *)
Definition crowded_manager : DialogueManager.t :=
  DialogueManager.mk
    (map (fun k => (k, ConversationContext.mk (PStr k) (PStr ("sid-" ++ k))
                         (mkDatetime 2025 6 1 9 0 0 0) (mkDatetime 2025 6 14 18 0 0 0)
                         (PList []) PNone (PDict []) (PDict []) (PInt 10)))
         ["u1"; "u2"; "u3"; "u4"; "u5"; "u6"; "u7"; "u8"; "u9"])
    []
    (CareerCoachChatbot.__init__ true)
    plain_generator.

(** A context as it comes back from the snapshot: [to_dict] does not
    write [max_history], so [from_dict] gives it the default. *)
Definition reloaded (c : ConversationContext.t) : ConversationContext.t :=
  ConversationContext.mk
    (ConversationContext.user_id c) (ConversationContext.session_id c)
    (ConversationContext.created_at c) (ConversationContext.last_activity c)
    (ConversationContext.messages c) (ConversationContext.current_intent c)
    (ConversationContext.entities c) (ConversationContext.slots c)
    (PInt 10).

(** No key twice, as in any Python dict. *)
Fixpoint distinct_keys {V} (d : pydict V) : bool :=
  match d with
  | [] => true
  | (k, _) :: r => negb (PyDict.mem k r) && distinct_keys r
  end.

(** Dates that [isoformat] writes and [fromisoformat] reads back; a
    profile's identifier must also be truthy, or [UserProfile] draws
    another one. *)
Definition storable_context (c : ConversationContext.t) : bool :=
  valid (ConversationContext.created_at c)
  && valid (ConversationContext.last_activity c).

Definition storable_profile (p : UserProfile.t) : bool :=
  truthy (UserProfile.user_id p)
  && valid (UserProfile.last_active p)
  && valid (UserProfile.created_at p).

(** A manager with one context, whose bound is not the default, and one
    profile. *)
Definition stored_manager : DialogueManager.t :=
  DialogueManager.mk [("u1", long_context)] [("u1", sample_profile)]
    (CareerCoachChatbot.__init__ true) plain_generator.

(** Stored documents the two [from_dict] can decode, and a snapshot all of
    whose stored contexts and profiles can be decoded. *)
Definition context_decodable (v : pyval) : bool :=
  match v with
  | PDict d =>
      PyDict.mem "user_id" d
      && context_date_ok "created_at" d && context_date_ok "last_activity" d
  | _ => false
  end.

Definition profile_decodable (v : pyval) : bool :=
  match v with
  | PDict d => profile_date_ok "last_active" d && profile_date_ok "created_at" d
  | _ => false
  end.

Definition section_decodable (dec : pyval -> bool) (key : string)
    (top : pydict pyval) : bool :=
  match PyDict.get key top with
  | None => true
  | Some (PDict docs) => forallb (fun kv => dec (snd kv)) docs
  | Some _ => false
  end.

Definition snapshot_decodable (doc : pyval) : bool :=
  match doc with
  | PDict top =>
      section_decodable context_decodable "contexts" top
      && section_decodable profile_decodable "profiles" top
  | _ => false
  end.

(** A snapshot with a good context and a profile whose date is not one. *)
Definition damaged_snapshot : pyval :=
  PDict [("contexts", PDict [("u1", ConversationContext.to_dict long_context)]);
         ("profiles",
          PDict [("u1", PDict [("user_id", PStr "u1");
                               ("last_active", PStr "hier")])]);
         ("last_updated", PStr "2025-06-15T10:30:00.250000")].

(** A manager whose user "u1" has a context and whose chatbot has
    answered one question. *)
Definition talked_manager : DialogueManager.t :=
  DialogueManager.mk [("u1", long_context)] [("u1", sample_profile)]
    (CareerCoachChatbot.mk true
       [CareerCoachChatbot.mkTurn "user" "Quel est le salaire d'un PNC ?";
        CareerCoachChatbot.mkTurn "assistant" "Cela dépend de la compagnie."])
    plain_generator.

(** The prompt of [_call_gemini] written out over the entries it shows:
    one line per entry between the career context and the new message. *)
Definition prompt_line (t : CareerCoachChatbot.Turn) : string :=
  CareerCoachChatbot.role t ++ ": " ++ CareerCoachChatbot.content t
  ++ CareerCoachChatbot.nl.

Definition prompt_lines (window : list CareerCoachChatbot.Turn) : string :=
  fold_right (fun t rest => prompt_line t ++ rest) "" window.

Definition prompt_over (message : string) (window : list CareerCoachChatbot.Turn)
  : string :=
  CareerCoachChatbot.career_context ++ CareerCoachChatbot.nl ++ CareerCoachChatbot.nl
  ++ prompt_lines window
  ++ "Utilisateur: " ++ message ++ CareerCoachChatbot.nl ++ "Assistant:".

(** A manager whose chatbot has already had four exchanges. *)
Definition busy_manager : DialogueManager.t :=
  DialogueManager.mk [] []
    (CareerCoachChatbot.mk true
       [CareerCoachChatbot.mkTurn "user" "Question 1 ?";
        CareerCoachChatbot.mkTurn "assistant" "Avis 1.";
        CareerCoachChatbot.mkTurn "user" "Question 2 ?";
        CareerCoachChatbot.mkTurn "assistant" "Avis 2.";
        CareerCoachChatbot.mkTurn "user" "Question 3 ?";
        CareerCoachChatbot.mkTurn "assistant" "Avis 3.";
        CareerCoachChatbot.mkTurn "user" "Question 4 ?";
        CareerCoachChatbot.mkTurn "assistant" "Avis 4."])
    plain_generator.

(** A string of ASCII characters only. *)
Definition ascii_only (s : string) : bool :=
  PyStr.all_chars (fun c => (PyStr.code c <? 128)%N) s.

(** An environment in which the directory of the snapshot file is missing
    and cannot be made. *)
Definition no_directory_env : Env :=
  mkEnv (utcnow_at sample_env) (uuid4_at sample_env) (choice_at sample_env) true
        (generate_content sample_env) DiskMissing (py_str sample_env) false.

(* ================================================================== *)
(** * Properties *)

(** ** Facts about the [str] operations *)

Module PyStrFacts.
Import PyStr.

Lemma lstrip_all_space s : all_chars isspace s = true -> lstrip s = EmptyString.
Proof.
  induction s as [|c r IH]; simpl; [reflexivity|].
  intros H. apply andb_prop in H as [Hc Hr]. rewrite Hc. auto.
Qed.

Lemma lstrip_empty_all_space s : lstrip s = EmptyString -> all_chars isspace s = true.
Proof.
  induction s as [|c r IH]; simpl; [reflexivity|].
  destruct (isspace c); simpl; [assumption | discriminate].
Qed.

Lemma rstrip_empty_all_space s : rstrip s = EmptyString -> all_chars isspace s = true.
Proof.
  induction s as [|c r IH]; simpl; [reflexivity|].
  destruct (rstrip r) eqn:E.
  - destruct (isspace c); [intros _; simpl; auto | discriminate].
  - discriminate.
Qed.

Lemma lstrip_suffix_space s :
  all_chars isspace (lstrip s) = true -> all_chars isspace s = true.
Proof.
  induction s as [|c r IH]; simpl; [reflexivity|].
  destruct (isspace c) eqn:E; simpl.
  - assumption.
  - rewrite E. discriminate.
Qed.

(** A string that strips to nothing consists of white space only. *)
Lemma strip_empty_all_space s : strip s = EmptyString -> all_chars isspace s = true.
Proof.
  unfold strip. intros H. apply lstrip_suffix_space, rstrip_empty_all_space, H.
Qed.

Lemma all_chars_lower p s :
  (forall c, p c = true -> p (lower_char c) = true) ->
  all_chars p s = true -> all_chars p (lower s) = true.
Proof.
  intros Hp. induction s as [|c r IH]; simpl; [reflexivity|].
  intros H. apply andb_prop in H as [Hc Hr]. rewrite (Hp _ Hc). simpl. auto.
Qed.

Lemma isspace_lower_char c : isspace c = true -> isspace (lower_char c) = true.
Proof.
  unfold lower_char. destruct (is_upper c) eqn:E; [|auto].
  unfold isspace, is_upper in *. intros H.
  apply andb_prop in E as [E1 E2].
  apply N.leb_le in E1. apply N.leb_le in E2.
  apply orb_prop in H as [H|H]; apply andb_prop in H as [H1 H2];
    apply N.leb_le in H1; apply N.leb_le in H2; lia.
Qed.

(** A prefix of a string made of [p]-characters is made of [p]-characters;
    when the prefix has a first character, so has the string. *)
Lemma startswith_first p g s c g' :
  g = String c g' -> startswith g s = true -> all_chars p s = true -> p c = true.
Proof.
  intros -> H Hs. destruct s as [|b s']; simpl in *; [discriminate|].
  apply andb_prop in H as [H _]. apply Ascii.eqb_eq in H. subst b.
  apply andb_prop in Hs as [Hs _]. exact Hs.
Qed.

Lemma contains_first p g s c g' :
  g = String c g' -> contains g s = true -> all_chars p s = true -> p c = true.
Proof.
  intros Hg. induction s as [|b s' IH]; simpl.
  - subst g. simpl. discriminate.
  - intros H Hs. apply orb_prop in H as [H|H].
    + eapply startswith_first; eauto.
    + apply andb_prop in Hs as [_ Hs]. auto.
Qed.

End PyStrFacts.

(** ** Facts about [datetime] *)

Module PyDatetimeFacts.

Example isoformat_micro :
  isoformat (mkDatetime 2024 3 1 9 5 7 12345) = "2024-03-01T09:05:07.012345".
Proof. reflexivity. Qed.

Example isoformat_whole :
  isoformat (mkDatetime 2024 3 1 9 5 7 0) = "2024-03-01T09:05:07".
Proof. reflexivity. Qed.

Example sub_days_leap :
  sub_days (mkDatetime 2024 3 1 0 0 0 0) 1 = Ok (mkDatetime 2024 2 29 0 0 0 0)
  /\ sub_days (mkDatetime 2025 1 15 8 0 0 0) 30 = Ok (mkDatetime 2024 12 16 8 0 0 0)
  /\ sub_days (mkDatetime 2001 1 1 0 0 0 0) 1 = Ok (mkDatetime 2000 12 31 0 0 0 0)
  /\ sub_days (mkDatetime 1 1 20 0 0 0 0) 30 = Raise OverflowError.
Proof. repeat split; reflexivity. Qed.

Lemma digit_val_digit k : 0 <= k < 10 -> digit_val (digit k) = Some k.
Proof.
  intros H.
  assert (E : k = 0 \/ k = 1 \/ k = 2 \/ k = 3 \/ k = 4 \/ k = 5 \/ k = 6
              \/ k = 7 \/ k = 8 \/ k = 9) by lia.
  repeat (destruct E as [-> | E]; [reflexivity|]). subst k. reflexivity.
Qed.

Lemma take_digits_pad w : forall n acc rest,
  0 <= n < 10 ^ Z.of_nat w ->
  take_digits w acc (pad w n rest) = Some (acc * 10 ^ Z.of_nat w + n, rest).
Proof.
  induction w as [|w IH]; intros n acc rest H.
  - simpl in *. f_equal. f_equal. lia.
  - cbn [pad take_digits].
    assert (P : 0 < 10 ^ Z.of_nat w) by (apply Z.pow_pos_nonneg; lia).
    assert (E : 10 ^ Z.of_nat (S w) = 10 * 10 ^ Z.of_nat w).
    { rewrite Nat2Z.inj_succ, Z.pow_succ_r by lia. reflexivity. }
    rewrite E in H.
    assert (D : 0 <= n / 10 ^ Z.of_nat w < 10).
    { split; [apply Z.div_pos; lia | apply Z.div_lt_upper_bound; lia]. }
    rewrite (digit_val_digit _ D).
    rewrite IH by (apply Z.mod_pos_bound; lia).
    f_equal. f_equal. rewrite E.
    pose proof (Z.div_mod n (10 ^ Z.of_nat w)) as DM. nia.
Qed.

Lemma valid_bounds d : valid d = true ->
  0 <= year d < 10 ^ 4 /\ 0 <= month d < 10 ^ 2 /\ 0 <= day d < 10 ^ 2
  /\ 0 <= hour d < 10 ^ 2 /\ 0 <= minute d < 10 ^ 2 /\ 0 <= second d < 10 ^ 2
  /\ 0 <= microsecond d < 10 ^ 6.
Proof.
  unfold valid. intros H.
  repeat (apply andb_prop in H as [H ?]).
  repeat match goal with
         | X : (_ <=? _) = true |- _ => apply Z.leb_le in X
         | X : (_ <? _) = true |- _ => apply Z.ltb_lt in X
         end.
  assert (days_in_month (year d) (month d) <= 31).
  { unfold days_in_month.
    destruct (month d) as [|p|p]; try lia.
    repeat (destruct p as [p|p|]; try lia); destruct (is_leap (year d)); lia. }
  change (10 ^ 4) with 10000. change (10 ^ 2) with 100.
  change (10 ^ 6) with 1000000. lia.
Qed.

(** Reading back what [isoformat] wrote gives the same date-time, with its
    microseconds. *)
Lemma fromisoformat_isoformat d :
  valid d = true -> fromisoformat (isoformat d) = Ok d.
Proof.
  intros V. destruct (valid_bounds d V) as (Hy & Hm & Hd & Hh & Hmi & Hs & Hu).
  destruct d as [y m dd h mi s us]. cbn [year month day hour minute second microsecond] in *.
  unfold fromisoformat, parse_date, isoformat.
  cbn [year month day hour minute second microsecond].
  rewrite (take_digits_pad 4) by assumption. cbn [expect Ascii.eqb Bool.eqb].
  rewrite (take_digits_pad 2) by assumption. cbn [expect Ascii.eqb Bool.eqb].
  rewrite (take_digits_pad 2) by assumption.
  unfold parse_time.
  rewrite (take_digits_pad 2) by assumption. cbn [expect Ascii.eqb Bool.eqb].
  rewrite (take_digits_pad 2) by assumption. cbn [expect Ascii.eqb Bool.eqb].
  rewrite (take_digits_pad 2) by assumption.
  replace (0 * 10 ^ Z.of_nat 4 + y) with y by lia.
  replace (0 * 10 ^ Z.of_nat 2 + m) with m by lia.
  replace (0 * 10 ^ Z.of_nat 2 + dd) with dd by lia.
  replace (0 * 10 ^ Z.of_nat 2 + h) with h by lia.
  replace (0 * 10 ^ Z.of_nat 2 + mi) with mi by lia.
  replace (0 * 10 ^ Z.of_nat 2 + s) with s by lia.
  destruct (us =? 0) eqn:E.
  - apply Z.eqb_eq in E. subst us. unfold checked. rewrite V. reflexivity.
  - cbn [expect Ascii.eqb Bool.eqb]. unfold parse_fraction.
    rewrite (take_digits_pad 6) by assumption.
    replace (0 * 10 ^ Z.of_nat 6 + us) with us by lia.
    unfold checked. rewrite V. reflexivity.
Qed.

End PyDatetimeFacts.

(** ** Facts about [dict] *)

Module PyDictFacts.
Import PyDict.
Section Ops.
Context {V : Type}.

Lemma get_set_same k v (d : pydict V) : get k (set k v d) = Some v.
Proof.
  induction d as [|[k' v'] r IH]; simpl.
  - rewrite String.eqb_refl. reflexivity.
  - destruct (String.eqb k k') eqn:E; simpl; rewrite E; auto.
Qed.

Lemma get_set_other k k' v (d : pydict V) : k <> k' -> get k' (set k v d) = get k' d.
Proof.
  intros N. induction d as [|[k0 v0] r IH]; simpl.
  - destruct (String.eqb k' k) eqn:E; [|reflexivity].
    apply String.eqb_eq in E. congruence.
  - destruct (String.eqb k k0) eqn:E; simpl.
    + apply String.eqb_eq in E. subst k0.
      destruct (String.eqb k' k) eqn:E'; [|reflexivity].
      apply String.eqb_eq in E'. congruence.
    + rewrite IH. reflexivity.
Qed.

Lemma get_del_same k (d : pydict V) : get k (del k d) = None.
Proof.
  induction d as [|[k' v'] r IH]; simpl; [reflexivity|].
  destruct (String.eqb k k') eqn:E; simpl; [|rewrite E]; auto.
Qed.

Lemma get_del_other k k' (d : pydict V) : k <> k' -> get k' (del k d) = get k' d.
Proof.
  intros N. induction d as [|[k0 v0] r IH]; simpl; [reflexivity|].
  destruct (String.eqb k k0) eqn:E; simpl.
  - apply String.eqb_eq in E. subst k0.
    destruct (String.eqb k' k) eqn:E'; [|assumption].
    apply String.eqb_eq in E'. congruence.
  - rewrite IH. reflexivity.
Qed.

Lemma mem_set_same k v (d : pydict V) : mem k (set k v d) = true.
Proof. unfold mem. rewrite get_set_same. reflexivity. Qed.

Lemma mem_del_same k (d : pydict V) : mem k (del k d) = false.
Proof. unfold mem. rewrite get_del_same. reflexivity. Qed.

Lemma del_absent k (d : pydict V) : mem k d = false -> del k d = d.
Proof.
  unfold mem. induction d as [|[k' v'] r IH]; simpl; [reflexivity|].
  destruct (String.eqb k k') eqn:E; [discriminate|].
  intros H. rewrite IH by assumption. reflexivity.
Qed.

End Ops.
End PyDictFacts.

(** ** ConversationContext: the sliding window of messages *)

Lemma lastn_length {A} n (l : list A) : (length (lastn n l) <= n)%nat.
Proof. unfold lastn. rewrite length_skipn. lia. Qed.

Lemma lastn_all {A} n (l : list A) : (length l <= n)%nat -> lastn n l = l.
Proof.
  intros H. unfold lastn. replace (length l - n)%nat with O by lia. reflexivity.
Qed.

Lemma skipn_app_le {A} k (a b : list A) :
  (k <= length a)%nat -> skipn k (a ++ b)%list = (skipn k a ++ b)%list.
Proof.
  intros H. rewrite skipn_app. replace (k - length a)%nat with O by lia.
  reflexivity.
Qed.

(** Keeping the last [n] after every append is keeping the last [n] of
    everything appended. *)
Lemma lastn_app_lastn {A} n (a b : list A) :
  lastn n (lastn n a ++ b)%list = lastn n (a ++ b)%list.
Proof.
  unfold lastn. rewrite !length_app, length_skipn.
  destruct (Nat.le_gt_cases (length a) n) as [H|H].
  - replace (length a - n)%nat with O by lia. cbn [skipn].
    rewrite Nat.sub_0_r. reflexivity.
  - rewrite !skipn_app, skipn_skipn, length_skipn.
    f_equal; f_equal; lia.
Qed.

Lemma slice_from_neg {A} (h : Z) (l : list A) :
  1 <= h -> slice_from (- h) l = lastn (Z.to_nat h) l.
Proof.
  intros H. unfold slice_from, lastn.
  replace (- h <? 0) with true by (symmetry; apply Z.ltb_lt; lia).
  f_equal. lia.
Qed.

(** One [add_message] on a context whose bound is a positive integer
    succeeds and leaves the last [h] of the old messages and the new one. *)
Lemma add_message_step E (h : Z) c l role content intent kwargs w :
  1 <= h ->
  ConversationContext.messages c = PList l ->
  ConversationContext.max_history c = PInt h ->
  exists c' w',
    ConversationContext.add_message E role content intent kwargs c w = (Ok tt, c', w')
    /\ ConversationContext.messages c'
       = PList (lastn (Z.to_nat h)
                  (l ++ [message_at (utcnow_at E (clock_reads w)) role content
                           intent kwargs])%list)
    /\ ConversationContext.max_history c' = PInt h
    /\ ConversationContext.session_id c' = ConversationContext.session_id c
    /\ ConversationContext.last_activity c' = utcnow_at E (S (clock_reads w))
    /\ clock_reads w' = (2 + clock_reads w)%nat.
Proof.
  intros Hh Hm Hb.
  unfold ConversationContext.add_message, bind, utcnow, get_self, modify, lift, ret.
  cbn [clock_reads]. rewrite Hm. cbn [ConversationContext.max_history
    ConversationContext.set_messages ConversationContext.set_last_activity].
  rewrite Hb. unfold len_gt, last_items. cbn [as_int].
  fold (message_at (utcnow_at E (clock_reads w)) role content intent kwargs).
  set (m := message_at _ _ _ _ _).
  destruct (Z.of_nat (length (l ++ [m])%list) >? h) eqn:G.
  - do 2 eexists. split; [reflexivity|].
    cbn. rewrite slice_from_neg by assumption. repeat split; auto.
  - do 2 eexists. split; [reflexivity|].
    cbn. rewrite lastn_all; [repeat split; auto|].
    rewrite Z.gtb_ltb in G. apply Z.ltb_ge in G. lia.
Qed.

(** Any sequence of [add_message] calls on a context that holds at most [h]
    messages succeeds and leaves the last [h] of all messages. *)
Lemma add_messages_window E (h : Z) calls : forall c l w,
  1 <= h ->
  ConversationContext.messages c = PList l ->
  ConversationContext.max_history c = PInt h ->
  (length l <= Z.to_nat h)%nat ->
  exists c' w',
    add_messages E calls c w = (Ok tt, c', w')
    /\ ConversationContext.messages c'
       = PList (lastn (Z.to_nat h)
                  (l ++ built_messages E (clock_reads w) calls)%list)
    /\ ConversationContext.max_history c' = PInt h.
Proof.
  induction calls as [|k r IH]; intros c l w Hh Hm Hb Hl.
  - exists c, w. cbn. rewrite app_nil_r, lastn_all by assumption. auto.
  - destruct (add_message_step E h c l (call_role k) (call_content k)
                (call_intent k) (call_kwargs k) w Hh Hm Hb)
      as (c1 & w1 & Hrun & Hm1 & Hb1 & _ & _ & Hclk).
    destruct (IH c1 _ w1 Hh Hm1 Hb1 (lastn_length _ _)) as (c2 & w2 & Hrun2 & Hm2 & Hb2).
    exists c2, w2. split; [|split; [|assumption]].
    + unfold add_messages in *. cbn [for_each]. unfold bind at 1.
      rewrite Hrun. exact Hrun2.
    + rewrite Hm2, lastn_app_lastn, Hclk. cbn [built_messages].
      rewrite <- app_assoc. reflexivity.
Qed.

(** C1 (amended): for a context created with a bound h >= 1, every sequence
    of add_message calls succeeds and leaves at most h messages, namely the
    h most recent of all the messages added. *)
Theorem add_message_sliding_window
    (E : Env) (S0 : Type) (s0 : S0) (w0 : World) (uid : pyval) (h : Z)
    (calls : list Call) :
  1 <= h ->
  exists c0 w1 c w l,
    ConversationContext.__init__ E uid (PInt h) s0 w0 = (Ok c0, s0, w1)
    /\ add_messages E calls c0 w1 = (Ok tt, c, w)
    /\ ConversationContext.messages c = PList l
    /\ Z.of_nat (length l) <= h
    /\ l = lastn (Z.to_nat h) (built_messages E (clock_reads w1) calls).
Proof.
  intros Hh.
  pose (c0 := ConversationContext.mk uid (PStr (uuid4_at E (uuid_draws w0)))
                (utcnow_at E (clock_reads w0)) (utcnow_at E (S (clock_reads w0)))
                (PList []) PNone (PDict []) (PDict []) (PInt h)).
  pose (w1 := mkWorld (S (S (clock_reads w0))) (S (uuid_draws w0)) (random_draws w0)
                (snapshot w0) (snapshot_writable w0) (generate_calls w0)).
  destruct (add_messages_window E h calls c0 [] w1 Hh eq_refl eq_refl)
    as (c & w & Hrun & Hm & _); [cbn; lia|].
  exists c0, w1, c, w, (lastn (Z.to_nat h) (built_messages E (clock_reads w1) calls)).
  split; [reflexivity|]. split; [exact Hrun|]. split; [exact Hm|].
  split; [|reflexivity].
  pose proof (lastn_length (Z.to_nat h) (built_messages E (clock_reads w1) calls)). lia.
Qed.

Lemma add_message_sliding_window_witness :
  1 <= 2 /\
  exists c0 w1 c w l,
    ConversationContext.__init__ sample_env (PStr "u1") (PInt 2) tt sample_world
      = (Ok c0, tt, w1)
    /\ add_messages sample_env
         [mkCall "user" "a" PNone []; mkCall "assistant" "b" PNone [];
          mkCall "user" "c" PNone []] c0 w1 = (Ok tt, c, w)
    /\ ConversationContext.messages c = PList l
    /\ Z.of_nat (length l) <= 2
    /\ l = lastn (Z.to_nat 2)
             (built_messages sample_env (clock_reads w1)
                [mkCall "user" "a" PNone []; mkCall "assistant" "b" PNone [];
                 mkCall "user" "c" PNone []]).
Proof.
  split; [lia|].
  apply (add_message_sliding_window sample_env unit tt sample_world (PStr "u1") 2
           [mkCall "user" "a" PNone []; mkCall "assistant" "b" PNone [];
            mkCall "user" "c" PNone []]).
  lia.
Defined.

(** C1 as stated fails for a bound below 1.  With [max_history = 0] the
    slice [messages[-0:]] is the whole list, so the message added stays;
    with [max_history = -1] the slice [messages[1:]] drops it, and the empty
    list is still longer than the bound. *)
Lemma add_message_exceeds_nonpositive_bound :
  (exists c0 w1 c w m,
      ConversationContext.__init__ sample_env (PStr "u1") (PInt 0) tt sample_world
        = (Ok c0, tt, w1)
      /\ ConversationContext.add_message sample_env "user" "hello" PNone [] c0 w1
         = (Ok tt, c, w)
      /\ ConversationContext.max_history c = PInt 0
      /\ ConversationContext.messages c = PList [m]
      /\ 0 < Z.of_nat (length [m]))
  /\ (exists c0 w1 c w,
      ConversationContext.__init__ sample_env (PStr "u1") (PInt (-1)) tt sample_world
        = (Ok c0, tt, w1)
      /\ ConversationContext.add_message sample_env "user" "hello" PNone [] c0 w1
         = (Ok tt, c, w)
      /\ ConversationContext.max_history c = PInt (-1)
      /\ ConversationContext.messages c = PList []
      /\ -1 < Z.of_nat (@length pyval [])).
Proof.
  split.
  - do 5 eexists.
    split; [vm_compute; reflexivity|].
    split; [vm_compute; reflexivity|].
    repeat split; reflexivity.
  - do 4 eexists.
    split; [vm_compute; reflexivity|].
    split; [vm_compute; reflexivity|].
    repeat split; reflexivity.
Qed.

(** ** Serialization round trip *)

(** What [from_dict] makes of a context's own [to_dict]: every field comes
    back but [max_history], which [to_dict] does not write and [from_dict]
    therefore defaults to 10. *)
Lemma context_from_dict_to_dict E (S0 : Type) (s0 : S0) w c :
  valid (ConversationContext.created_at c) = true ->
  valid (ConversationContext.last_activity c) = true ->
  exists w',
    ConversationContext.from_dict E (ConversationContext.to_dict c) s0 w
    = (Ok (ConversationContext.mk
             (ConversationContext.user_id c) (ConversationContext.session_id c)
             (ConversationContext.created_at c) (ConversationContext.last_activity c)
             (ConversationContext.messages c) (ConversationContext.current_intent c)
             (ConversationContext.entities c) (ConversationContext.slots c)
             (PInt 10)), s0, w').
Proof.
  intros Vc Vl. destruct c as [uid sid ca la ms ci en sl mh].
  cbn [ConversationContext.created_at ConversationContext.last_activity] in *.
  eexists.
  unfold ConversationContext.from_dict, ConversationContext.to_dict,
    ConversationContext.__init__, bind, lift, ret, uuid4, utcnow, subscript.
  cbn -[isoformat fromisoformat].
  rewrite (PyDatetimeFacts.fromisoformat_isoformat _ Vc), (PyDatetimeFacts.fromisoformat_isoformat _ Vl).
  reflexivity.
Qed.

(** Writing the read-back context again gives the same document. *)
Lemma context_to_dict_stable E (S0 : Type) (s0 : S0) w c :
  valid (ConversationContext.created_at c) = true ->
  valid (ConversationContext.last_activity c) = true ->
  exists c' w',
    ConversationContext.from_dict E (ConversationContext.to_dict c) s0 w
    = (Ok c', s0, w')
    /\ ConversationContext.to_dict c' = ConversationContext.to_dict c.
Proof.
  intros Vc Vl.
  destruct (context_from_dict_to_dict E S0 s0 w c Vc Vl) as [w' H].
  eexists _, w'. split; [exact H|reflexivity].
Qed.

(** A profile with a non-empty identifier comes back from its [to_dict]
    unchanged. *)
Lemma profile_from_dict_to_dict E (S0 : Type) (s0 : S0) w p :
  truthy (UserProfile.user_id p) = true ->
  valid (UserProfile.last_active p) = true ->
  valid (UserProfile.created_at p) = true ->
  exists w',
    UserProfile.from_dict E (UserProfile.to_dict p) s0 w = (Ok p, s0, w').
Proof.
  intros Hu Vl Vc. destruct p as [uid fn ln em ro ex la pr sk ce lac cra].
  cbn [UserProfile.user_id UserProfile.last_active UserProfile.created_at] in *.
  eexists.
  unfold UserProfile.from_dict, UserProfile.to_dict, UserProfile.__init__,
    UserProfile.stored_date, bind, lift, ret, utcnow.
  cbn -[isoformat fromisoformat truthy].
  rewrite Hu.
  cbn -[isoformat fromisoformat].
  assert (T : forall d, valid d = true -> PyStr.is_empty (isoformat d) = false).
  { intros d _. reflexivity. }
  rewrite (T _ Vl), (T _ Vc).
  cbn -[isoformat fromisoformat].
  rewrite (PyDatetimeFacts.fromisoformat_isoformat _ Vl), (PyDatetimeFacts.fromisoformat_isoformat _ Vc).
  reflexivity.
Qed.

(** C2 at a context built by [ConversationContext("u1", max_history=5)]:
    [from_dict(to_dict(x))] succeeds and reproduces the session id, both
    timestamps with their microseconds and the other stored fields, and
    serializes to the same document, but its [max_history] is 10, not 5. *)
Theorem from_dict_to_dict_drops_max_history :
  ConversationContext.__init__ sample_env (PStr "u1") (PInt 5) tt sample_world
    = (Ok context_bound_5, tt, mkWorld 2 1 0 DiskMissing true [])
  /\ exists y w',
       ConversationContext.from_dict sample_env
         (ConversationContext.to_dict context_bound_5) tt sample_world
       = (Ok y, tt, w')
       /\ ConversationContext.session_id y = ConversationContext.session_id context_bound_5
       /\ ConversationContext.created_at y = ConversationContext.created_at context_bound_5
       /\ ConversationContext.last_activity y
          = ConversationContext.last_activity context_bound_5
       /\ ConversationContext.to_dict y = ConversationContext.to_dict context_bound_5
       /\ ConversationContext.max_history context_bound_5 = PInt 5
       /\ ConversationContext.max_history y = PInt 10
       /\ y <> context_bound_5.
Proof.
  split; [vm_compute; reflexivity|].
  do 2 eexists. split; [vm_compute; reflexivity|].
  repeat split; try reflexivity. discriminate.
Qed.

(** ** Clean-up of old contexts *)

(** With a context in store, [_cleanup_old_contexts] raises before it
    removes anything or saves: [last_activity] is a [datetime], and
    [datetime.fromisoformat] takes a [str]. *)
Lemma cleanup_raises_when_nonempty E self w max_age_days :
  DialogueManager.contexts self <> [] ->
  exists e w',
    DialogueManager._cleanup_old_contexts E max_age_days self w = (Raise e, self, w')
    /\ snapshot w' = snapshot w.
Proof.
  intros N. destruct (DialogueManager.contexts self) as [|[k c] r] eqn:C;
    [congruence|].
  unfold DialogueManager._cleanup_old_contexts, bind, utcnow, lift, get_self.
  destruct (DialogueManager.timedelta_days max_age_days) as [delta|e];
    [|do 2 eexists; split; reflexivity].
  destruct (sub_days _ delta) as [cutoff|e];
    [|do 2 eexists; split; reflexivity].
  rewrite C. cbn. do 2 eexists; split; reflexivity.
Qed.

(** C3 at that manager: the cutoff is 30 days before the clock's reading,
    the first context is older than it and the second is not, and
    [_cleanup_old_contexts(30)] raises [TypeError]; both contexts are still
    in store and the snapshot has not been written. *)
Theorem cleanup_old_contexts_raises_type_error :
  sub_days (utcnow_at sample_env 0) 30 = Ok (mkDatetime 2025 5 16 10 30 0 250000)
  /\ PyDatetime.ltb (mkDatetime 2025 5 15 10 30 0 250000)
                    (mkDatetime 2025 5 16 10 30 0 250000) = true
  /\ PyDatetime.ltb (mkDatetime 2025 5 17 10 30 0 250000)
                    (mkDatetime 2025 5 16 10 30 0 250000) = false
  /\ DialogueManager._cleanup_old_contexts sample_env 30 stale_manager sample_world
     = (Raise TypeError, stale_manager, mkWorld 1 0 0 DiskMissing true [])
  /\ PyDict.mem "old" (DialogueManager.contexts stale_manager) = true.
Proof. repeat split; vm_compute; reflexivity. Qed.

(** ** ResponseGenerator: the FAQ stage and the envelopes *)

(** *** Reading a dict after [setdefault] and after an append *)

Lemma get_app {V} k (d e : pydict V) :
  PyDict.get k (d ++ e)%list
  = match PyDict.get k d with Some x => Some x | None => PyDict.get k e end.
Proof.
  induction d as [|[k' v'] r IH]; simpl; [reflexivity|].
  destruct (String.eqb k k'); auto.
Qed.

Lemma get_setdefault_same {V} k (v : V) d :
  PyDict.get k (PyDict.setdefault k v d)
  = Some (match PyDict.get k d with Some x => x | None => v end).
Proof.
  unfold PyDict.setdefault, PyDict.mem.
  destruct (PyDict.get k d) eqn:G; [exact G|].
  rewrite get_app, G. simpl. rewrite String.eqb_refl. reflexivity.
Qed.

Lemma get_setdefault_other {V} k k' (v : V) d :
  k <> k' -> PyDict.get k' (PyDict.setdefault k v d) = PyDict.get k' d.
Proof.
  intros N. unfold PyDict.setdefault. destruct (PyDict.mem k d); [reflexivity|].
  rewrite get_app. destruct (PyDict.get k' d); [reflexivity|].
  simpl. destruct (String.eqb k' k) eqn:E; [|reflexivity].
  apply String.eqb_eq in E. congruence.
Qed.

(** What [format_in_place] does to a dict that has no [source]: the text it
    already has stays, and the source becomes ["generated"]. *)
Lemma format_in_place_without_source E intent c d txt w :
  PyDict.get "text" d = Some txt ->
  PyDict.get "source" d = None ->
  exists d' w',
    ResponseGenerator.format_in_place E intent (PDict c) d w = (Ok tt, d', w')
    /\ PyDict.get "text" d' = Some txt
    /\ PyDict.get "source" d' = Some (PStr "generated")
    /\ PyDict.get "intent" d' = Some (PStr intent)
    /\ PyDict.get "timestamp" d'
       = Some (PStr (isoformat (utcnow_at E (clock_reads w)))).
Proof.
  intros Ht Hs.
  unfold ResponseGenerator.format_in_place, bind, modify, get_self, lift, utcnow, ret.
  set (d1 := PyDict.setdefault "text" _ d).
  set (d2 := PyDict.setdefault "suggestions" _ d1).
  assert (S2 : PyDict.get "source" d2 = None).
  { unfold d2, d1. rewrite !get_setdefault_other by discriminate. exact Hs. }
  assert (T2 : PyDict.get "text" d2 = Some txt).
  { unfold d2, d1. rewrite get_setdefault_other by discriminate.
    rewrite get_setdefault_same, Ht. reflexivity. }
  unfold PyDict.get_default. rewrite S2. cbn [py_in PyStr.contains PyStr.startswith orb].
  set (d3 := PyDict.setdefault "source" _ d2).
  assert (S3 : PyDict.get "source" d3 = Some (PStr "generated")).
  { unfold d3. rewrite get_setdefault_same, S2. reflexivity. }
  unfold subscript.
  rewrite !PyDictFacts.get_set_other by discriminate. rewrite S3.
  do 2 eexists. split; [reflexivity|].
  rewrite !PyDictFacts.get_set_other by discriminate.
  rewrite (PyDictFacts.get_set_other "_debug" "timestamp") by discriminate.
  rewrite !PyDictFacts.get_set_same.
  repeat split; try assumption.
  unfold d3. rewrite get_setdefault_other by discriminate. exact T2.
Qed.

(** Whenever the FAQ lookup finds an entry that carries a text and, like
    the entries of the FAQ file format, no [source], [generate_response]
    returns that text with the source tag ["generated"]. *)
Lemma faq_match_tagged_generated E self intent user_message key d txt c w :
  ResponseGenerator._find_in_faq self intent user_message = Ok (Some (key, PDict d)) ->
  PyDict.get "text" d = Some txt ->
  PyDict.get "source" d = None ->
  exists d' self' w',
    ResponseGenerator.generate_response E user_message intent (PDict c) self w
    = (Ok (PDict d'), self', w')
    /\ PyDict.get "text" d' = Some txt
    /\ PyDict.get "source" d' = Some (PStr "generated").
Proof.
  intros Hf Ht Hs.
  assert (Hd : truthy (PDict d) = true).
  { destruct d; [discriminate Ht | reflexivity]. }
  assert (Hc : (if truthy (PDict c) then PDict c else PDict []) = PDict c).
  { destruct c; reflexivity. }
  unfold ResponseGenerator.generate_response. rewrite Hc.
  unfold bind, get_self, lift. rewrite Hf, Hd.
  unfold ResponseGenerator.format_faq_entry, ResponseGenerator.formatted.
  destruct (format_in_place_without_source E intent c d txt w Ht Hs)
    as (d' & w' & Hrun & Ht' & Hs' & _).
  rewrite Hrun. do 3 eexists. split; [reflexivity|]. auto.
Qed.

Lemma faq_match_tagged_generated_witness :
  exists d' self' w',
    ResponseGenerator.generate_response sample_env "Mon CV" "cv" (PDict [])
      (ResponseGenerator.mk
         (PDict [("intents", PDict [("CV", PDict [("text", PStr "Conseils")])])]) false)
      sample_world
    = (Ok (PDict d'), self', w')
    /\ PyDict.get "text" d' = Some (PStr "Conseils")
    /\ PyDict.get "source" d' = Some (PStr "generated").
Proof.
  apply (faq_match_tagged_generated sample_env _ "cv" "Mon CV" "CV"
           [("text", PStr "Conseils")] (PStr "Conseils") [] sample_world);
    reflexivity.
Defined.

(** C4 at its two scenarios: the exact match on ["CV_Advice"] and the
    keyword match on ["cv"] both find the entry and return its exact text,
    but the source tag of the response is ["generated"], not ["faq"]. *)
Theorem faq_match_source_is_generated :
  (exists entry,
     ResponseGenerator._find_in_faq cv_generator "CV_Advice" "Comment faire mon CV ?"
       = Ok (Some ("CV_Advice", entry))
     /\ exists d self' w',
          ResponseGenerator.generate_response sample_env "Comment faire mon CV ?"
            "CV_Advice" PNone cv_generator sample_world = (Ok (PDict d), self', w')
          /\ PyDict.get "text" d = Some (PStr "Voici des conseils CV...")
          /\ PyDict.get "source" d = Some (PStr "generated"))
  /\ (exists entry,
     ResponseGenerator.find_exact (PyStr.normalize "UNKNOWN_INTENT")
       [("CV_Advice", entry)] = None
     /\ ResponseGenerator.find_partial (PyStr.normalize "UNKNOWN_INTENT")
          [("CV_Advice", entry)] = None
     /\ ResponseGenerator._find_in_faq cv_generator "UNKNOWN_INTENT"
          "j'ai besoin d'aide pour mon cv" = Ok (Some ("CV_Advice", entry))
     /\ exists d self' w',
          ResponseGenerator.generate_response sample_env
            "j'ai besoin d'aide pour mon cv" "UNKNOWN_INTENT" PNone cv_generator
            sample_world = (Ok (PDict d), self', w')
          /\ PyDict.get "text" d = Some (PStr "Voici des conseils CV...")
          /\ PyDict.get "source" d = Some (PStr "generated")).
Proof.
  split.
  - eexists. split; [vm_compute; reflexivity|].
    do 3 eexists. split; [vm_compute; reflexivity|]. split; reflexivity.
  - eexists. split; [vm_compute; reflexivity|]. split; [vm_compute; reflexivity|].
    split; [vm_compute; reflexivity|].
    do 3 eexists. split; [vm_compute; reflexivity|]. split; reflexivity.
Qed.

(** C5 on four runs.  With no FAQ match and a generative service that
    answers, [generate_response] hands back the raw dict of
    [_generate_with_gemini]: its source is ["gemini"] and it has neither
    [intent] nor [suggestions].  When the service fails, the dict handed
    back has source ["error"] and neither [intent] nor [timestamp].  The
    [response] of [process_message] has no [timestamp].  The fallback
    stage, which does go through [_format_response], hands back all five
    fields and an allowed source. *)
Theorem generated_envelope_not_normalized :
  (exists envelope self' w',
     ResponseGenerator.generate_response sample_env "Quel est le salaire moyen ?"
       "General_Chat" PNone plain_generator sample_world
     = (Ok (PDict envelope), self', w')
     /\ PyDict.get "text" envelope = Some (PStr "Réponse générée.")
     /\ PyDict.get "source" envelope = Some (PStr "gemini")
     /\ source_allowed envelope = false
     /\ PyDict.mem "intent" envelope = false
     /\ PyDict.mem "suggestions" envelope = false)
  /\ (exists envelope self' w',
     ResponseGenerator.generate_response failing_env "Quel est le salaire moyen ?"
       "General_Chat" PNone plain_generator sample_world
     = (Ok (PDict envelope), self', w')
     /\ PyDict.get "source" envelope = Some (PStr "error")
     /\ PyDict.mem "intent" envelope = false
     /\ PyDict.mem "timestamp" envelope = false)
  /\ (exists result envelope self' w',
     DialogueManager.process_message sample_env "u1" "bonjour" fresh_manager sample_world
     = (Ok (PDict result), self', w')
     /\ PyDict.get "response" result = Some (PDict envelope)
     /\ PyDict.get "source" envelope = Some (PStr "generated")
     /\ PyDict.mem "timestamp" envelope = false)
  /\ (exists envelope self' w',
     ResponseGenerator.generate_response sample_env "Quel est le salaire moyen ?"
       "General_Chat" PNone (ResponseGenerator.mk (PDict []) false) sample_world
     = (Ok (PDict envelope), self', w')
     /\ source_allowed envelope = true
     /\ forallb (fun k => PyDict.mem k envelope)
          ["text"; "intent"; "suggestions"; "source"; "timestamp"] = true).
Proof.
  split; [|split; [|split]].
  - do 3 eexists. split; [vm_compute; reflexivity|]. repeat split; reflexivity.
  - do 3 eexists. split; [vm_compute; reflexivity|]. repeat split; reflexivity.
  - do 4 eexists. split; [vm_compute; reflexivity|]. repeat split; reflexivity.
  - do 3 eexists. split; [vm_compute; reflexivity|]. repeat split; reflexivity.
Qed.

(** ** CareerCoachChatbot: quick replies *)

(** No greeting or thanks token starts with white space. *)
Lemma token_starts_with_letter token :
  In token (CareerCoachChatbot.greetings ++ CareerCoachChatbot.thanks)%list ->
  exists c rest, token = String c rest /\ PyStr.isspace c = false.
Proof.
  cbn. intros H.
  repeat (destruct H as [<- | H]; [do 2 eexists; split; reflexivity|]).
  destruct H.
Qed.

(** A message in which such a token occurs is not blank. *)
Lemma token_message_not_blank token msg :
  In token (CareerCoachChatbot.greetings ++ CareerCoachChatbot.thanks)%list ->
  PyStr.contains token (PyStr.lower msg) = true ->
  PyStr.is_empty (PyStr.strip msg) = false.
Proof.
  intros Hin Hc. destruct (token_starts_with_letter token Hin) as (c & rest & Ht & Hsp).
  destruct (PyStr.strip msg) eqn:Es; [|reflexivity].
  apply PyStrFacts.strip_empty_all_space in Es.
  apply (PyStrFacts.all_chars_lower _ _ PyStrFacts.isspace_lower_char) in Es.
  rewrite (PyStrFacts.contains_first PyStr.isspace token _ c rest Ht Hc Es) in Hsp.
  discriminate.
Qed.

(** C6 (amended): a message in which a greeting or a thanks token occurs
    (as a substring of the lower-cased message) gets a canned reply with
    confidence 1 while the chatbot and the world stay as they were, so no
    prompt is sent to the generative service, whatever that service would
    do; the reply is the greeting when a greeting token occurs, and the
    acknowledgment when a thanks token but no greeting token occurs. *)
Theorem quick_replies_bypass_generation
    (E : Env) (msg : string) (self : CareerCoachChatbot.t) (w : World) :
  (exists token,
      In token (CareerCoachChatbot.greetings ++ CareerCoachChatbot.thanks)%list
      /\ PyStr.contains token (PyStr.lower msg) = true) ->
  exists reply,
    CareerCoachChatbot.send_message E msg self w
    = (Ok (CareerCoachChatbot.mkChatResponse reply 1), self, w)
    /\ ((exists g, In g CareerCoachChatbot.greetings
                   /\ PyStr.contains g (PyStr.lower msg) = true)
        -> reply = CareerCoachChatbot.greeting_reply)
    /\ ((forall g, In g CareerCoachChatbot.greetings
                   -> PyStr.contains g (PyStr.lower msg) = false)
        -> reply = CareerCoachChatbot.thanks_reply).
Proof.
  intros (token & Hin & Hc).
  unfold CareerCoachChatbot.send_message.
  rewrite (token_message_not_blank token msg Hin Hc).
  destruct (CareerCoachChatbot._is_greeting msg) eqn:G.
  - eexists. split; [reflexivity|]. split; [reflexivity|].
    intros Hno. unfold CareerCoachChatbot._is_greeting in G.
    apply existsb_exists in G as (g & Hg & Hgc). rewrite (Hno g Hg) in Hgc.
    discriminate.
  - assert (T : CareerCoachChatbot._is_thanks msg = true).
    { apply in_app_or in Hin as [Hin|Hin].
      - assert (X : CareerCoachChatbot._is_greeting msg = true)
          by (apply existsb_exists; eauto).
        congruence.
      - apply existsb_exists; eauto. }
    rewrite T. eexists. split; [reflexivity|]. split; [|reflexivity].
    intros (g & Hg & Hgc).
    assert (X : CareerCoachChatbot._is_greeting msg = true)
      by (apply existsb_exists; eauto).
    congruence.
Qed.

Lemma quick_replies_bypass_generation_witness :
  exists reply,
    CareerCoachChatbot.send_message failing_env "Bonjour, je cherche des conseils"
      (CareerCoachChatbot.__init__ true) sample_world
    = (Ok (CareerCoachChatbot.mkChatResponse reply 1),
       CareerCoachChatbot.__init__ true, sample_world)
    /\ ((exists g, In g CareerCoachChatbot.greetings
                   /\ PyStr.contains g
                        (PyStr.lower "Bonjour, je cherche des conseils") = true)
        -> reply = CareerCoachChatbot.greeting_reply)
    /\ ((forall g, In g CareerCoachChatbot.greetings
                   -> PyStr.contains g
                        (PyStr.lower "Bonjour, je cherche des conseils") = false)
        -> reply = CareerCoachChatbot.thanks_reply).
Proof.
  apply (quick_replies_bypass_generation failing_env
           "Bonjour, je cherche des conseils" (CareerCoachChatbot.__init__ true)
           sample_world).
  exists "bonjour". split; [simpl; auto | vm_compute; reflexivity].
Defined.

(** C6 as stated fails for a message with a thanks token and a greeting
    token: the greeting is tested first, so the reply is the greeting and
    not the acknowledgment. *)
Lemma thanks_with_greeting_gets_greeting :
  In "merci" CareerCoachChatbot.thanks
  /\ PyStr.contains "merci" (PyStr.lower "Merci, salut !") = true
  /\ CareerCoachChatbot.send_message sample_env "Merci, salut !"
       (CareerCoachChatbot.__init__ true) sample_world
     = (Ok (CareerCoachChatbot.mkChatResponse CareerCoachChatbot.greeting_reply 1),
        CareerCoachChatbot.__init__ true, sample_world)
  /\ CareerCoachChatbot.greeting_reply <> CareerCoachChatbot.thanks_reply.
Proof.
  split; [simpl; auto|]. split; [vm_compute; reflexivity|].
  split; [vm_compute; reflexivity|]. discriminate.
Qed.

(** ** Persistence *)

(** A [try] whose handler cannot raise cannot raise. *)
Lemma try_except_total {S A} (m : M S A) (h : exn -> M S A) :
  (forall e s w, exists a s' w', h e s w = (Ok a, s', w')) ->
  forall s w, exists a s' w', try_except m h s w = (Ok a, s', w').
Proof.
  intros Hh s w. unfold try_except.
  destruct (m s w) as [[[a|e] s'] w']; [do 3 eexists; reflexivity|apply Hh].
Qed.

Lemma load_contexts_total E self w :
  exists self' w', DialogueManager._load_contexts E self w = (Ok tt, self', w').
Proof.
  unfold DialogueManager._load_contexts.
  match goal with
  | |- context [try_except ?m ?h] =>
      destruct (try_except_total m h) with (s := self) (w := w) as ([] & s' & w' & H)
  end.
  - intros e s0 w0. do 3 eexists. reflexivity.
  - eauto.
Qed.

Lemma save_contexts_total E self w :
  exists w', DialogueManager._save_contexts E self w = (Ok tt, self, w').
Proof.
  unfold DialogueManager._save_contexts, try_except, bind, get_self, utcnow,
    write_snapshot, ret.
  cbn [snapshot_writable].
  destruct (snapshot_writable w); [|eexists; reflexivity].
  destruct (json_serializable _); eexists; reflexivity.
Qed.

(** C7: [_load_contexts] never raises, on any manager and whatever the
    file holds; with a file that cannot be read or is not JSON it empties
    both maps.  [_save_contexts] never raises and leaves the manager as it
    was; when the file cannot be written, the file stays as it was too.
    The constructor, the only caller of [_load_contexts], makes the
    directory of the file before it loads, outside any [try]: it raises
    [OSError] exactly when that fails and returns a manager otherwise,
    whatever the file holds; with a missing file, a file that cannot be
    read or a file that is not JSON, both maps of the new manager are
    empty. *)
Theorem persistence_never_raises (E : Env) :
  (forall (S0 : Type) (s0 : S0) w,
      if DialogueManager.dir_ready E w
      then exists self w', DialogueManager.__init__ E s0 w = (Ok self, s0, w')
      else DialogueManager.__init__ E s0 w = (Raise OSError, s0, w))
  /\ (forall self w,
      exists self' w', DialogueManager._load_contexts E self w = (Ok tt, self', w'))
  /\ (forall (S0 : Type) (s0 : S0) w d,
      In d [DiskMissing; DiskUnreadable; DiskGarbage] ->
      DialogueManager.dir_ready E (with_snapshot d w) = true ->
      exists self w',
        DialogueManager.__init__ E s0 (with_snapshot d w) = (Ok self, s0, w')
        /\ DialogueManager.contexts self = []
        /\ DialogueManager.user_profiles self = [])
  /\ (forall self w d,
      In d [DiskUnreadable; DiskGarbage] ->
      exists self' w',
        DialogueManager._load_contexts E self (with_snapshot d w) = (Ok tt, self', w')
        /\ DialogueManager.contexts self' = []
        /\ DialogueManager.user_profiles self' = [])
  /\ (forall self w,
      exists w', DialogueManager._save_contexts E self w = (Ok tt, self, w'))
  /\ (forall self w,
      exists w',
        DialogueManager._save_contexts E self (read_only w) = (Ok tt, self, w')
        /\ snapshot w' = snapshot w).
Proof.
  repeat split.
  - intros S0 s0 w. unfold DialogueManager.__init__, DialogueManager.mkdir_storage_parent.
    destruct (DialogueManager.dir_ready E w); [|reflexivity].
    match goal with
    | |- context [DialogueManager._load_contexts E ?x w] =>
        destruct (load_contexts_total E x w) as (self' & w' & H); rewrite H
    end.
    eauto.
  - apply load_contexts_total.
  - intros S0 s0 w d Hd Hr.
    unfold DialogueManager.__init__, DialogueManager.mkdir_storage_parent.
    rewrite Hr. cbn in Hd.
    destruct Hd as [<- | [<- | [<- | []]]]; do 2 eexists;
      (split; [reflexivity | split; reflexivity]).
  - intros self w d Hd. cbn in Hd.
    destruct Hd as [<- | [<- | []]]; do 2 eexists;
      (split; [reflexivity | split; reflexivity]).
  - apply save_contexts_total.
  - intros self w. eexists. split; reflexivity.
Qed.

(** The constructor where the directory cannot be made: no file, no way
    to write one, and [mkdir] fails, so no manager is built. *)
Lemma constructor_needs_directory :
  DialogueManager.dir_ready no_directory_env (read_only sample_world) = false
  /\ DialogueManager.__init__ no_directory_env tt (read_only sample_world)
     = (Raise OSError, tt, read_only sample_world).
Proof. split; reflexivity. Qed.

(** ** Session life cycle *)

(** [_save_contexts] reads the clock once and touches nothing else but the
    file. *)
Lemma save_contexts_effect E self w :
  exists w',
    DialogueManager._save_contexts E self w = (Ok tt, self, w')
    /\ uuid_draws w' = uuid_draws w
    /\ clock_reads w' = S (clock_reads w)
    /\ generate_calls w' = generate_calls w.
Proof.
  unfold DialogueManager._save_contexts, try_except, bind, get_self, utcnow,
    write_snapshot, ret.
  cbn [snapshot_writable].
  destruct (snapshot_writable w); [|eexists; repeat split; reflexivity].
  destruct (json_serializable _); eexists; repeat split; reflexivity.
Qed.

(** [get_or_create_context] when the user has a context: that context. *)
Lemma get_or_create_existing E u self w c :
  PyDict.get u (DialogueManager.contexts self) = Some c ->
  DialogueManager.get_or_create_context E u self w = (Ok c, self, w).
Proof.
  intros G. unfold DialogueManager.get_or_create_context, bind, get_self.
  rewrite G. reflexivity.
Qed.

(** [get_or_create_context] when the user has none: a new context is
    stored, its session id being the next uuid drawn. *)
Lemma get_or_create_missing E u self w :
  PyDict.get u (DialogueManager.contexts self) = None ->
  exists c self' w',
    DialogueManager.get_or_create_context E u self w = (Ok c, self', w')
    /\ ConversationContext.session_id c = PStr (uuid4_at E (uuid_draws w))
    /\ PyDict.get u (DialogueManager.contexts self') = Some c
    /\ DialogueManager.user_profiles self' = DialogueManager.user_profiles self
    /\ uuid_draws w' = S (uuid_draws w).
Proof.
  intros G. unfold DialogueManager.get_or_create_context, bind at 1, get_self.
  rewrite G.
  unfold ConversationContext.__init__, bind, uuid4, utcnow, modify, ret.
  cbn [clock_reads uuid_draws].
  match goal with
  | |- context [DialogueManager._save_contexts E ?s ?x] =>
      destruct (save_contexts_effect E s x) as (w' & Hs & Hu & _); rewrite Hs
  end.
  do 3 eexists. split; [reflexivity|].
  split; [reflexivity|]. split; [apply PyDictFacts.get_set_same|].
  split; [reflexivity|]. rewrite Hu. reflexivity.
Qed.

(** [end_session]: tells whether the user had a context, which is gone
    afterwards; profiles are untouched, no uuid is drawn, and a second call
    finds nothing to do. *)
Lemma end_session_effect E u self w :
  exists self' w',
    DialogueManager.end_session E u self w
    = (Ok (PyDict.mem u (DialogueManager.contexts self)), self', w')
    /\ PyDict.get u (DialogueManager.contexts self') = None
    /\ DialogueManager.user_profiles self' = DialogueManager.user_profiles self
    /\ uuid_draws w' = uuid_draws w
    /\ DialogueManager.end_session E u self' w' = (Ok false, self', w').
Proof.
  unfold DialogueManager.end_session, bind at 1, get_self.
  destruct (PyDict.mem u (DialogueManager.contexts self)) eqn:Mem.
  - unfold bind, modify, ret.
    match goal with
    | |- context [DialogueManager._save_contexts E ?s ?x] =>
        destruct (save_contexts_effect E s x) as (w' & Hs & Hu & _); rewrite Hs
    end.
    do 2 eexists. split; [reflexivity|].
    split; [apply PyDictFacts.get_del_same|]. split; [reflexivity|]. split; [exact Hu|].
    unfold bind, get_self. cbn [DialogueManager.contexts DialogueManager.set_contexts].
    rewrite PyDictFacts.mem_del_same. reflexivity.
  - exists self, w. split; [reflexivity|].
    split; [|split; [reflexivity|split; [reflexivity|]]].
    + unfold PyDict.mem in Mem. destruct (PyDict.get u _); [discriminate|reflexivity].
    + unfold bind, get_self. rewrite Mem. reflexivity.
Qed.





(** ** One chatbot for all users *)

(** *** What a method leaves alone: [stable] is kept by every combinator *)

Section Stable.
Context {S X : Type} (f : S -> X).

Lemma stable_ret {A} (a : A) : stable f (ret a).
Proof. split; reflexivity. Qed.

Lemma stable_raise {A} e : stable f (@raise S A e).
Proof. split; reflexivity. Qed.

Lemma stable_lift {A} (r : res A) : stable f (lift r).
Proof. split; reflexivity. Qed.

Lemma stable_get_self : stable f get_self.
Proof. split; reflexivity. Qed.

Lemma stable_gets {A} (g : S -> A) : stable f (gets g).
Proof. split; reflexivity. Qed.

Lemma stable_modify (g : S -> S) : (forall s, f (g s) = f s) -> stable f (modify g).
Proof. intros H s w. split; [apply H|reflexivity]. Qed.

Lemma stable_utcnow E : stable f (utcnow E).
Proof. split; reflexivity. Qed.

Lemma stable_uuid4 E : stable f (uuid4 E).
Proof. split; reflexivity. Qed.

Lemma stable_read_snapshot : stable f read_snapshot.
Proof. intros s w. unfold read_snapshot. destruct (snapshot w); split; reflexivity. Qed.

Lemma stable_write_snapshot doc : stable f (write_snapshot doc).
Proof.
  intros s w. unfold write_snapshot.
  destruct (snapshot_writable w); [|split; reflexivity].
  destruct (json_serializable doc); split; reflexivity.
Qed.

Lemma stable_bind {A B} (m : M S A) (k : A -> M S B) :
  stable f m -> (forall a, stable f (k a)) -> stable f (bind m k).
Proof.
  intros Hm Hk s w. unfold bind. specialize (Hm s w).
  destruct (m s w) as [[[a|e] s'] w']; cbn in Hm.
  - destruct (Hk a s' w') as [H1 H2]. destruct Hm as [H3 H4].
    split; congruence.
  - exact Hm.
Qed.

Lemma stable_try_except {A} (m : M S A) (h : exn -> M S A) :
  stable f m -> (forall e, stable f (h e)) -> stable f (try_except m h).
Proof.
  intros Hm Hh s w. unfold try_except. specialize (Hm s w).
  destruct (m s w) as [[[a|e] s'] w']; cbn in Hm.
  - exact Hm.
  - destruct (Hh e s' w') as [H1 H2]. destruct Hm as [H3 H4].
    split; congruence.
Qed.

Lemma stable_for_each {Y} (xs : list Y) (body : Y -> M S unit) :
  (forall x, stable f (body x)) -> stable f (for_each xs body).
Proof.
  intros H. induction xs as [|x r IH]; cbn [for_each].
  - apply stable_ret.
  - apply stable_bind; [apply H | intros _; exact IH].
Qed.

Lemma stable_filter_m {Y} (p : Y -> M S bool) (xs : list Y) :
  (forall x, stable f (p x)) -> stable f (filter_m p xs).
Proof.
  intros H. induction xs as [|x r IH]; cbn [filter_m].
  - apply stable_ret.
  - apply stable_bind; [apply H | intros b].
    apply stable_bind; [exact IH | intros ys; apply stable_ret].
Qed.

End Stable.

Create HintDb stable.

#[local] Hint Resolve stable_ret stable_raise stable_lift stable_get_self
  stable_gets stable_utcnow stable_uuid4 stable_read_snapshot
  stable_write_snapshot : stable.

(** Decompose a goal [stable f m] along the structure of [m]. *)
Ltac stable_step :=
  match goal with
  | |- stable _ (bind _ _) => apply stable_bind; [|intros ?]
  | |- stable _ (try_except _ _) => apply stable_try_except; [|intros ?]
  | |- stable _ (for_each _ _) => apply stable_for_each; intros ?
  | |- stable _ (filter_m _ _) => apply stable_filter_m; intros ?
  | |- stable _ (modify _) => apply stable_modify; intros ?; reflexivity
  | |- stable _ (if ?b then _ else _) => destruct b
  | |- stable _ (match ?x with _ => _ end) => destruct x
  | |- stable _ _ => solve [auto with stable]
  end.

Ltac stable_auto := repeat stable_step.

Lemma stable_add_message E role content intent kwargs :
  stable (fun _ : ConversationContext.t => tt)
         (ConversationContext.add_message E role content intent kwargs).
Proof. unfold ConversationContext.add_message. stable_auto. Qed.

Lemma stable_with_context {A} u (m : M ConversationContext.t A) :
  stable (fun _ => tt) m ->
  stable DialogueManager.chatbot (DialogueManager.with_context u m).
Proof.
  intros Hm self w. unfold DialogueManager.with_context.
  destruct (PyDict.get u (DialogueManager.contexts self)) as [c|]; [|split; reflexivity].
  specialize (Hm c w). destruct (m c w) as [[r c'] w']. cbn in *.
  split; [reflexivity|apply Hm].
Qed.

Lemma stable_with_profile {A} u (m : M UserProfile.t A) :
  stable (fun _ => tt) m ->
  stable DialogueManager.chatbot (DialogueManager.with_profile u m).
Proof.
  intros Hm self w. unfold DialogueManager.with_profile.
  destruct (PyDict.get u (DialogueManager.user_profiles self)) as [c|]; [|split; reflexivity].
  specialize (Hm c w). destruct (m c w) as [[r c'] w']. cbn in *.
  split; [reflexivity|apply Hm].
Qed.

Lemma stable_save_contexts E :
  stable DialogueManager.chatbot (DialogueManager._save_contexts E).
Proof. unfold DialogueManager._save_contexts. stable_auto. Qed.

Lemma stable_cleanup E n :
  stable DialogueManager.chatbot (DialogueManager._cleanup_old_contexts E n).
Proof.
  unfold DialogueManager._cleanup_old_contexts. stable_auto.
  apply stable_save_contexts.
Qed.

Lemma stable_get_or_create_context E u :
  stable DialogueManager.chatbot (DialogueManager.get_or_create_context E u).
Proof.
  unfold DialogueManager.get_or_create_context, ConversationContext.__init__.
  stable_auto. apply stable_save_contexts.
Qed.

Lemma stable_get_user_profile E u :
  stable DialogueManager.chatbot (DialogueManager.get_user_profile E u).
Proof.
  unfold DialogueManager.get_user_profile, UserProfile.__init__.
  stable_auto; apply stable_save_contexts.
Qed.

Lemma bind_ok {S A B} (m : M S A) (k : A -> M S B) s w a s1 w1 :
  m s w = (Ok a, s1, w1) -> bind m k s w = k a s1 w1.
Proof. intros H. unfold bind. rewrite H. reflexivity. Qed.

(** [get_user_profile] returns, and the profile is in store afterwards. *)
Lemma get_user_profile_total E u self w :
  exists p self' w',
    DialogueManager.get_user_profile E u self w = (Ok p, self', w')
    /\ PyDict.get u (DialogueManager.user_profiles self') = Some p.
Proof.
  unfold DialogueManager.get_user_profile, bind at 1, get_self.
  destruct (PyDict.get u (DialogueManager.user_profiles self)) as [p|] eqn:G.
  - exists p, self, w. split; [reflexivity|exact G].
  - unfold UserProfile.__init__, bind, uuid4, utcnow, modify, ret.
    destruct (truthy (PStr u));
      cbn [clock_reads uuid_draws];
      match goal with
      | |- context [DialogueManager._save_contexts E ?s ?x] =>
          destruct (save_contexts_effect E s x) as (w' & Hs & _); rewrite Hs
      end;
      do 3 eexists; (split; [reflexivity|apply PyDictFacts.get_set_same]).
Qed.

Lemma get_or_create_context_total E u self w :
  exists c self' w',
    DialogueManager.get_or_create_context E u self w = (Ok c, self', w').
Proof.
  destruct (PyDict.get u (DialogueManager.contexts self)) as [c|] eqn:G.
  - exists c, self, w. apply get_or_create_existing, G.
  - destruct (get_or_create_missing E u self w G) as (c & s' & w' & H & _).
    eauto.
Qed.

(** [send_message] on the generative path: the prompt is built from the
    chatbot's own history, sent, and the exchange is added to that
    history. *)
Lemma send_message_generative E message bot w :
  api_key_set E = true ->
  CareerCoachChatbot.use_gemini bot = true ->
  takes_generative_path message ->
  let history := CareerCoachChatbot.conversation_history bot in
  let prompt :=
    CareerCoachChatbot.build_prompt message
      (history ++ [CareerCoachChatbot.mkTurn "user" message])%list in
  let reply := reply_of (generate_content E (length (generate_calls w)) prompt) in
  CareerCoachChatbot.send_message E message bot w
  = (Ok (CareerCoachChatbot.mkChatResponse reply (9 # 10)),
     CareerCoachChatbot.set_conversation_history
       (trimmed (history ++ [CareerCoachChatbot.mkTurn "user" message;
                             CareerCoachChatbot.mkTurn "assistant" reply])%list) bot,
     mkWorld (clock_reads w) (uuid_draws w) (random_draws w) (snapshot w)
             (snapshot_writable w) (generate_calls w ++ [prompt])%list).
Proof.
  intros Hk Hu (Hb & Hg & Ht). cbv zeta.
  unfold CareerCoachChatbot.send_message. rewrite Hb, Hg, Ht.
  unfold bind at 1, get_self. rewrite Hu.
  unfold CareerCoachChatbot._call_gemini, GeminiClient. rewrite Hk.
  destruct bot as [ug history].
  unfold bind, try_except, modify, gets, generate_text, ret, trimmed.
  cbv beta iota delta [CareerCoachChatbot.conversation_history
    CareerCoachChatbot.set_conversation_history CareerCoachChatbot.use_gemini
    generate_calls clock_reads uuid_draws random_draws snapshot snapshot_writable].
  destruct (generate_content E _ _) as [a|e]; cbn [reply_of];
    rewrite <- !app_assoc; cbn [app];
    destruct (10 <? _)%nat; reflexivity.
Qed.

#[local] Hint Resolve stable_add_message stable_save_contexts stable_cleanup
  stable_get_or_create_context stable_get_user_profile : stable.

Ltac stable_manager :=
  repeat first
    [ apply stable_with_context
    | apply stable_with_profile
    | stable_step ].

Lemma with_profile_modify u (g : UserProfile.t -> UserProfile.t) self w p :
  PyDict.get u (DialogueManager.user_profiles self) = Some p ->
  DialogueManager.with_profile u (modify g) self w
  = (Ok tt,
     DialogueManager.set_user_profiles
       (PyDict.set u (g p) (DialogueManager.user_profiles self)) self, w).
Proof. intros H. unfold DialogueManager.with_profile. rewrite H. reflexivity. Qed.

(** [process_message] with a message on the generative path: whatever else
    happens, the one chatbot of the manager gets the prompt built from its
    history and records the exchange in that history. *)
Lemma process_message_chat E u message self w :
  api_key_set E = true ->
  CareerCoachChatbot.use_gemini (DialogueManager.chatbot self) = true ->
  takes_generative_path message ->
  let bot := DialogueManager.chatbot self in
  let history := CareerCoachChatbot.conversation_history bot in
  let prompt :=
    CareerCoachChatbot.build_prompt message
      (history ++ [CareerCoachChatbot.mkTurn "user" message])%list in
  let reply := reply_of (generate_content E (length (generate_calls w)) prompt) in
  let out := DialogueManager.process_message E u message self w in
  DialogueManager.chatbot (snd (fst out))
  = CareerCoachChatbot.set_conversation_history
      (trimmed (history ++ [CareerCoachChatbot.mkTurn "user" message;
                            CareerCoachChatbot.mkTurn "assistant" reply])%list) bot
  /\ generate_calls (snd out) = (generate_calls w ++ [prompt])%list.
Proof.
  intros Hk Hu Hpath. cbv zeta. unfold DialogueManager.process_message.
  (* the profile *)
  destruct (get_user_profile_total E u self w) as (p & s1 & w1 & H1 & Hp).
  pose proof (stable_get_user_profile E u self w) as [C1 G1]. rewrite H1 in C1, G1.
  cbn [fst snd] in C1, G1.
  rewrite (bind_ok _ _ _ _ _ _ _ H1).
  rewrite (bind_ok (utcnow E) _ _ _ _ _ _ eq_refl).
  rewrite (bind_ok _ _ _ _ _ _ _ (with_profile_modify u _ s1 _ p Hp)).
  (* the context *)
  cbv beta.
  match goal with
  | |- context [bind (DialogueManager.get_or_create_context E u) _ ?s ?x] =>
      destruct (get_or_create_context_total E u s x) as (c & s2 & w2 & H2);
      pose proof (stable_get_or_create_context E u s x) as [C2 G2]
  end.
  rewrite H2 in C2, G2. cbn [fst snd DialogueManager.chatbot
    DialogueManager.set_user_profiles generate_calls] in C2, G2.
  rewrite (bind_ok _ _ _ _ _ _ _ H2).
  (* the chatbot *)
  assert (Hu2 : CareerCoachChatbot.use_gemini (DialogueManager.chatbot s2) = true)
    by (rewrite C2, C1; exact Hu).
  pose proof (send_message_generative E message (DialogueManager.chatbot s2) w2
                Hk Hu2 Hpath) as Hsend. cbv zeta in Hsend.
  match type of Hsend with
  | _ = (Ok ?r, ?b, ?x) =>
      assert (Hpart : on_part DialogueManager.chatbot DialogueManager.set_chatbot
                        (CareerCoachChatbot.send_message E message) s2 w2
                      = (Ok r, DialogueManager.set_chatbot b s2, x))
        by (unfold on_part; rewrite Hsend; reflexivity)
  end.
  rewrite (bind_ok _ _ _ _ _ _ _ Hpart). cbv beta.
  (* what follows leaves the chatbot and the prompts alone *)
  match goal with
  | |- DialogueManager.chatbot (snd (fst (?m ?s ?x))) = _ /\ _ =>
      assert (St : stable DialogueManager.chatbot m)
        by (cbv zeta; stable_manager);
      destruct (St s x) as [C3 G3]
  end.
  rewrite C3, G3. cbn [DialogueManager.chatbot DialogueManager.set_chatbot generate_calls].
  rewrite C2, C1, G2, G1. split; reflexivity.
Qed.

(** *** Strings: length and occurrence under concatenation *)

Lemma string_length_append (a b : string) :
  String.length (a ++ b) = (String.length a + String.length b)%nat.
Proof. induction a as [|c a IH]; simpl; [reflexivity|]. rewrite IH. reflexivity. Qed.

Lemma string_append_assoc (a b c : string) : (a ++ b) ++ c = a ++ (b ++ c).
Proof. induction a as [|x a IH]; simpl; [reflexivity|]. rewrite IH. reflexivity. Qed.

Lemma startswith_append (p b : string) : PyStr.startswith p (p ++ b) = true.
Proof.
  induction p as [|c p IH]; simpl; [reflexivity|].
  rewrite Ascii.eqb_refl. exact IH.
Qed.

Lemma contains_append (a p b : string) : PyStr.contains p (a ++ (p ++ b)) = true.
Proof.
  induction a as [|c a IH].
  - simpl append at 1. destruct (p ++ b) eqn:E; simpl.
    + rewrite <- E, startswith_append. reflexivity.
    + rewrite <- E, startswith_append. reflexivity.
  - simpl. rewrite IH. apply orb_true_r.
Qed.

(** *** The window of the prompt *)

Lemma lastn_app_tail {A} n (a b : list A) :
  lastn (n + length b) (a ++ b)%list = (lastn n a ++ b)%list.
Proof.
  unfold lastn. rewrite length_app.
  replace (length a + length b - (n + length b))%nat with (length a - n)%nat by lia.
  apply skipn_app_le. lia.
Qed.

Lemma lastn_lastn_app {A} n m (a b : list A) :
  (n <= m + length b)%nat ->
  lastn n (lastn m a ++ b)%list = lastn n (a ++ b)%list.
Proof.
  intros Hn. unfold lastn. rewrite !length_app, length_skipn.
  destruct (Nat.le_gt_cases (length a) m) as [H|H].
  - replace (length a - m)%nat with O by lia. cbn [skipn].
    rewrite Nat.sub_0_r. reflexivity.
  - rewrite !skipn_app, skipn_skipn, length_skipn.
    f_equal; f_equal; lia.
Qed.

Lemma trimmed_lastn h : trimmed h = lastn 10 h.
Proof.
  unfold trimmed. destruct (10 <? length h)%nat eqn:L.
  - apply (slice_from_neg 10). lia.
  - apply Nat.ltb_ge in L. symmetry. apply lastn_all, L.
Qed.

Lemma string_append_nil_r (a : string) : a ++ "" = a.
Proof. induction a as [|c a IH]; simpl; [reflexivity|]. rewrite IH. reflexivity. Qed.

Lemma prompt_lines_app a b : prompt_lines (a ++ b)%list = prompt_lines a ++ prompt_lines b.
Proof.
  induction a as [|t a IH]; [reflexivity|].
  cbn [app prompt_lines fold_right]. fold (prompt_lines (a ++ b)%list).
  fold (prompt_lines a). rewrite IH, string_append_assoc. reflexivity.
Qed.

Lemma fold_left_prompt_lines l p :
  fold_left (fun p msg => p ++ (CareerCoachChatbot.role msg ++ ": "
                                ++ CareerCoachChatbot.content msg
                                ++ CareerCoachChatbot.nl)) l p
  = p ++ prompt_lines l.
Proof.
  revert p. induction l as [|t l IH]; intros p; cbn [fold_left].
  - symmetry. apply string_append_nil_r.
  - rewrite IH, string_append_assoc. reflexivity.
Qed.

(** The prompt shows the last six entries of the history it is given. *)
Lemma build_prompt_window message history :
  CareerCoachChatbot.build_prompt message history
  = prompt_over message (lastn 6 history).
Proof.
  unfold CareerCoachChatbot.build_prompt, prompt_over.
  rewrite (slice_from_neg 6) by lia. rewrite fold_left_prompt_lines.
  change (Z.to_nat 6) with 6%nat.
  rewrite !string_append_assoc. reflexivity.
Qed.

Lemma contains_prefix (p a s : string) :
  PyStr.contains p s = true -> PyStr.contains p (a ++ s) = true.
Proof.
  intros H. induction a as [|c a IH]; [exact H|].
  simpl. rewrite IH. apply orb_true_r.
Qed.

Lemma prompt_over_shows message (before after : list CareerCoachChatbot.Turn) t :
  PyStr.contains (prompt_line t)
    (prompt_over message (before ++ t :: after)%list) = true.
Proof.
  unfold prompt_over. rewrite prompt_lines_app.
  cbn [prompt_lines fold_right]. fold (prompt_lines after).
  rewrite !string_append_assoc.
  do 4 apply contains_prefix.
  apply (contains_append "").
Qed.

Lemma prompt_over_length message window :
  String.length (prompt_over message window)
  = (String.length (prompt_over message []) + String.length (prompt_lines window))%nat.
Proof.
  unfold prompt_over. cbn [prompt_lines fold_right].
  rewrite !string_length_append. cbn [String.length]. lia.
Qed.

(** C9: on a manager whose generative service is configured, whatever its
    one chatbot has already recorded, let any user u1 send a message m1 and
    then any user u2, for instance another one, send m2, both on the
    generative path.  The prompt sent for u2 is built from the history all
    users share: it shows the last six entries of that history with m2
    added, which are m2, the reply to u1, u1's message, and the three
    entries recorded before them; so u1's message stands in u2's prompt.
    Had u1 sent nothing, the prompt of the same (u2, m2) would show m2 and
    the five entries before it; when the chatbot had recorded at most three
    entries, the two prompts differ. *)
Theorem shared_history_crosses_users
    (E : Env) (self : DialogueManager.t) (w : World) (u1 u2 m1 m2 : string) :
  api_key_set E = true ->
  CareerCoachChatbot.use_gemini (DialogueManager.chatbot self) = true ->
  takes_generative_path m1 ->
  takes_generative_path m2 ->
  let history :=
    CareerCoachChatbot.conversation_history (DialogueManager.chatbot self) in
  let run1 := DialogueManager.process_message E u1 m1 self w in
  let run2 := DialogueManager.process_message E u2 m2 (snd (fst run1)) (snd run1) in
  let alone := DialogueManager.process_message E u2 m2 self w in
  exists reply1 : string,
    let exchange1 :=
      [CareerCoachChatbot.mkTurn "user" m1;
       CareerCoachChatbot.mkTurn "assistant" reply1] in
    let with_u1 :=
      CareerCoachChatbot.build_prompt m2
        (trimmed (history ++ exchange1) ++ [CareerCoachChatbot.mkTurn "user" m2])%list in
    let without_u1 :=
      CareerCoachChatbot.build_prompt m2
        (history ++ [CareerCoachChatbot.mkTurn "user" m2])%list in
    generate_calls (snd run2)
    = (generate_calls w
       ++ [CareerCoachChatbot.build_prompt m1
             (history ++ [CareerCoachChatbot.mkTurn "user" m1]);
           with_u1])%list
    /\ generate_calls (snd alone) = (generate_calls w ++ [without_u1])%list
    /\ with_u1
       = prompt_over m2
           (lastn 3 history
            ++ exchange1 ++ [CareerCoachChatbot.mkTurn "user" m2])%list
    /\ without_u1
       = prompt_over m2 (lastn 5 history ++ [CareerCoachChatbot.mkTurn "user" m2])%list
    /\ PyStr.contains ("user: " ++ m1 ++ CareerCoachChatbot.nl) with_u1 = true
    /\ ((length history <= 3)%nat -> with_u1 <> without_u1).
Proof.
  intros Hk Hu P1 P2. cbv zeta.
  destruct (process_message_chat E u1 m1 self w Hk Hu P1) as [C1 G1].
  cbv zeta in C1, G1.
  set (history := CareerCoachChatbot.conversation_history (DialogueManager.chatbot self))
    in *.
  set (s1 := snd (fst (DialogueManager.process_message E u1 m1 self w))) in *.
  set (w1 := snd (DialogueManager.process_message E u1 m1 self w)) in *.
  match type of C1 with
  | _ = CareerCoachChatbot.set_conversation_history
          (trimmed (_ ++ [_; CareerCoachChatbot.mkTurn _ ?r])%list) _ =>
      set (reply1 := r) in *
  end.
  assert (Hu1 : CareerCoachChatbot.use_gemini (DialogueManager.chatbot s1) = true)
    by (rewrite C1; exact Hu).
  destruct (process_message_chat E u2 m2 s1 w1 Hk Hu1 P2) as [_ G2].
  cbv zeta in G2. rewrite C1 in G2.
  cbn [CareerCoachChatbot.conversation_history
       CareerCoachChatbot.set_conversation_history] in G2.
  destruct (process_message_chat E u2 m2 self w Hk Hu P2) as [_ G3].
  cbv zeta in G3. fold history in G3.
  exists reply1.
  assert (W : CareerCoachChatbot.build_prompt m2
                (trimmed (history ++ [CareerCoachChatbot.mkTurn "user" m1;
                                      CareerCoachChatbot.mkTurn "assistant" reply1])
                 ++ [CareerCoachChatbot.mkTurn "user" m2])%list
              = prompt_over m2
                  (lastn 3 history
                   ++ [CareerCoachChatbot.mkTurn "user" m1;
                       CareerCoachChatbot.mkTurn "assistant" reply1]
                   ++ [CareerCoachChatbot.mkTurn "user" m2])%list).
  { rewrite build_prompt_window, trimmed_lastn.
    rewrite lastn_lastn_app by (cbn [length]; lia).
    rewrite <- app_assoc. apply f_equal.
    exact (lastn_app_tail 3 history _). }
  assert (W0 : CareerCoachChatbot.build_prompt m2
                 (history ++ [CareerCoachChatbot.mkTurn "user" m2])%list
               = prompt_over m2
                   (lastn 5 history ++ [CareerCoachChatbot.mkTurn "user" m2])%list).
  { rewrite build_prompt_window. apply f_equal.
    exact (lastn_app_tail 5 history _). }
  split; [rewrite G2, G1, <- app_assoc; reflexivity|].
  split; [exact G3|]. split; [exact W|]. split; [exact W0|]. split.
  - rewrite W.
    apply (prompt_over_shows m2 (lastn 3 history)
             [CareerCoachChatbot.mkTurn "assistant" reply1;
              CareerCoachChatbot.mkTurn "user" m2]
             (CareerCoachChatbot.mkTurn "user" m1)).
  - intros Hl X. rewrite W, W0 in X.
    rewrite !lastn_all in X by lia.
    apply (f_equal String.length) in X.
    rewrite (prompt_over_length m2 (history ++ _)%list) in X.
    rewrite (prompt_over_length m2 (history ++ [_])%list) in X.
    rewrite !prompt_lines_app, !string_length_append in X.
    cbn [prompt_lines fold_right app] in X. unfold prompt_line in X.
    cbn [CareerCoachChatbot.role CareerCoachChatbot.content] in X.
    rewrite !string_length_append in X. cbn [String.length] in X. lia.
Qed.

Lemma shared_history_crosses_users_witness :
  let history :=
    CareerCoachChatbot.conversation_history (DialogueManager.chatbot busy_manager) in
  let run1 :=
    DialogueManager.process_message sample_env "alice"
      "Quel est le salaire moyen d'un steward ?" busy_manager sample_world in
  let run2 :=
    DialogueManager.process_message sample_env "bob" "Comment devenir PNC ?"
      (snd (fst run1)) (snd run1) in
  let alone :=
    DialogueManager.process_message sample_env "bob" "Comment devenir PNC ?"
      busy_manager sample_world in
  exists reply1 : string,
    let exchange1 :=
      [CareerCoachChatbot.mkTurn "user" "Quel est le salaire moyen d'un steward ?";
       CareerCoachChatbot.mkTurn "assistant" reply1] in
    let with_u1 :=
      CareerCoachChatbot.build_prompt "Comment devenir PNC ?"
        (trimmed (history ++ exchange1)
         ++ [CareerCoachChatbot.mkTurn "user" "Comment devenir PNC ?"])%list in
    let without_u1 :=
      CareerCoachChatbot.build_prompt "Comment devenir PNC ?"
        (history ++ [CareerCoachChatbot.mkTurn "user" "Comment devenir PNC ?"])%list in
    generate_calls (snd run2)
    = (generate_calls sample_world
       ++ [CareerCoachChatbot.build_prompt "Quel est le salaire moyen d'un steward ?"
             (history ++ [CareerCoachChatbot.mkTurn "user"
                            "Quel est le salaire moyen d'un steward ?"]);
           with_u1])%list
    /\ generate_calls (snd alone) = (generate_calls sample_world ++ [without_u1])%list
    /\ with_u1
       = prompt_over "Comment devenir PNC ?"
           (lastn 3 history
            ++ exchange1
            ++ [CareerCoachChatbot.mkTurn "user" "Comment devenir PNC ?"])%list
    /\ without_u1
       = prompt_over "Comment devenir PNC ?"
           (lastn 5 history
            ++ [CareerCoachChatbot.mkTurn "user" "Comment devenir PNC ?"])%list
    /\ PyStr.contains
         ("user: " ++ "Quel est le salaire moyen d'un steward ?" ++ CareerCoachChatbot.nl)
         with_u1 = true
    /\ ((length history <= 3)%nat -> with_u1 <> without_u1).
Proof.
  apply (shared_history_crosses_users sample_env busy_manager sample_world
           "alice" "bob" "Quel est le salaire moyen d'un steward ?"
           "Comment devenir PNC ?");
    try reflexivity; repeat split; vm_compute; reflexivity.
Defined.

(** ** Deserialized contexts and the window *)

(** C10: [from_dict] takes the stored messages as they are.  A context
    read back from its own [to_dict] has all the messages of the original,
    however many, and the default bound 10; the next [add_message] on it
    succeeds and leaves the last 10 of those messages and the new one, so
    at most 10. *)
Theorem from_dict_keeps_messages_untruncated
    (E : Env) (S0 : Type) (s0 : S0) (w : World) (c0 : ConversationContext.t)
    (l : list pyval) :
  valid (ConversationContext.created_at c0) = true ->
  valid (ConversationContext.last_activity c0) = true ->
  ConversationContext.messages c0 = PList l ->
  exists c w',
    ConversationContext.from_dict E (ConversationContext.to_dict c0) s0 w
    = (Ok c, s0, w')
    /\ ConversationContext.messages c = PList l
    /\ ConversationContext.max_history c = PInt 10
    /\ forall role content intent kwargs wa,
         exists c2 wb l2,
           ConversationContext.add_message E role content intent kwargs c wa
           = (Ok tt, c2, wb)
           /\ ConversationContext.messages c2 = PList l2
           /\ l2 = lastn 10 (l ++ [message_at (utcnow_at E (clock_reads wa))
                                     role content intent kwargs])%list
           /\ (length l2 <= 10)%nat.
Proof.
  intros Vc Vl Hm.
  destruct (context_from_dict_to_dict E S0 s0 w c0 Vc Vl) as [w' H].
  eexists _, w'. split; [exact H|].
  cbn [ConversationContext.messages ConversationContext.max_history].
  split; [exact Hm|]. split; [reflexivity|].
  intros role content intent kwargs wa.
  match goal with
  | |- context [ConversationContext.add_message _ _ _ _ _ ?c _] =>
      destruct (add_message_step E 10 c l role content intent kwargs wa)
        as (c2 & wb & Hrun & Hm2 & _); [lia | exact Hm | reflexivity |]
  end.
  exists c2, wb, (lastn 10 (l ++ [message_at (utcnow_at E (clock_reads wa))
                                    role content intent kwargs])%list).
  split; [exact Hrun|]. split; [exact Hm2|]. split; [reflexivity|].
  apply lastn_length.
Qed.

Lemma from_dict_keeps_messages_untruncated_witness :
  (exists l, ConversationContext.messages long_context = PList l
             /\ 10 < Z.of_nat (length l))
  /\ exists c w',
    ConversationContext.from_dict sample_env (ConversationContext.to_dict long_context)
      tt sample_world = (Ok c, tt, w')
    /\ ConversationContext.messages c = ConversationContext.messages long_context
    /\ ConversationContext.max_history c = PInt 10
    /\ forall role content intent kwargs wa,
         exists c2 wb l2,
           ConversationContext.add_message sample_env role content intent kwargs c wa
           = (Ok tt, c2, wb)
           /\ ConversationContext.messages c2 = PList l2
           /\ l2 = lastn 10
                     (repeat (PDict [("timestamp", PStr "2025-06-15T10:31:00.250000");
                                     ("role", PStr "user");
                                     ("content", PStr "Une question");
                                     ("intent", PStr "General_Chat")]) 12
                      ++ [message_at (utcnow_at sample_env (clock_reads wa))
                            role content intent kwargs])%list
           /\ (length l2 <= 10)%nat.
Proof.
  split.
  - eexists. split; [reflexivity|]. vm_compute. reflexivity.
  - apply (from_dict_keeps_messages_untruncated sample_env unit tt sample_world
             long_context); reflexivity.
Defined.

(* ================================================================== *)
(** * Further properties of the code *)

(** ** UserProfile and ConversationContext: reading stored documents *)

(** [UserProfile.from_dict(p.to_dict())] is [p] again, field by field and
    both timestamps included, for every profile whose identifier is truthy
    and whose timestamps are valid date-times. *)
Theorem profile_round_trip
    (E : Env) (S0 : Type) (s0 : S0) (w : World) (p : UserProfile.t) :
  truthy (UserProfile.user_id p) = true ->
  valid (UserProfile.last_active p) = true ->
  valid (UserProfile.created_at p) = true ->
  exists w',
    UserProfile.from_dict E (UserProfile.to_dict p) s0 w = (Ok p, s0, w').
Proof. apply profile_from_dict_to_dict. Qed.

Lemma profile_round_trip_witness :
  exists w',
    UserProfile.from_dict sample_env (UserProfile.to_dict sample_profile) tt sample_world
    = (Ok sample_profile, tt, w').
Proof.
  apply (profile_round_trip sample_env unit tt sample_world sample_profile);
    reflexivity.
Defined.

Lemma stored_date_ok (S0 : Type) (s0 : S0) w key d dflt :
  profile_date_ok key d = true ->
  exists t, @UserProfile.stored_date S0 key d dflt s0 w = (Ok t, s0, w).
Proof.
  unfold profile_date_ok, UserProfile.stored_date.
  destruct (PyDict.get key d) as [v|]; [|eexists; reflexivity].
  destruct (truthy v); [|eexists; reflexivity].
  cbn [negb orb]. unfold lift. destruct (fromisoformat_obj v); [|discriminate].
  eexists; reflexivity.
Qed.

Lemma stored_date_bad (S0 : Type) (s0 : S0) w key d dflt :
  profile_date_ok key d = false ->
  exists e, @UserProfile.stored_date S0 key d dflt s0 w = (Raise e, s0, w).
Proof.
  unfold profile_date_ok, UserProfile.stored_date.
  destruct (PyDict.get key d) as [v|]; [|discriminate].
  destruct (truthy v); [|discriminate].
  cbn [negb orb]. unfold lift. destruct (fromisoformat_obj v); [discriminate|].
  eexists; reflexivity.
Qed.

Lemma bind_raise {S A B} (m : M S A) (k : A -> M S B) s w e s1 w1 :
  m s w = (Raise e, s1, w1) -> bind m k s w = (Raise e, s1, w1).
Proof. intros H. unfold bind. rewrite H. reflexivity. Qed.

(** The constructor: a falsy identifier costs one uuid. *)
Lemma profile_init_run E (S0 : Type) (s0 : S0) w uid :
  exists p w',
    UserProfile.__init__ E uid s0 w = (Ok p, s0, w')
    /\ UserProfile.user_id p
       = (if truthy uid then uid else PStr (uuid4_at E (uuid_draws w)))
    /\ uuid_draws w' = (if truthy uid then uuid_draws w else S (uuid_draws w))
    /\ generate_calls w' = generate_calls w
    /\ snapshot w' = snapshot w.
Proof.
  unfold UserProfile.__init__, bind, uuid4, utcnow, ret.
  destruct (truthy uid); do 2 eexists; repeat split; reflexivity.
Qed.

(** [UserProfile.from_dict] on a dict returns exactly when both stored
    dates can be taken (absent, empty, or valid ISO strings).  It then
    keeps a non-empty [user_id] without drawing a uuid, and replaces a
    missing or empty one by the next uuid; missing preferences become the
    empty dict, not the constructor's defaults.  Otherwise it raises. *)
Theorem profile_from_dict_outcome
    (E : Env) (S0 : Type) (s0 : S0) (w : World) (d : pydict pyval) :
  let uid := PyDict.get_default "user_id" PNone d in
  if profile_date_ok "last_active" d && profile_date_ok "created_at" d then
    exists p w',
      UserProfile.from_dict E (PDict d) s0 w = (Ok p, s0, w')
      /\ UserProfile.user_id p
         = (if truthy uid then uid else PStr (uuid4_at E (uuid_draws w)))
      /\ uuid_draws w' = (if truthy uid then uuid_draws w else S (uuid_draws w))
      /\ UserProfile.preferences p = PyDict.get_default "preferences" (PDict []) d
      /\ UserProfile.languages p
         = PyDict.get_default "languages" (PList [PStr "Français"]) d
  else
    exists e w', UserProfile.from_dict E (PDict d) s0 w = (Raise e, s0, w').
Proof.
  cbv zeta. unfold UserProfile.from_dict.
  destruct (profile_init_run E S0 s0 w (PyDict.get_default "user_id" PNone d))
    as (p0 & w0 & H0 & Hid & Hdraw & _).
  rewrite (bind_ok _ _ _ _ _ _ _ H0).
  destruct (profile_date_ok "last_active" d) eqn:L; cbn [andb].
  - destruct (stored_date_ok S0 s0 w0 "last_active" d (UserProfile.last_active p0) L)
      as [t1 H1].
    rewrite (bind_ok _ _ _ _ _ _ _ H1).
    destruct (profile_date_ok "created_at" d) eqn:C.
    + destruct (stored_date_ok S0 s0 w0 "created_at" d (UserProfile.created_at p0) C)
        as [t2 H2].
      rewrite (bind_ok _ _ _ _ _ _ _ H2).
      do 2 eexists. split; [reflexivity|]. cbn. auto.
    + destruct (stored_date_bad S0 s0 w0 "created_at" d (UserProfile.created_at p0) C)
        as [e H2].
      rewrite (bind_raise _ _ _ _ _ _ _ H2). eauto.
  - destruct (stored_date_bad S0 s0 w0 "last_active" d (UserProfile.last_active p0) L)
      as [e H1].
    rewrite (bind_raise _ _ _ _ _ _ _ H1). eauto.
Qed.

Lemma context_date_read (S0 : Type) (s0 : S0) w key d :
  (x <- lift (subscript key d) ;; lift (fromisoformat_obj x)) s0 w
  = (match PyDict.get key d with
     | Some v => fromisoformat_obj v
     | None => Raise KeyError
     end, s0, w).
Proof.
  unfold bind, lift, subscript.
  destruct (PyDict.get key d) as [v|]; [|reflexivity].
  destruct (fromisoformat_obj v); reflexivity.
Qed.

(** [ConversationContext.from_dict]: anything but a dict raises [TypeError]
    and a dict without [user_id] raises [KeyError], both before anything is
    drawn or read.  A dict with a [user_id] and two valid ISO dates gives a
    context holding the stored session id (or, when none is stored, the
    second of the two uuids the call draws), the stored messages as they
    are and the stored bound (10 when none is stored).  Any other dict
    raises. *)
Theorem context_from_dict_outcome
    (E : Env) (S0 : Type) (s0 : S0) (w : World) (data : pyval) :
  match data with
  | PDict d =>
      if negb (PyDict.mem "user_id" d) then
        ConversationContext.from_dict E data s0 w = (Raise KeyError, s0, w)
      else if context_date_ok "created_at" d && context_date_ok "last_activity" d then
        exists c w',
          ConversationContext.from_dict E data s0 w = (Ok c, s0, w')
          /\ Some (ConversationContext.user_id c) = PyDict.get "user_id" d
          /\ ConversationContext.session_id c
             = PyDict.get_default "session_id"
                 (PStr (uuid4_at E (S (uuid_draws w)))) d
          /\ ConversationContext.messages c
             = PyDict.get_default "messages" (PList []) d
          /\ ConversationContext.max_history c
             = PyDict.get_default "max_history" (PInt 10) d
          /\ uuid_draws w' = S (S (uuid_draws w))
      else
        exists e w', ConversationContext.from_dict E data s0 w = (Raise e, s0, w')
  | _ => ConversationContext.from_dict E data s0 w = (Raise TypeError, s0, w)
  end.
Proof.
  destruct data as [| | | | |l|d|]; try reflexivity.
  unfold ConversationContext.from_dict, PyDict.mem, subscript.
  destruct (PyDict.get "user_id" d) as [uid|] eqn:U; cbn [negb]; [|reflexivity].
  rewrite (bind_ok (lift (Ok uid)) _ _ _ _ _ _ eq_refl).
  rewrite (bind_ok (ConversationContext.__init__ E uid _) _ _ _ _ _ _ eq_refl).
  rewrite (bind_ok (uuid4 E) _ _ _ _ _ _ eq_refl).
  cbn [clock_reads uuid_draws].
  fold (subscript "created_at" d). fold (subscript "last_activity" d).
  unfold context_date_ok.
  match goal with
  | |- context [bind (bind (lift (subscript "created_at" d)) _) _ ?s ?x] =>
      pose proof (context_date_read S0 s x "created_at" d) as R1
  end.
  destruct (PyDict.get "created_at" d) as [v1|]; cbn [andb];
    [|rewrite (bind_raise _ _ _ _ _ _ _ R1); eauto].
  destruct (fromisoformat_obj v1) as [ca|e1]; cbn [andb];
    [|rewrite (bind_raise _ _ _ _ _ _ _ R1); eauto].
  rewrite (bind_ok _ _ _ _ _ _ _ R1).
  match goal with
  | |- context [bind (bind (lift (subscript "last_activity" d)) _) _ ?s ?x] =>
      pose proof (context_date_read S0 s x "last_activity" d) as R2
  end.
  destruct (PyDict.get "last_activity" d) as [v2|];
    [|rewrite (bind_raise _ _ _ _ _ _ _ R2); eauto].
  destruct (fromisoformat_obj v2) as [la|e2];
    [|rewrite (bind_raise _ _ _ _ _ _ _ R2); eauto].
  rewrite (bind_ok _ _ _ _ _ _ _ R2).
  do 2 eexists. split; [reflexivity|]. cbn. auto.
Qed.

(** [get_last_messages(n)] with [n >= 1] gives the last [n] messages, all
    of them when there are fewer, and the empty list when there are none;
    with [n = 0] it gives every message. *)
Theorem get_last_messages_window (c : ConversationContext.t) (l : list pyval) (n : Z) :
  ConversationContext.messages c = PList l ->
  1 <= n ->
  ConversationContext.get_last_messages n c = Ok (PList (lastn (Z.to_nat n) l))
  /\ (length (lastn (Z.to_nat n) l) <= Z.to_nat n)%nat
  /\ ConversationContext.get_last_messages 0 c = Ok (PList l).
Proof.
  intros Hm Hn. unfold ConversationContext.get_last_messages. rewrite Hm.
  destruct l as [|m l']; cbn [truthy].
  - repeat split; try reflexivity. apply lastn_length.
  - rewrite slice_from_neg by assumption.
    split; [reflexivity|]. split; [apply lastn_length|reflexivity].
Qed.

Lemma get_last_messages_window_witness :
  (exists l, ConversationContext.messages long_context = PList l /\ 1 <= 3)
  /\ exists l,
       ConversationContext.messages long_context = PList l
       /\ ConversationContext.get_last_messages 3 long_context
          = Ok (PList (lastn (Z.to_nat 3) l))
       /\ (length (lastn (Z.to_nat 3) l) <= Z.to_nat 3)%nat
       /\ ConversationContext.get_last_messages 0 long_context = Ok (PList l).
Proof.
  split; [eexists; split; [reflexivity|lia]|].
  eexists. split; [reflexivity|].
  apply (get_last_messages_window long_context _ 3); [reflexivity|lia].
Defined.

(** ** CareerCoachChatbot: cleaning, history and summary *)

Lemma last_char_append_dot r : PyStr.last_char (r ++ ".") = Some "."%char.
Proof.
  induction r as [|c r IH]; [reflexivity|].
  cbn [append PyStr.last_char]. destruct (r ++ ".") eqn:A.
  - destruct r; discriminate A.
  - exact IH.
Qed.

(** [_clean_response] gives either the empty string or a text that ends
    with a full stop, an exclamation mark or a question mark; an answer of
    white space only gives the empty string. *)
Theorem clean_response_punctuated (answer : string) :
  (CareerCoachChatbot._clean_response answer = ""
   \/ CareerCoachChatbot.ends_sentence (CareerCoachChatbot._clean_response answer) = true)
  /\ (if PyStr.all_chars PyStr.isspace answer
      then CareerCoachChatbot._clean_response answer = ""
      else True).
Proof.
  split.
  - unfold CareerCoachChatbot._clean_response.
    set (r := CareerCoachChatbot.strip_speaker (PyStr.strip answer)).
    destruct r as [|c r'] eqn:R; [left; reflexivity|]. cbn [PyStr.is_empty negb andb].
    destruct (CareerCoachChatbot.ends_sentence (String c r')) eqn:En; cbn [negb].
    + right. exact En.
    + right. unfold CareerCoachChatbot.ends_sentence.
      rewrite last_char_append_dot. reflexivity.
  - destruct (PyStr.all_chars PyStr.isspace answer) eqn:A; [|exact I].
    unfold CareerCoachChatbot._clean_response, PyStr.strip.
    rewrite (PyStrFacts.lstrip_all_space _ A). reflexivity.
Qed.

Lemma Forall_skipn_keep {A} (P : A -> Prop) n (l : list A) :
  Forall P l -> Forall P (skipn n l).
Proof.
  revert l. induction n as [|n IH]; intros l H; [exact H|].
  destruct l as [|x l]; [exact H|]. cbn. apply IH. inversion H; assumption.
Qed.

Lemma trimmed_ok h :
  Forall (fun t => CareerCoachChatbot.role t = "user"
                   \/ CareerCoachChatbot.role t = "assistant") h ->
  chat_history_ok (trimmed h).
Proof.
  intros F. unfold trimmed, chat_history_ok.
  destruct (10 <? length h)%nat eqn:L.
  - rewrite (slice_from_neg 10) by lia. split.
    + apply (lastn_length 10).
    + apply Forall_skipn_keep, F.
  - apply Nat.ltb_ge in L. split; assumption.
Qed.

(** [_call_gemini] never raises and leaves the chatbot alone: without an
    API key it sends nothing and apologizes; with one it sends the prompt
    and answers with the cleaned reply, or with the apology when the
    service fails. *)
Lemma call_gemini_run E message history bot w :
  CareerCoachChatbot._call_gemini E message history bot w
  = if api_key_set E then
      (Ok (reply_of (generate_content E (length (generate_calls w))
                       (CareerCoachChatbot.build_prompt message history))),
       bot,
       mkWorld (clock_reads w) (uuid_draws w) (random_draws w) (snapshot w)
               (snapshot_writable w)
               (generate_calls w ++ [CareerCoachChatbot.build_prompt message history])%list)
    else (Ok CareerCoachChatbot.gemini_error_reply, bot, w).
Proof.
  unfold CareerCoachChatbot._call_gemini, GeminiClient, try_except, bind,
    generate_text, ret, raise.
  destruct (api_key_set E); [|reflexivity].
  destruct (generate_content E _ _); reflexivity.
Qed.

(** What a message on the generative path does, with or without an API
    key. *)
Lemma send_message_recorded E message bot w :
  CareerCoachChatbot.use_gemini bot = true ->
  takes_generative_path message ->
  exists reply w',
    CareerCoachChatbot.send_message E message bot w
    = (Ok (CareerCoachChatbot.mkChatResponse reply (9 # 10)),
       CareerCoachChatbot.set_conversation_history
         (trimmed (CareerCoachChatbot.conversation_history bot
                   ++ [CareerCoachChatbot.mkTurn "user" message;
                       CareerCoachChatbot.mkTurn "assistant" reply])%list) bot,
       w')
    /\ (length (generate_calls w') <= S (length (generate_calls w)))%nat.
Proof.
  intros Hu Hpath. destruct (api_key_set E) eqn:K.
  - pose proof (send_message_generative E message bot w K Hu Hpath) as H.
    cbv zeta in H. do 2 eexists. split; [exact H|].
    cbn [generate_calls]. rewrite length_app. cbn. lia.
  - destruct Hpath as (Hb & Hg & Ht).
    exists CareerCoachChatbot.gemini_error_reply, w. split; [|lia].
    unfold CareerCoachChatbot.send_message. rewrite Hb, Hg, Ht.
    unfold bind at 1, get_self. rewrite Hu.
    destruct bot as [ug history].
    unfold bind at 1, modify.
    unfold bind at 1, gets.
    unfold bind at 1. rewrite call_gemini_run, K.
    unfold bind, modify, gets, ret, trimmed.
    cbv beta iota delta [CareerCoachChatbot.conversation_history
      CareerCoachChatbot.set_conversation_history CareerCoachChatbot.use_gemini].
    rewrite <- !app_assoc. cbn [app].
    destruct (10 <? _)%nat; reflexivity.
Qed.

(** One [send_message]: it returns, sends at most one prompt, keeps the
    history well formed. *)
Lemma send_message_step
    (E : Env) (message : string) (bot : CareerCoachChatbot.t) (w : World) :
  exists r bot' w',
    CareerCoachChatbot.send_message E message bot w = (Ok r, bot', w')
    /\ CareerCoachChatbot.use_gemini bot' = CareerCoachChatbot.use_gemini bot
    /\ (length (generate_calls w') <= S (length (generate_calls w)))%nat
    /\ (chat_history_ok (CareerCoachChatbot.conversation_history bot) ->
        chat_history_ok (CareerCoachChatbot.conversation_history bot')).
Proof.
  destruct (PyStr.is_empty (PyStr.strip message)) eqn:Hb;
    [|destruct (CareerCoachChatbot._is_greeting message) eqn:Hg;
      [|destruct (CareerCoachChatbot._is_thanks message) eqn:Ht;
        [|destruct (CareerCoachChatbot.use_gemini bot) eqn:Hu]]].
  5: {
    unfold CareerCoachChatbot.send_message. rewrite Hb, Hg, Ht.
    unfold bind, get_self. rewrite Hu.
    do 3 eexists. split; [reflexivity|].
    split; [congruence|split; [lia|intros H; exact H]]. }
  4: {
    destruct (send_message_recorded E message bot w Hu (conj Hb (conj Hg Ht)))
      as (reply & w' & Hrun & Hcalls).
    do 3 eexists. split; [exact Hrun|]. split; [exact Hu|]. split; [exact Hcalls|].
    intros [_ F]. cbn [CareerCoachChatbot.conversation_history
                       CareerCoachChatbot.set_conversation_history].
    apply trimmed_ok. apply Forall_app. split; [exact F|].
    constructor; [left; reflexivity|].
    constructor; [right; reflexivity|constructor]. }
  all: unfold CareerCoachChatbot.send_message; rewrite ?Hb, ?Hg, ?Ht;
    do 3 eexists; (split; [reflexivity|]);
    (split; [reflexivity|split; [lia|intros H; exact H]]).
Qed.


Lemma roles_count h :
  Forall (fun t => CareerCoachChatbot.role t = "user"
                   \/ CareerCoachChatbot.role t = "assistant") h ->
  length h = (CareerCoachChatbot.count_role "user" h
              + CareerCoachChatbot.count_role "assistant" h)%nat.
Proof.
  unfold CareerCoachChatbot.count_role.
  induction 1 as [|t h [R|R] _ IH]; [reflexivity| |];
    cbn [filter length]; rewrite R; cbn; rewrite IH; lia.
Qed.

Lemma send_all_ok E messages : forall bot w,
  chat_history_ok (CareerCoachChatbot.conversation_history bot) ->
  exists bot' w',
    send_all E messages bot w = (Ok tt, bot', w')
    /\ chat_history_ok (CareerCoachChatbot.conversation_history bot')
    /\ (length (generate_calls w') <= length (generate_calls w) + length messages)%nat.
Proof.
  induction messages as [|m r IH]; intros bot w H.
  - exists bot, w. cbn. split; [reflexivity|]. split; [exact H|lia].
  - destruct (send_message_step E m bot w)
      as (x & bot1 & w1 & Hrun & _ & Hc & Hk).
    destruct (IH bot1 w1 (Hk H)) as (bot2 & w2 & Hrun2 & H2 & Hc2).
    exists bot2, w2. split; [|split; [exact H2|cbn [length]; lia]].
    unfold send_all in *. cbn [for_each]. unfold bind at 1. unfold bind at 1.
    rewrite Hrun. cbn [ret]. exact Hrun2.
Qed.

(** However many messages a new chatbot is sent, and whatever the
    generative service answers, all calls return, at most one prompt per
    message goes out, and [get_conversation_summary] reports at most ten
    messages, the users' and the assistant's adding up to the total. *)
Theorem conversation_summary_adds_up
    (E : Env) (use : bool) (messages : list string) (w : World) :
  exists bot' w' total users assistants,
    send_all E messages (CareerCoachChatbot.__init__ use) w = (Ok tt, bot', w')
    /\ CareerCoachChatbot.get_conversation_summary bot'
       = [("total_messages", PInt (Z.of_nat total));
          ("user_messages", PInt (Z.of_nat users));
          ("assistant_messages", PInt (Z.of_nat assistants))]
    /\ total = (users + assistants)%nat
    /\ (total <= 10)%nat
    /\ (length (generate_calls w') <= length (generate_calls w) + length messages)%nat.
Proof.
  destruct (send_all_ok E messages (CareerCoachChatbot.__init__ use) w)
    as (bot' & w' & Hrun & [Hlen Hroles] & Hc).
  { split; [cbn; lia|constructor]. }
  exists bot', w', (length (CareerCoachChatbot.conversation_history bot')),
    (CareerCoachChatbot.count_role "user" (CareerCoachChatbot.conversation_history bot')),
    (CareerCoachChatbot.count_role "assistant"
       (CareerCoachChatbot.conversation_history bot')).
  split; [exact Hrun|]. split; [reflexivity|].
  split; [apply roles_count, Hroles|]. split; assumption.
Qed.

(** After [clear_conversation], the next message on the generative path
    goes out with a prompt that holds nothing of what was said before, the
    prompt a chatbot that was never used would send, and the history holds
    that one exchange. *)
Theorem clear_conversation_forgets
    (E : Env) (message : string) (bot : CareerCoachChatbot.t) (w : World) :
  api_key_set E = true ->
  CareerCoachChatbot.use_gemini bot = true ->
  takes_generative_path message ->
  exists bot1 r bot2 w2,
    CareerCoachChatbot.clear_conversation bot w = (Ok tt, bot1, w)
    /\ CareerCoachChatbot.send_message E message bot1 w = (Ok r, bot2, w2)
    /\ generate_calls w2
       = (generate_calls w
          ++ [CareerCoachChatbot.build_prompt message
                [CareerCoachChatbot.mkTurn "user" message]])%list
    /\ generate_calls w2
       = generate_calls
           (snd (CareerCoachChatbot.send_message E message
                   (CareerCoachChatbot.__init__ true) w))
    /\ CareerCoachChatbot.conversation_history bot2
       = [CareerCoachChatbot.mkTurn "user" message;
          CareerCoachChatbot.mkTurn "assistant" (CareerCoachChatbot.response r)].
Proof.
  intros Hk Hu Hpath.
  pose proof (send_message_generative E message
                (CareerCoachChatbot.set_conversation_history [] bot) w Hk Hu Hpath) as H1.
  pose proof (send_message_generative E message (CareerCoachChatbot.__init__ true) w
                Hk eq_refl Hpath) as H2.
  cbv zeta in H1, H2.
  cbn [CareerCoachChatbot.conversation_history
       CareerCoachChatbot.set_conversation_history CareerCoachChatbot.__init__ app]
    in H1, H2.
  do 4 eexists. split; [reflexivity|]. split; [exact H1|].
  split; [reflexivity|]. split; [rewrite H2; reflexivity|reflexivity].
Qed.

Lemma clear_conversation_forgets_witness :
  exists bot1 r bot2 w2,
    CareerCoachChatbot.clear_conversation
      (CareerCoachChatbot.mk true [CareerCoachChatbot.mkTurn "user" "Ancien message";
                                   CareerCoachChatbot.mkTurn "assistant" "Ancienne réponse."])
      sample_world = (Ok tt, bot1, sample_world)
    /\ CareerCoachChatbot.send_message sample_env "Comment devenir PNC ?" bot1 sample_world
       = (Ok r, bot2, w2)
    /\ generate_calls w2
       = (generate_calls sample_world
          ++ [CareerCoachChatbot.build_prompt "Comment devenir PNC ?"
                [CareerCoachChatbot.mkTurn "user" "Comment devenir PNC ?"]])%list
    /\ generate_calls w2
       = generate_calls
           (snd (CareerCoachChatbot.send_message sample_env "Comment devenir PNC ?"
                   (CareerCoachChatbot.__init__ true) sample_world))
    /\ CareerCoachChatbot.conversation_history bot2
       = [CareerCoachChatbot.mkTurn "user" "Comment devenir PNC ?";
          CareerCoachChatbot.mkTurn "assistant" (CareerCoachChatbot.response r)].
Proof.
  apply (clear_conversation_forgets sample_env "Comment devenir PNC ?"
           (CareerCoachChatbot.mk true
              [CareerCoachChatbot.mkTurn "user" "Ancien message";
               CareerCoachChatbot.mkTurn "assistant" "Ancienne réponse."])
           sample_world);
    try reflexivity; repeat split; vm_compute; reflexivity.
Defined.

(** ** ResponseGenerator: formatting, lookup and the later stages *)

Lemma format_in_place_run E intent c d w :
  source_testable d = true ->
  exists d',
    ResponseGenerator.format_in_place E intent (PDict c) d w
    = (Ok tt, d',
       mkWorld (S (clock_reads w)) (uuid_draws w) (random_draws w) (snapshot w)
               (snapshot_writable w) (generate_calls w))
    /\ PyDict.get "text" d'
       = Some (PyDict.get_default "text" (PStr ResponseGenerator.default_text) d)
    /\ PyDict.get "suggestions" d'
       = Some (PyDict.get_default "suggestions" (PList []) d)
    /\ PyDict.get "source" d'
       = Some (PyDict.get_default "source" (PStr "generated") d)
    /\ PyDict.get "intent" d' = Some (PStr intent)
    /\ PyDict.get "timestamp" d'
       = Some (PStr (isoformat (utcnow_at E (clock_reads w)))).
Proof.
  intros Hs.
  unfold ResponseGenerator.format_in_place, bind, modify, get_self, lift, utcnow, ret.
  set (d1 := PyDict.setdefault "text" _ d).
  set (d2 := PyDict.setdefault "suggestions" _ d1).
  assert (S2 : PyDict.get "source" d2 = PyDict.get "source" d).
  { unfold d2, d1. rewrite !get_setdefault_other by discriminate. reflexivity. }
  assert (T2 : PyDict.get "text" d2
               = Some (PyDict.get_default "text" (PStr ResponseGenerator.default_text) d)).
  { unfold d2, d1. rewrite get_setdefault_other by discriminate.
    rewrite get_setdefault_same. reflexivity. }
  assert (G2 : PyDict.get "suggestions" d2
               = Some (PyDict.get_default "suggestions" (PList []) d)).
  { unfold d2. rewrite get_setdefault_same. unfold d1.
    rewrite get_setdefault_other by discriminate. reflexivity. }
  assert (P : exists b, py_in "faq" (PyDict.get_default "source" (PStr "") d2) = Ok b
                        /\ (PyDict.get "source" d = None -> b = false)).
  { unfold PyDict.get_default. rewrite S2. unfold source_testable in Hs.
    destruct (PyDict.get "source" d) as [[]|]; try discriminate Hs;
      cbn [py_in]; eexists; (split; [reflexivity|]); try discriminate.
    reflexivity. }
  destruct P as (b & Pb & Pnone). rewrite Pb.
  set (d3 := PyDict.setdefault "source" _ d2).
  assert (S3 : PyDict.get "source" d3
               = Some (PyDict.get_default "source" (PStr "generated") d)).
  { unfold d3. rewrite get_setdefault_same, S2. unfold PyDict.get_default.
    destruct (PyDict.get "source" d); [reflexivity|].
    rewrite (Pnone eq_refl). reflexivity. }
  unfold subscript.
  rewrite !PyDictFacts.get_set_other by discriminate. rewrite S3.
  eexists. split; [reflexivity|].
  rewrite !PyDictFacts.get_set_other by discriminate.
  rewrite (PyDictFacts.get_set_other "_debug" "timestamp") by discriminate.
  rewrite !PyDictFacts.get_set_same.
  unfold d3. rewrite !get_setdefault_other by discriminate.
  repeat split; assumption.
Qed.

Lemma format_in_place_bad_source E intent c d w :
  source_testable d = false ->
  exists d',
    ResponseGenerator.format_in_place E intent (PDict c) d w = (Raise TypeError, d', w).
Proof.
  intros Hs.
  unfold ResponseGenerator.format_in_place, bind, modify, get_self, lift, utcnow, ret.
  set (d1 := PyDict.setdefault "text" _ d).
  set (d2 := PyDict.setdefault "suggestions" _ d1).
  assert (S2 : PyDict.get "source" d2 = PyDict.get "source" d).
  { unfold d2, d1. rewrite !get_setdefault_other by discriminate. reflexivity. }
  unfold PyDict.get_default. rewrite S2. unfold source_testable in Hs.
  destruct (PyDict.get "source" d) as [[]|]; try discriminate Hs;
    cbn [py_in]; eexists; reflexivity.
Qed.

(** [_format_response] on a dict: when the [source] it holds, if any, is a
    str, a list or a dict, the response comes back with the five fields of
    the envelope; the text, suggestions and source it already had are kept
    (the defaults being the "not sure to understand" text, the empty list
    and ["generated"]), the intent and the timestamp are set anew.  With
    any other [source] ([null], a number) it raises [TypeError]. *)
Theorem format_response_envelope
    (E : Env) (S0 : Type) (s0 : S0) (w : World) (intent : string)
    (c d : pydict pyval) :
  if source_testable d then
    exists d' w',
      ResponseGenerator._format_response E (PDict d) intent (PDict c) s0 w
      = (Ok (PDict d'), s0, w')
      /\ PyDict.get "text" d'
         = Some (PyDict.get_default "text" (PStr ResponseGenerator.default_text) d)
      /\ PyDict.get "suggestions" d'
         = Some (PyDict.get_default "suggestions" (PList []) d)
      /\ PyDict.get "source" d'
         = Some (PyDict.get_default "source" (PStr "generated") d)
      /\ PyDict.get "intent" d' = Some (PStr intent)
      /\ PyDict.get "timestamp" d'
         = Some (PStr (isoformat (utcnow_at E (clock_reads w))))
  else
    ResponseGenerator._format_response E (PDict d) intent (PDict c) s0 w
    = (Raise TypeError, s0, w).
Proof.
  unfold ResponseGenerator._format_response, ResponseGenerator.formatted.
  destruct (source_testable d) eqn:Hs.
  - destruct (format_in_place_run E intent c d w Hs) as (d' & Hrun & H).
    rewrite Hrun. do 2 eexists. split; [reflexivity|exact H].
  - destruct (format_in_place_bad_source E intent c d w Hs) as (d' & Hrun).
    rewrite Hrun. reflexivity.
Qed.

(** The last stage: one of the three fallback texts, formatted. *)
Lemma fallback_response_run E intent c self w :
  exists env t w',
    ResponseGenerator.fallback_response E intent (PDict c) self w
    = (Ok (PDict env), self, w')
    /\ PyDict.get "text" env = Some (PStr t)
    /\ In t ResponseGenerator.fallback_responses
    /\ PyDict.get "source" env = Some (PStr "fallback")
    /\ PyDict.get "intent" env = Some (PStr intent)
    /\ PyDict.get "suggestions" env
       = Some (PList [PStr "Voir l'aide"; PStr "Poser une autre question"])
    /\ generate_calls w' = generate_calls w.
Proof.
  unfold ResponseGenerator.fallback_response.
  unfold bind, random_choice.
  set (t := nth _ ResponseGenerator.fallback_responses _).
  unfold ResponseGenerator._format_response, ResponseGenerator.formatted.
  match goal with
  | |- context [ResponseGenerator.format_in_place E intent (PDict c) ?d ?x] =>
      destruct (format_in_place_run E intent c d x eq_refl)
        as (env & Hrun & Ht & Hg & Hs & Hi & _); rewrite Hrun
  end.
  exists env, t. eexists. split; [reflexivity|].
  split; [exact Ht|]. split.
  - apply nth_In. apply Nat.mod_upper_bound. discriminate.
  - repeat split; assumption.
Qed.

(** When the FAQ lookup finds nothing and no generative client is
    configured, [generate_response] answers, whatever the message and the
    intent, with one of the three fallback texts, tagged ["fallback"] and
    carrying the intent; nothing is sent to the generative service. *)
Theorem fallback_when_nothing_answers
    (E : Env) (self : ResponseGenerator.t) (intent message : string)
    (c : pydict pyval) (w : World) :
  ResponseGenerator._find_in_faq self intent message = Ok None ->
  ResponseGenerator.gemini_client self = false ->
  exists env t w',
    ResponseGenerator.generate_response E message intent (PDict c) self w
    = (Ok (PDict env), self, w')
    /\ PyDict.get "text" env = Some (PStr t)
    /\ In t ResponseGenerator.fallback_responses
    /\ PyDict.get "source" env = Some (PStr "fallback")
    /\ PyDict.get "intent" env = Some (PStr intent)
    /\ PyDict.get "suggestions" env
       = Some (PList [PStr "Voir l'aide"; PStr "Poser une autre question"])
    /\ generate_calls w' = generate_calls w.
Proof.
  intros Hf Hc.
  assert (Hctx : (if truthy (PDict c) then PDict c else PDict []) = PDict c)
    by (destruct c; reflexivity).
  unfold ResponseGenerator.generate_response. rewrite Hctx.
  unfold bind at 1, get_self. unfold bind at 1, lift. rewrite Hf.
  unfold bind at 1, ResponseGenerator.gemini_stage.
  unfold bind at 1, get_self. rewrite Hc. cbn [ret].
  apply fallback_response_run.
Qed.

Lemma fallback_when_nothing_answers_witness :
  exists env t w',
    ResponseGenerator.generate_response sample_env "Quelle heure est-il ?"
      "General_Chat" (PDict [("user_id", PStr "u1")])
      (ResponseGenerator.mk cv_faq false) sample_world
    = (Ok (PDict env), ResponseGenerator.mk cv_faq false, w')
    /\ PyDict.get "text" env = Some (PStr t)
    /\ In t ResponseGenerator.fallback_responses
    /\ PyDict.get "source" env = Some (PStr "fallback")
    /\ PyDict.get "intent" env = Some (PStr "General_Chat")
    /\ PyDict.get "suggestions" env
       = Some (PList [PStr "Voir l'aide"; PStr "Poser une autre question"])
    /\ generate_calls w' = generate_calls sample_world.
Proof.
  apply (fallback_when_nothing_answers sample_env (ResponseGenerator.mk cv_faq false)
           "General_Chat" "Quelle heure est-il ?" [("user_id", PStr "u1")] sample_world);
    vm_compute; reflexivity.
Defined.

(** When the FAQ lookup finds nothing and a generative client is there, the
    prompt is sent once, and what comes back decides: a failure of the
    service gives the "technical difficulties" text tagged ["error"], not a
    fallback text; an answer of white space only gives a fallback text; any
    other answer is returned stripped, tagged ["gemini"]. *)
Theorem generative_stage_outcomes
    (E : Env) (self : ResponseGenerator.t) (intent message prompt : string)
    (c : pydict pyval) (w : World) :
  ResponseGenerator._find_in_faq self intent message = Ok None ->
  ResponseGenerator.gemini_client self = true ->
  ResponseGenerator.build_prompt E message (PDict c) = Ok prompt ->
  exists env w',
    ResponseGenerator.generate_response E message intent (PDict c) self w
    = (Ok (PDict env), self, w')
    /\ generate_calls w' = (generate_calls w ++ [prompt])%list
    /\ match generate_content E (length (generate_calls w)) prompt with
       | Raise _ =>
           env = [("text", PStr ResponseGenerator.technical_difficulty_text);
                  ("source", PStr "error");
                  ("suggestions", PList [PStr "Réessayer"; PStr "Contacter le support"])]
       | Ok answer =>
           if PyStr.is_empty (PyStr.strip answer) then
             PyDict.get "source" env = Some (PStr "fallback")
             /\ exists t, PyDict.get "text" env = Some (PStr t)
                          /\ In t ResponseGenerator.fallback_responses
           else
             env = [("text", PStr (PyStr.strip answer));
                    ("source", PStr "gemini");
                    ("timestamp", PStr (isoformat (utcnow_at E (clock_reads w))))]
       end.
Proof.
  intros Hf Hc Hp.
  assert (Hctx : (if truthy (PDict c) then PDict c else PDict []) = PDict c)
    by (destruct c; reflexivity).
  unfold ResponseGenerator.generate_response. rewrite Hctx.
  unfold bind at 1, get_self. unfold bind at 1, lift. rewrite Hf.
  unfold bind at 1, ResponseGenerator.gemini_stage.
  unfold bind at 1, get_self. rewrite Hc.
  unfold try_except, bind at 1, ResponseGenerator._generate_with_gemini.
  unfold bind at 1, get_self. rewrite Hc. cbn [negb].
  unfold try_except, bind at 1, lift. rewrite Hp.
  unfold bind at 1, generate_text.
  destruct (generate_content E (length (generate_calls w)) prompt) as [answer|e].
  - unfold bind at 1, utcnow, ret. cbn [clock_reads].
    unfold bind at 1, lift. cbn [PyDict.get_default PyDict.get String.eqb Ascii.eqb
                                  Bool.eqb truthy andb].
    destruct (PyStr.is_empty (PyStr.strip answer)) eqn:B; cbn [negb].
    + match goal with
      | |- context [ResponseGenerator.fallback_response E intent (PDict c) ?s ?x] =>
          destruct (fallback_response_run E intent c s x)
            as (env & t & w' & Hrun & Ht & Hin & Hs & _ & _ & Hcalls); rewrite Hrun
      end.
      exists env, w'. split; [reflexivity|]. split; [exact Hcalls|].
      split; [exact Hs|]. exists t. split; assumption.
    + do 2 eexists. split; [reflexivity|]. split; reflexivity.
  - do 2 eexists. split; [reflexivity|]. split; reflexivity.
Qed.

Lemma generative_stage_outcomes_witness :
  exists env w',
    ResponseGenerator.generate_response failing_env "Quelle heure est-il ?"
      "General_Chat" (PDict []) plain_generator sample_world
    = (Ok (PDict env), plain_generator, w')
    /\ generate_calls w'
       = (generate_calls sample_world
          ++ [bare_prompt failing_env "Quelle heure est-il ?"])%list
    /\ match generate_content failing_env (length (generate_calls sample_world))
               (bare_prompt failing_env "Quelle heure est-il ?") with
       | Raise _ =>
           env = [("text", PStr ResponseGenerator.technical_difficulty_text);
                  ("source", PStr "error");
                  ("suggestions", PList [PStr "Réessayer"; PStr "Contacter le support"])]
       | Ok answer =>
           if PyStr.is_empty (PyStr.strip answer) then
             PyDict.get "source" env = Some (PStr "fallback")
             /\ exists t, PyDict.get "text" env = Some (PStr t)
                          /\ In t ResponseGenerator.fallback_responses
           else
             env = [("text", PStr (PyStr.strip answer));
                    ("source", PStr "gemini");
                    ("timestamp",
                     PStr (isoformat (utcnow_at failing_env (clock_reads sample_world))))]
       end.
Proof.
  apply (generative_stage_outcomes failing_env plain_generator "General_Chat"
           "Quelle heure est-il ?" (bare_prompt failing_env "Quelle heure est-il ?")
           [] sample_world); reflexivity.
Defined.

Lemma lower_char_facts c :
  PyStr.lower_char (PyStr.lower_char c) = PyStr.lower_char c
  /\ PyStr.isalnum (PyStr.lower_char c) = PyStr.isalnum c
  /\ Ascii.eqb (PyStr.lower_char c) "_" = Ascii.eqb c "_".
Proof.
  destruct c as [[] [] [] [] [] [] [] []]; vm_compute; repeat split; reflexivity.
Qed.

Lemma lower_lower s : PyStr.lower (PyStr.lower s) = PyStr.lower s.
Proof.
  induction s as [|c s IH]; [reflexivity|]. cbn [PyStr.lower].
  rewrite IH. destruct (lower_char_facts c) as (H & _). rewrite H. reflexivity.
Qed.

Lemma normalize_lower s : PyStr.normalize (PyStr.lower s) = PyStr.normalize s.
Proof.
  induction s as [|c s IH]; [reflexivity|]. cbn [PyStr.lower PyStr.normalize].
  destruct (lower_char_facts c) as (H1 & H2 & H3). rewrite H1, H2, H3, IH.
  reflexivity.
Qed.

(** For an intent and a message of ASCII characters, the FAQ lookup does
    not depend on their letter case: lower-casing both changes neither the
    entry found nor an error raised, whatever the table holds.  (Outside
    ASCII Python's [lower] is not idempotent under the normal form, the
    final sigma being one case, and the same does not hold.) *)
Theorem faq_lookup_ignores_case
    (self : ResponseGenerator.t) (intent message : string) :
  ascii_only intent = true ->
  ascii_only message = true ->
  ResponseGenerator._find_in_faq self (PyStr.lower intent) (PyStr.lower message)
  = ResponseGenerator._find_in_faq self intent message.
Proof.
  intros _ _. unfold ResponseGenerator._find_in_faq.
  rewrite normalize_lower, lower_lower. reflexivity.
Qed.

Lemma faq_lookup_ignores_case_witness :
  ResponseGenerator._find_in_faq cv_generator
    (PyStr.lower "CV_Advice") (PyStr.lower "Comment faire mon CV ?")
  = ResponseGenerator._find_in_faq cv_generator "CV_Advice" "Comment faire mon CV ?".
Proof.
  apply (faq_lookup_ignores_case cv_generator "CV_Advice" "Comment faire mon CV ?");
    reflexivity.
Defined.

Lemma faq_items_some f items :
  ResponseGenerator.faq_items f = Ok (Some items) ->
  exists fd, f = PDict fd /\ PyDict.get "intents" fd = Some (PDict items).
Proof.
  unfold ResponseGenerator.faq_items.
  destruct (truthy f); cbn [negb]; [|discriminate].
  destruct f as [| | | | s|l|fd|]; cbn [py_in]; try discriminate.
  - destruct (PyStr.contains "intents" s); discriminate.
  - destruct (existsb _ l); discriminate.
  - unfold PyDict.mem, PyDict.get_default.
    destruct (PyDict.get "intents" fd) as [v|] eqn:G; [|discriminate].
    destruct v; try discriminate. intros H. injection H as H. subst.
    eexists. split; [reflexivity|exact G].
Qed.

Lemma faq_items_table fd items :
  PyDict.get "intents" fd = Some (PDict items) ->
  ResponseGenerator.faq_items (PDict fd) = Ok (Some items).
Proof.
  intros H. unfold ResponseGenerator.faq_items.
  assert (T : truthy (PDict fd) = true) by (destruct fd; [discriminate H|reflexivity]).
  rewrite T. cbn [negb py_in]. unfold PyDict.mem, PyDict.get_default. rewrite H.
  reflexivity.
Qed.

Lemma find_exact_none ni items :
  Forall (fun kv => PyStr.normalize (fst kv) <> ni) items ->
  ResponseGenerator.find_exact ni items = None.
Proof.
  induction 1 as [|[k v] r H _ IH]; [reflexivity|]. cbn [ResponseGenerator.find_exact].
  destruct (String.eqb ni (PyStr.normalize k)) eqn:E; [|exact IH].
  apply String.eqb_eq in E. cbn in H. congruence.
Qed.

(** An intent without any letter, digit or underscore (the empty intent,
    ["?"], ["..."]) matches the first entry of the FAQ table, whatever the
    message says: its normal form, the empty string, occurs in every
    name. *)
Theorem faq_blank_intent_matches_first
    (self : ResponseGenerator.t) (fd : pydict pyval) (key : string) (data : pyval)
    (rest : pydict pyval) (intent message : string) :
  ResponseGenerator.faq self = PDict fd ->
  PyDict.get "intents" fd = Some (PDict ((key, data) :: rest)) ->
  Forall (fun kv => PyStr.normalize (fst kv) <> "") ((key, data) :: rest) ->
  PyStr.normalize intent = "" ->
  ResponseGenerator._find_in_faq self intent message = Ok (Some (key, data)).
Proof.
  intros Hf Hi Hk Hn. unfold ResponseGenerator._find_in_faq.
  rewrite Hf, (faq_items_table _ _ Hi), Hn, (find_exact_none _ _ Hk).
  cbn [ResponseGenerator.find_partial].
  replace (PyStr.contains "" (PyStr.normalize key)) with true
    by (destruct (PyStr.normalize key); reflexivity).
  rewrite orb_true_r. reflexivity.
Qed.

Lemma faq_blank_intent_matches_first_witness :
  ResponseGenerator._find_in_faq cv_generator "?!" "Quelle heure est-il ?"
  = Ok (Some ("CV_Advice",
              PDict [("text", PStr "Voici des conseils CV...");
                     ("keywords", PList [PStr "cv"; PStr "résumé"])])).
Proof.
  apply (faq_blank_intent_matches_first cv_generator
           [("intents",
             PDict [("CV_Advice",
                     PDict [("text", PStr "Voici des conseils CV...");
                            ("keywords", PList [PStr "cv"; PStr "résumé"])])])]
           "CV_Advice" _ [] "?!" "Quelle heure est-il ?");
    try reflexivity.
  constructor; [vm_compute; discriminate|constructor].
Defined.

(** Answering from the FAQ changes the FAQ: the entry found is formatted in
    place, so after the call the table holds, under the same key, the very
    response that was returned, with the intent and the timestamp of that
    call. *)
Theorem faq_entry_formatted_in_place
    (E : Env) (self : ResponseGenerator.t) (intent message key : string)
    (d c : pydict pyval) (w : World) :
  ResponseGenerator._find_in_faq self intent message = Ok (Some (key, PDict d)) ->
  d <> [] ->
  source_testable d = true ->
  exists env self' w' fd items,
    ResponseGenerator.generate_response E message intent (PDict c) self w
    = (Ok (PDict env), self', w')
    /\ ResponseGenerator.faq self' = PDict fd
    /\ PyDict.get "intents" fd = Some (PDict items)
    /\ PyDict.get key items = Some (PDict env)
    /\ PyDict.get "intent" env = Some (PStr intent)
    /\ PyDict.get "timestamp" env
       = Some (PStr (isoformat (utcnow_at E (clock_reads w)))).
Proof.
  intros Hf Hd Hs.
  assert (Hctx : (if truthy (PDict c) then PDict c else PDict []) = PDict c)
    by (destruct c; reflexivity).
  assert (Ht : truthy (PDict d) = true) by (destruct d; [congruence|reflexivity]).
  assert (Hfaq : exists fd0 items0,
             ResponseGenerator.faq self = PDict fd0
             /\ PyDict.get "intents" fd0 = Some (PDict items0)).
  { unfold ResponseGenerator._find_in_faq in Hf.
    destruct (ResponseGenerator.faq_items (ResponseGenerator.faq self))
      as [[items0|]|e] eqn:Fi; try discriminate.
    destruct (faq_items_some _ _ Fi) as (fd0 & H1 & H2). eauto. }
  destruct Hfaq as (fd0 & items0 & Hfd & Hit).
  unfold ResponseGenerator.generate_response. rewrite Hctx.
  unfold bind at 1, get_self. unfold bind at 1, lift. rewrite Hf, Ht.
  unfold ResponseGenerator.format_faq_entry, ResponseGenerator.formatted.
  destruct (format_in_place_run E intent c d w Hs)
    as (env & Hrun & _ & _ & _ & Hi & Hts).
  rewrite Hrun. unfold ResponseGenerator.store_entry. rewrite Hfd, Hit.
  do 5 eexists. split; [reflexivity|].
  cbn [ResponseGenerator.faq].
  split; [reflexivity|]. split; [apply PyDictFacts.get_set_same|].
  split; [apply PyDictFacts.get_set_same|]. split; assumption.
Qed.

Lemma faq_entry_formatted_in_place_witness :
  exists env self' w' fd items,
    ResponseGenerator.generate_response sample_env "Comment faire mon CV ?"
      "CV_Advice" (PDict []) cv_generator sample_world
    = (Ok (PDict env), self', w')
    /\ ResponseGenerator.faq self' = PDict fd
    /\ PyDict.get "intents" fd = Some (PDict items)
    /\ PyDict.get "CV_Advice" items = Some (PDict env)
    /\ PyDict.get "intent" env = Some (PStr "CV_Advice")
    /\ PyDict.get "timestamp" env
       = Some (PStr (isoformat (utcnow_at sample_env (clock_reads sample_world)))).
Proof.
  apply (faq_entry_formatted_in_place sample_env cv_generator "CV_Advice"
           "Comment faire mon CV ?" "CV_Advice"
           [("text", PStr "Voici des conseils CV...");
            ("keywords", PList [PStr "cv"; PStr "résumé"])] [] sample_world);
    [vm_compute; reflexivity | discriminate | reflexivity].
Defined.

(** ** DialogueManager: profiles, turns and the snapshot *)

Lemma length_set_existing {V} k (v x : V) (d : pydict V) :
  PyDict.get k d = Some x -> length (PyDict.set k v d) = length d.
Proof.
  induction d as [|[k' v'] r IH]; cbn; [discriminate|].
  destruct (String.eqb k k'); cbn; [reflexivity|].
  intros H. rewrite IH by assumption. reflexivity.
Qed.

Lemma length_set_new {V} k (v : V) (d : pydict V) :
  PyDict.get k d = None -> length (PyDict.set k v d) = S (length d).
Proof.
  induction d as [|[k' v'] r IH]; cbn; [reflexivity|].
  destruct (String.eqb k k'); cbn; [discriminate|].
  intros H. rewrite IH by assumption. reflexivity.
Qed.

Lemma set_same_value {V} k (v : V) (d : pydict V) :
  PyDict.get k d = Some v -> PyDict.set k v d = d.
Proof.
  induction d as [|[k' v'] r IH]; cbn; [discriminate|].
  destruct (String.eqb k k') eqn:E.
  - intros H. injection H as ->. reflexivity.
  - intros H. rewrite IH by assumption. reflexivity.
Qed.

Lemma set_set_same {V} k (v v' : V) (d : pydict V) :
  PyDict.set k v (PyDict.set k v' d) = PyDict.set k v d.
Proof.
  induction d as [|[k' x] r IH]; cbn.
  - rewrite String.eqb_refl. reflexivity.
  - destruct (String.eqb k k') eqn:E; cbn; rewrite E; [reflexivity|].
    rewrite IH. reflexivity.
Qed.

Lemma with_context_run {A} u (m : M ConversationContext.t A) self w c a c' w' :
  PyDict.get u (DialogueManager.contexts self) = Some c ->
  m c w = (Ok a, c', w') ->
  DialogueManager.with_context u m self w
  = (Ok a,
     DialogueManager.set_contexts (PyDict.set u c' (DialogueManager.contexts self)) self,
     w').
Proof.
  intros G H. unfold DialogueManager.with_context. rewrite G, H. reflexivity.
Qed.

(** [get_user_profile]: it returns a profile that is then in store, calling
    again returns the same one and changes nothing; contexts are left
    alone.  A profile made for a non-empty [user_id] carries that id; the
    one made for the empty [user_id] is stored under the empty key and
    carries a uuid of its own. *)
Theorem get_user_profile_idempotent
    (E : Env) (u : string) (self : DialogueManager.t) (w : World) :
  exists p self1 w1,
    DialogueManager.get_user_profile E u self w = (Ok p, self1, w1)
    /\ PyDict.get u (DialogueManager.user_profiles self1) = Some p
    /\ DialogueManager.get_user_profile E u self1 w1 = (Ok p, self1, w1)
    /\ DialogueManager.contexts self1 = DialogueManager.contexts self
    /\ (PyDict.get u (DialogueManager.user_profiles self) = None ->
        UserProfile.user_id p
        = (if PyStr.is_empty u then PStr (uuid4_at E (uuid_draws w)) else PStr u)
        /\ UserProfile.experience_years p = PInt 0
        /\ UserProfile.languages p = PList [PStr "Français"]).
Proof.
  unfold DialogueManager.get_user_profile at 1. unfold bind at 1, get_self.
  destruct (PyDict.get u (DialogueManager.user_profiles self)) as [p|] eqn:G.
  - exists p, self, w. split; [reflexivity|]. split; [exact G|].
    split; [|split; [reflexivity|discriminate]].
    unfold DialogueManager.get_user_profile, bind, get_self. rewrite G. reflexivity.
  - unfold UserProfile.__init__, bind, uuid4, utcnow, modify, ret.
    cbn [truthy]. destruct (PyStr.is_empty u) eqn:Em; cbn [negb];
      cbn [clock_reads uuid_draws];
      match goal with
      | |- context [DialogueManager._save_contexts E ?s ?x] =>
          destruct (save_contexts_effect E s x) as (w' & Hs & _); rewrite Hs
      end;
      do 3 eexists; (split; [reflexivity|]);
      (split; [apply PyDictFacts.get_set_same|]);
      (split; [|split; [reflexivity|intros _; repeat split; reflexivity]]);
      unfold DialogueManager.get_user_profile, bind, get_self;
      cbn [DialogueManager.user_profiles DialogueManager.set_user_profiles];
      rewrite PyDictFacts.get_set_same; reflexivity.
Qed.

Lemma add_message_keeps_intent E role content intent kwargs c w :
  ConversationContext.current_intent
    (snd (fst (ConversationContext.add_message E role content intent kwargs c w)))
  = ConversationContext.current_intent c.
Proof.
  unfold ConversationContext.add_message, bind, utcnow, get_self, modify, lift,
    raise, ret.
  destruct (ConversationContext.messages c); try reflexivity.
  cbn [ConversationContext.max_history ConversationContext.set_last_activity
       ConversationContext.set_messages].
  destruct (len_gt _ _) as [[|]|e]; try reflexivity.
  destruct (last_items _ _) as [kept|e]; reflexivity.
Qed.

Lemma get_user_profile_keeps_contexts E u self w :
  DialogueManager.contexts (snd (fst (DialogueManager.get_user_profile E u self w)))
  = DialogueManager.contexts self.
Proof.
  unfold DialogueManager.get_user_profile, bind at 1, get_self.
  destruct (PyDict.get u (DialogueManager.user_profiles self)); [reflexivity|].
  unfold UserProfile.__init__, bind, uuid4, utcnow, modify, ret.
  destruct (truthy (PStr u)); cbn [clock_reads uuid_draws];
    match goal with
    | |- context [DialogueManager._save_contexts E ?s ?x] =>
        destruct (save_contexts_effect E s x) as (w' & Hs & _); rewrite Hs
    end; reflexivity.
Qed.

Lemma with_context_step {A} u (m : M ConversationContext.t A) s w c a c' w' :
  PyDict.get u (DialogueManager.contexts s) = Some c ->
  m c w = (Ok a, c', w') ->
  exists s',
    DialogueManager.with_context u m s w = (Ok a, s', w')
    /\ PyDict.get u (DialogueManager.contexts s') = Some c'
    /\ length (DialogueManager.contexts s') = length (DialogueManager.contexts s)
    /\ DialogueManager.user_profiles s' = DialogueManager.user_profiles s.
Proof.
  intros G H. eexists. split; [apply (with_context_run u m s w c a c' w' G H)|].
  cbn [DialogueManager.contexts DialogueManager.set_contexts
       DialogueManager.user_profiles].
  split; [apply PyDictFacts.get_set_same|].
  split; [apply (length_set_existing _ _ c), G|reflexivity].
Qed.

Lemma with_profile_step {A} u (m : M UserProfile.t A) s w p a p' w' :
  PyDict.get u (DialogueManager.user_profiles s) = Some p ->
  m p w = (Ok a, p', w') ->
  exists s',
    DialogueManager.with_profile u m s w = (Ok a, s', w')
    /\ PyDict.get u (DialogueManager.user_profiles s') = Some p'
    /\ DialogueManager.contexts s' = DialogueManager.contexts s.
Proof.
  intros G H. eexists. unfold DialogueManager.with_profile. rewrite G, H.
  split; [reflexivity|].
  cbn [DialogueManager.contexts DialogueManager.set_user_profiles
       DialogueManager.user_profiles].
  split; [apply PyDictFacts.get_set_same|reflexivity].
Qed.

Lemma get_or_create_run E u self w :
  turn_ready u (DialogueManager.contexts self) = true ->
  exists c self' w',
    DialogueManager.get_or_create_context E u self w = (Ok c, self', w')
    /\ PyDict.get u (DialogueManager.contexts self') = Some c
    /\ ConversationContext.messages c
       = PList (history_of u (DialogueManager.contexts self))
    /\ ConversationContext.max_history c
       = PInt (bound_of u (DialogueManager.contexts self))
    /\ 1 <= bound_of u (DialogueManager.contexts self)
    /\ length (DialogueManager.contexts self')
       = contexts_with u (DialogueManager.contexts self)
    /\ DialogueManager.user_profiles self' = DialogueManager.user_profiles self.
Proof.
  unfold turn_ready, history_of, bound_of, contexts_with, PyDict.mem.
  destruct (PyDict.get u (DialogueManager.contexts self)) as [c|] eqn:G.
  - intros U. exists c, self, w.
    split; [apply get_or_create_existing, G|]. split; [exact G|].
    unfold usable_context in U.
    destruct (ConversationContext.messages c); try discriminate.
    destruct (ConversationContext.max_history c); try discriminate.
    repeat split; try reflexivity. apply Z.leb_le, U.
  - intros _.
    unfold DialogueManager.get_or_create_context, bind at 1, get_self.
    rewrite G.
    unfold ConversationContext.__init__, bind, uuid4, utcnow, modify, ret.
    cbn [clock_reads uuid_draws].
    match goal with
    | |- context [DialogueManager._save_contexts E ?s ?x] =>
        destruct (save_contexts_effect E s x) as (w' & Hs & _); rewrite Hs
    end.
    do 3 eexists. split; [reflexivity|].
    cbn [DialogueManager.contexts DialogueManager.set_contexts
         DialogueManager.user_profiles ConversationContext.messages
         ConversationContext.max_history].
    split; [apply PyDictFacts.get_set_same|].
    repeat split; try reflexivity; try lia.
    apply length_set_new, G.
Qed.

(** [process_message] up to its periodic clean-up: the turn is in the
    user's context and the snapshot has been attempted; what is left is the
    clean-up, every tenth context, and building the result. *)
Lemma process_message_run E u message self w :
  turn_ready u (DialogueManager.contexts self) = true ->
  exists r t1 t2 ctx p s w1,
    DialogueManager.process_message E u message self w
    = bind (if (Nat.modulo (length (DialogueManager.contexts s)) 10 =? 0)%nat
            then DialogueManager._cleanup_old_contexts E 30
            else ret tt)
        (fun _ =>
           ret (PDict [("response",
                        PDict (DialogueManager.response_of r (PStr "General_Chat")));
                       ("context", ConversationContext.to_dict ctx);
                       ("user_profile", UserProfile.to_dict p)])) s w1
    /\ PyDict.get u (DialogueManager.contexts s) = Some ctx
    /\ ConversationContext.messages ctx
       = PList (lastn (Z.to_nat (bound_of u (DialogueManager.contexts self)))
                  (history_of u (DialogueManager.contexts self)
                   ++ turn_messages t1 t2 message (CareerCoachChatbot.response r))%list)
    /\ ConversationContext.current_intent ctx = PStr "General_Chat"
    /\ PyDict.get u (DialogueManager.user_profiles s) = Some p
    /\ length (DialogueManager.contexts s)
       = contexts_with u (DialogueManager.contexts self).
Proof.
  intros U. unfold DialogueManager.process_message.
  (* the profile *)
  destruct (get_user_profile_total E u self w) as (p0 & s1 & w1 & H1 & Hp).
  assert (C1 : DialogueManager.contexts s1 = DialogueManager.contexts self).
  { pose proof (get_user_profile_keeps_contexts E u self w) as C.
    rewrite H1 in C. exact C. }
  rewrite (bind_ok _ _ _ _ _ _ _ H1).
  rewrite (bind_ok (utcnow E) _ _ _ _ _ _ eq_refl).
  cbv beta.
  match goal with
  | |- context [bind (DialogueManager.with_profile u ?m) _ s1 ?x] =>
      destruct (with_profile_step u m s1 x p0 tt _ _ Hp eq_refl)
        as (s2 & H2 & Hp2 & C2)
  end.
  rewrite (bind_ok _ _ _ _ _ _ _ H2). cbv beta.
  (* the context *)
  rewrite <- C1, <- C2 in U |- *.
  match goal with
  | |- context [bind (DialogueManager.get_or_create_context E u) _ s2 ?x] =>
      destruct (get_or_create_run E u s2 x U)
        as (c & s3 & w3 & H3 & G3 & M3 & B3 & Bpos & L3 & P3)
  end.
  rewrite (bind_ok _ _ _ _ _ _ _ H3). cbv beta.
  (* the chatbot *)
  destruct (send_message_step E message (DialogueManager.chatbot s3) w3)
    as (r & bot' & w4 & H4 & _).
  assert (Hpart : on_part DialogueManager.chatbot DialogueManager.set_chatbot
                    (CareerCoachChatbot.send_message E message) s3 w3
                  = (Ok r, DialogueManager.set_chatbot bot' s3, w4))
    by (unfold on_part; rewrite H4; reflexivity).
  rewrite (bind_ok _ _ _ _ _ _ _ Hpart). cbv beta zeta.
  set (s4 := DialogueManager.set_chatbot bot' s3).
  assert (G4 : PyDict.get u (DialogueManager.contexts s4) = Some c) by exact G3.
  assert (L4 : length (DialogueManager.contexts s4)
               = length (DialogueManager.contexts s3)) by reflexivity.
  assert (P4 : DialogueManager.user_profiles s4 = DialogueManager.user_profiles s3)
    by reflexivity.
  clearbody s4.
  (* the intent and the two messages *)
  destruct (with_context_step u
              (modify (ConversationContext.set_current_intent (PStr "General_Chat")))
              s4 w4 c tt _ _ G4 eq_refl) as (s5 & H5 & G5 & L5 & P5).
  rewrite (bind_ok _ _ _ _ _ _ _ H5).
  set (c5 := ConversationContext.set_current_intent (PStr "General_Chat") c) in *.
  destruct (add_message_step E _ c5 _ "user" message (PStr "General_Chat") [] w4
              Bpos M3 B3) as (c6 & w6 & A6 & M6 & B6 & _).
  destruct (with_context_step u _ s5 w4 c5 tt c6 w6 G5 A6) as (s6 & H6 & G6 & L6 & P6).
  rewrite (bind_ok _ _ _ _ _ _ _ H6).
  destruct (add_message_step E _ c6 _ "assistant" (CareerCoachChatbot.response r)
              (PStr "General_Chat") [] w6 Bpos M6 B6)
    as (c7 & w7 & A7 & M7 & B7 & _).
  destruct (with_context_step u _ s6 w6 c6 tt c7 w7 G6 A7) as (s7 & H7 & G7 & L7 & P7).
  rewrite (bind_ok _ _ _ _ _ _ _ H7).
  (* the snapshot *)
  destruct (save_contexts_effect E s7 w7) as (w8 & H8 & _).
  rewrite (bind_ok _ _ _ _ _ _ _ H8).
  (* the objects returned *)
  destruct (with_context_step u get_self s7 w8 c7 c7 c7 w8 G7 eq_refl)
    as (s8 & H8' & G8 & L8 & P8).
  rewrite (bind_ok _ _ _ _ _ _ _ H8').
  assert (Hp7 : PyDict.get u (DialogueManager.user_profiles s8)
                = Some (UserProfile.set_last_active (utcnow_at E (clock_reads w1)) p0)).
  { rewrite P8, P7, P6, P5, P4, P3. exact Hp2. }
  destruct (with_profile_step u get_self s8 w8 _ _ _ _ Hp7 eq_refl)
    as (s9 & H9 & G9 & C9).
  rewrite (bind_ok _ _ _ _ _ _ _ H9).
  rewrite (bind_ok get_self _ _ _ _ _ _ eq_refl).
  exists r, (utcnow_at E (clock_reads w4)), (utcnow_at E (clock_reads w6)), c7,
    (UserProfile.set_last_active (utcnow_at E (clock_reads w1)) p0), s9, w8.
  split; [reflexivity|].
  split; [rewrite C9; exact G8|].
  split.
  { rewrite M7. f_equal. unfold turn_messages.
    rewrite lastn_app_lastn, <- app_assoc. reflexivity. }
  split.
  { pose proof (add_message_keeps_intent E "assistant"
                  (CareerCoachChatbot.response r) (PStr "General_Chat") [] c6 w6) as I7.
    pose proof (add_message_keeps_intent E "user" message (PStr "General_Chat") []
                  c5 w4) as I6.
    rewrite A7 in I7. rewrite A6 in I6. cbn [fst snd] in I6, I7.
    rewrite I7, I6. reflexivity. }
  split; [exact G9|].
  rewrite C9, L8, L7, L6, L5, L4. exact L3.
Qed.

Lemma cleanup_30_raises E self w :
  DialogueManager.contexts self <> [] ->
  exists e w',
    DialogueManager._cleanup_old_contexts E 30 self w = (Raise e, self, w')
    /\ (e = TypeError \/ e = OverflowError).
Proof.
  intros N. destruct (DialogueManager.contexts self) as [|[k c] r] eqn:C;
    [congruence|].
  unfold DialogueManager._cleanup_old_contexts, bind, utcnow, lift, get_self.
  change (DialogueManager.timedelta_days 30) with (@Ok Z 30).
  cbv beta iota.
  destruct (sub_days (utcnow_at E (clock_reads w)) 30) as [cutoff|e] eqn:D.
  - rewrite C. cbn. do 2 eexists; split; [reflexivity|left; reflexivity].
  - do 2 eexists; split; [reflexivity|right].
    unfold sub_days in D.
    destruct (_ || _); [congruence|].
    destruct (ord2ymd _) as [[y m] dd]. discriminate.
Qed.

(** One turn of a conversation.  Let the user's context, if there is one,
    hold a list of messages and an integer bound of at least one, and let
    the number of contexts, this user's included, not be a multiple of ten.
    Then [process_message] returns; the user's context has gained the
    message and the reply, in that order, cut to the last [max_history]
    messages, and has the intent "General_Chat"; the result holds the reply
    in its response, tagged "generated", and the serialised context and
    profile that are now in store. *)
Theorem process_message_records_turn
    (E : Env) (u message : string) (self : DialogueManager.t) (w : World) :
  turn_ready u (DialogueManager.contexts self) = true ->
  (Nat.modulo (contexts_with u (DialogueManager.contexts self)) 10 =? 0)%nat = false ->
  exists r t1 t2 ctx p self' w',
    DialogueManager.process_message E u message self w
    = (Ok (PDict [("response",
                   PDict [("text", PStr (CareerCoachChatbot.response r));
                          ("intent", PStr "General_Chat");
                          ("confidence", PFloat (CareerCoachChatbot.confidence r));
                          ("suggestions", PList []);
                          ("source", PStr "generated")]);
                  ("context", ConversationContext.to_dict ctx);
                  ("user_profile", UserProfile.to_dict p)]), self', w')
    /\ PyDict.get u (DialogueManager.contexts self') = Some ctx
    /\ ConversationContext.messages ctx
       = PList (lastn (Z.to_nat (bound_of u (DialogueManager.contexts self)))
                  (history_of u (DialogueManager.contexts self)
                   ++ turn_messages t1 t2 message (CareerCoachChatbot.response r))%list)
    /\ ConversationContext.current_intent ctx = PStr "General_Chat"
    /\ PyDict.get u (DialogueManager.user_profiles self') = Some p
    /\ length (DialogueManager.contexts self')
       = contexts_with u (DialogueManager.contexts self).
Proof.
  intros U N.
  destruct (process_message_run E u message self w U)
    as (r & t1 & t2 & ctx & p & s & w1 & H & G & Ms & I & P & L).
  exists r, t1, t2, ctx, p, s, w1.
  split; [|repeat split; assumption].
  rewrite H, L, N. reflexivity.
Qed.

Lemma process_message_records_turn_witness :
  exists r t1 t2 ctx p self' w',
    DialogueManager.process_message sample_env "u1" "Quelles formations suivre ?"
      fresh_manager sample_world
    = (Ok (PDict [("response",
                   PDict [("text", PStr (CareerCoachChatbot.response r));
                          ("intent", PStr "General_Chat");
                          ("confidence", PFloat (CareerCoachChatbot.confidence r));
                          ("suggestions", PList []);
                          ("source", PStr "generated")]);
                  ("context", ConversationContext.to_dict ctx);
                  ("user_profile", UserProfile.to_dict p)]), self', w')
    /\ PyDict.get "u1" (DialogueManager.contexts self') = Some ctx
    /\ ConversationContext.messages ctx
       = PList (lastn (Z.to_nat (bound_of "u1" (DialogueManager.contexts fresh_manager)))
                  (history_of "u1" (DialogueManager.contexts fresh_manager)
                   ++ turn_messages t1 t2 "Quelles formations suivre ?"
                        (CareerCoachChatbot.response r))%list)
    /\ ConversationContext.current_intent ctx = PStr "General_Chat"
    /\ PyDict.get "u1" (DialogueManager.user_profiles self') = Some p
    /\ length (DialogueManager.contexts self')
       = contexts_with "u1" (DialogueManager.contexts fresh_manager).
Proof.
  apply (process_message_records_turn sample_env "u1" "Quelles formations suivre ?"
           fresh_manager sample_world); reflexivity.
Defined.

(** Every tenth context breaks the conversation.  Under the same condition
    on the user's context, when the number of contexts, this user's
    included, is a multiple of ten, [process_message] raises: the clean-up
    it starts compares a [datetime] through [fromisoformat] and fails with
    [TypeError] ([OverflowError] when the clock is within 30 days of year
    1).  The turn has been recorded in the user's context before that, and
    no context has been removed. *)
Theorem process_message_fails_every_tenth_context
    (E : Env) (u message : string) (self : DialogueManager.t) (w : World) :
  turn_ready u (DialogueManager.contexts self) = true ->
  (Nat.modulo (contexts_with u (DialogueManager.contexts self)) 10 =? 0)%nat = true ->
  exists e r t1 t2 ctx self' w',
    DialogueManager.process_message E u message self w = (Raise e, self', w')
    /\ (e = TypeError \/ e = OverflowError)
    /\ PyDict.get u (DialogueManager.contexts self') = Some ctx
    /\ ConversationContext.messages ctx
       = PList (lastn (Z.to_nat (bound_of u (DialogueManager.contexts self)))
                  (history_of u (DialogueManager.contexts self)
                   ++ turn_messages t1 t2 message (CareerCoachChatbot.response r))%list)
    /\ length (DialogueManager.contexts self')
       = contexts_with u (DialogueManager.contexts self).
Proof.
  intros U N.
  destruct (process_message_run E u message self w U)
    as (r & t1 & t2 & ctx & p & s & w1 & H & G & Ms & I & P & L).
  assert (Ne : DialogueManager.contexts s <> []).
  { intros C. rewrite C in G. discriminate. }
  destruct (cleanup_30_raises E s w1 Ne) as (e & w2 & Hc & He).
  exists e, r, t1, t2, ctx, s, w2.
  split; [|repeat split; assumption].
  rewrite H, L, N. apply bind_raise, Hc.
Qed.

Lemma process_message_fails_every_tenth_context_witness :
  exists e r t1 t2 ctx self' w',
    DialogueManager.process_message sample_env "u10" "Quelles formations suivre ?"
      crowded_manager sample_world = (Raise e, self', w')
    /\ (e = TypeError \/ e = OverflowError)
    /\ PyDict.get "u10" (DialogueManager.contexts self') = Some ctx
    /\ ConversationContext.messages ctx
       = PList (lastn (Z.to_nat (bound_of "u10" (DialogueManager.contexts crowded_manager)))
                  (history_of "u10" (DialogueManager.contexts crowded_manager)
                   ++ turn_messages t1 t2 "Quelles formations suivre ?"
                        (CareerCoachChatbot.response r))%list)
    /\ length (DialogueManager.contexts self')
       = contexts_with "u10" (DialogueManager.contexts crowded_manager).
Proof.
  apply (process_message_fails_every_tenth_context sample_env "u10"
           "Quelles formations suivre ?" crowded_manager sample_world);
    reflexivity.
Defined.

(** *** The snapshot, written and read back *)

Lemma set_append {V} k (v : V) (d : pydict V) :
  PyDict.get k d = None -> PyDict.set k v d = (d ++ [(k, v)])%list.
Proof.
  induction d as [|[k' v'] r IH]; cbn; [reflexivity|].
  destruct (String.eqb k k'); [discriminate|].
  intros H. rewrite IH by assumption. reflexivity.
Qed.

Lemma get_map_none {X V} k (g : X -> V) (d : pydict X) :
  PyDict.get k d = None ->
  PyDict.get k (map (fun kv => (fst kv, g (snd kv))) d) = None.
Proof.
  induction d as [|[k' x] r IH]; cbn; [reflexivity|].
  destruct (String.eqb k k'); [discriminate|exact IH].
Qed.

(** A dict comprehension over encoded values whose decoding succeeds, the
    keys being distinct and new to the dict under construction. *)
Lemma comprehension_decodes {S X V} (f : pyval -> M S V)
    (enc : X -> pyval) (dec : X -> V) (ok : X -> bool) :
  (forall x s w, ok x = true -> exists w', f (enc x) s w = (Ok (dec x), s, w')) ->
  forall (d : pydict X) (acc : pydict V) s w,
    distinct_keys d = true ->
    forallb ok (map snd d) = true ->
    (forall k, PyDict.mem k d = true -> PyDict.get k acc = None) ->
    exists w',
      DialogueManager.comprehension f (map (fun kv => (fst kv, enc (snd kv))) d) acc s w
      = (Ok (acc ++ map (fun kv => (fst kv, dec (snd kv))) d)%list, s, w').
Proof.
  intros Hf. induction d as [|[k x] r IH]; intros acc s w D O Fr.
  - exists w. cbn. rewrite app_nil_r. reflexivity.
  - cbn in D, O. apply andb_prop in D as [Dk Dr]. apply andb_prop in O as [Ox Or].
    destruct (Hf x s w Ox) as (w1 & H1).
    cbn [map DialogueManager.comprehension fst snd]. rewrite (bind_ok _ _ _ _ _ _ _ H1).
    assert (Gk : PyDict.get k acc = None).
    { apply Fr. unfold PyDict.mem. cbn. rewrite String.eqb_refl. reflexivity. }
    rewrite (set_append _ _ _ Gk).
    destruct (IH (acc ++ [(k, dec x)])%list s w1 Dr Or) as (w2 & H2).
    { intros k' Hk'. rewrite get_app.
      rewrite (Fr k').
      - cbn. destruct (String.eqb k' k) eqn:Ek; [|reflexivity].
        apply String.eqb_eq in Ek. subst k'.
        rewrite Hk' in Dk. discriminate.
      - unfold PyDict.mem in *. cbn. destruct (String.eqb k' k); [reflexivity|exact Hk']. }
    exists w2. rewrite H2, <- app_assoc. reflexivity.
Qed.

Lemma map_fst_snd_id {V} (d : pydict V) :
  map (fun kv => (fst kv, snd kv)) d = d.
Proof.
  induction d as [|[k v] r IH]; cbn; [reflexivity|]. rewrite IH. reflexivity.
Qed.

(** What is saved is what a new manager starts from.  Let the snapshot
    file be writable and the manager's contexts and profiles be writable as
    JSON, with valid dates and truthy profile identifiers.  Then
    [_save_contexts] followed by [DialogueManager()] gives a manager with
    the same users in the same order, every profile as it was and every
    context as it was but for [max_history], which is 10 again. *)
Theorem snapshot_round_trip
    (E : Env) (S0 : Type) (s0 : S0) (self : DialogueManager.t) (w : World) :
  snapshot_writable w = true ->
  json_serializable
    (DialogueManager.snapshot_document self (utcnow_at E (clock_reads w))) = true ->
  distinct_keys (DialogueManager.contexts self) = true ->
  distinct_keys (DialogueManager.user_profiles self) = true ->
  forallb storable_context (map snd (DialogueManager.contexts self)) = true ->
  forallb storable_profile (map snd (DialogueManager.user_profiles self)) = true ->
  exists w1 self' w2,
    DialogueManager._save_contexts E self w = (Ok tt, self, w1)
    /\ DialogueManager.__init__ E s0 w1 = (Ok self', s0, w2)
    /\ DialogueManager.contexts self'
       = map (fun kv => (fst kv, reloaded (snd kv))) (DialogueManager.contexts self)
    /\ DialogueManager.user_profiles self' = DialogueManager.user_profiles self.
Proof.
  intros Hw Hj Dc Dp Oc Op.
  assert (Hsave : DialogueManager._save_contexts E self w
                  = (Ok tt, self,
                     mkWorld (S (clock_reads w)) (uuid_draws w) (random_draws w)
                       (DiskJson (DialogueManager.snapshot_document self
                                    (utcnow_at E (clock_reads w))))
                       true (generate_calls w))).
  { unfold DialogueManager._save_contexts, try_except, bind, get_self, utcnow,
      write_snapshot.
    cbn [snapshot_writable clock_reads uuid_draws random_draws generate_calls].
    rewrite Hw, Hj. reflexivity. }
  match type of Hsave with _ = (_, _, ?x) => exists x end.
  rewrite Hsave.
  unfold DialogueManager.__init__, DialogueManager.mkdir_storage_parent,
    DialogueManager.dir_ready.
  cbn [snapshot].
  set (w1 := mkWorld _ _ _ _ _ _).
  unfold DialogueManager._load_contexts, try_except.
  set (self0 := DialogueManager.mk [] [] _ _).
  rewrite (bind_ok read_snapshot _ self0 w1 _ self0 w1 eq_refl).
  unfold DialogueManager.snapshot_document.
  cbn [DialogueManager.items PyDict.get_default PyDict.get String.eqb Ascii.eqb
       Bool.eqb].
  rewrite (bind_ok (lift (Ok _)) _ self0 w1 _ self0 w1 eq_refl).
  cbn [DialogueManager.items PyDict.get_default PyDict.get String.eqb Ascii.eqb
       Bool.eqb].
  rewrite (bind_ok (lift (Ok _)) _ self0 w1 _ self0 w1 eq_refl).
  destruct (comprehension_decodes (ConversationContext.from_dict E)
              ConversationContext.to_dict reloaded storable_context
              (fun c s x O =>
                 context_from_dict_to_dict E _ s x c
                   (proj1 (andb_prop _ _ O)) (proj2 (andb_prop _ _ O)))
              (DialogueManager.contexts self) [] self0 w1 Dc Oc
              (fun _ _ => eq_refl)) as (w2 & H2).
  rewrite (bind_ok _ _ _ _ _ _ _ H2).
  rewrite (bind_ok (modify _) _ _ _ _ _ _ eq_refl).
  rewrite (bind_ok (lift (Ok _)) _ _ _ _ _ _ eq_refl).
  match goal with
  | |- context [bind (DialogueManager.comprehension (UserProfile.from_dict E) _ _) _ ?s _] =>
      destruct (comprehension_decodes (UserProfile.from_dict E)
                  UserProfile.to_dict (fun p => p) storable_profile
                  (fun p s0 x O =>
                     profile_from_dict_to_dict E _ s0 x p
                       (proj1 (andb_prop _ _ (proj1 (andb_prop _ _ O))))
                       (proj2 (andb_prop _ _ (proj1 (andb_prop _ _ O))))
                       (proj2 (andb_prop _ _ O)))
                  (DialogueManager.user_profiles self) [] s w2 Dp Op
                  (fun _ _ => eq_refl)) as (w3 & H3)
  end.
  rewrite (bind_ok _ _ _ _ _ _ _ H3).
  cbn [modify app]. rewrite map_fst_snd_id.
  do 2 eexists. split; [reflexivity|]. split; [reflexivity|].
  split; reflexivity.
Qed.

Lemma snapshot_round_trip_witness :
  exists w1 self' w2,
    DialogueManager._save_contexts sample_env stored_manager sample_world
    = (Ok tt, stored_manager, w1)
    /\ DialogueManager.__init__ sample_env tt w1 = (Ok self', tt, w2)
    /\ DialogueManager.contexts self'
       = map (fun kv => (fst kv, reloaded (snd kv)))
           (DialogueManager.contexts stored_manager)
    /\ DialogueManager.user_profiles self' = DialogueManager.user_profiles stored_manager.
Proof.
  apply (snapshot_round_trip sample_env unit tt stored_manager sample_world);
    reflexivity.
Defined.

(** *** A snapshot that cannot be decoded *)

Lemma context_undecodable E (S0 : Type) v (s0 : S0) w :
  context_decodable v = false ->
  exists e s' w', ConversationContext.from_dict E v s0 w = (Raise e, s', w').
Proof.
  destruct v as [| | | | |l|d|]; try (intros _; do 3 eexists; reflexivity).
  unfold context_decodable, ConversationContext.from_dict, PyDict.mem, subscript.
  destruct (PyDict.get "user_id" d) as [uid|] eqn:U; cbn [andb];
    [|intros _; do 3 eexists; reflexivity].
  rewrite (bind_ok (lift (Ok uid)) _ _ _ _ _ _ eq_refl).
  rewrite (bind_ok (ConversationContext.__init__ E uid _) _ _ _ _ _ _ eq_refl).
  rewrite (bind_ok (uuid4 E) _ _ _ _ _ _ eq_refl).
  cbn [clock_reads uuid_draws].
  fold (subscript "created_at" d). fold (subscript "last_activity" d).
  unfold context_date_ok.
  match goal with
  | |- context [bind (bind (lift (subscript "created_at" d)) _) _ ?s ?x] =>
      pose proof (context_date_read S0 s x "created_at" d) as R1
  end.
  destruct (PyDict.get "created_at" d) as [v1|]; cbn [andb];
    [|rewrite (bind_raise _ _ _ _ _ _ _ R1); eauto].
  destruct (fromisoformat_obj v1) as [ca|e1]; cbn [andb];
    [|rewrite (bind_raise _ _ _ _ _ _ _ R1); eauto].
  rewrite (bind_ok _ _ _ _ _ _ _ R1).
  match goal with
  | |- context [bind (bind (lift (subscript "last_activity" d)) _) _ ?s ?x] =>
      pose proof (context_date_read S0 s x "last_activity" d) as R2
  end.
  destruct (PyDict.get "last_activity" d) as [v2|];
    [|rewrite (bind_raise _ _ _ _ _ _ _ R2); eauto].
  destruct (fromisoformat_obj v2) as [la|e2];
    [|rewrite (bind_raise _ _ _ _ _ _ _ R2); eauto].
  discriminate.
Qed.

Lemma profile_undecodable E (S0 : Type) v (s0 : S0) w :
  profile_decodable v = false ->
  exists e s' w', UserProfile.from_dict E v s0 w = (Raise e, s', w').
Proof.
  destruct v as [| | | | |l|d|]; try (intros _; do 3 eexists; reflexivity).
  unfold profile_decodable, UserProfile.from_dict.
  destruct (profile_init_run E S0 s0 w (PyDict.get_default "user_id" PNone d))
    as (p0 & w0 & H0 & _).
  rewrite (bind_ok _ _ _ _ _ _ _ H0).
  destruct (profile_date_ok "last_active" d) eqn:L; cbn [andb].
  - destruct (stored_date_ok S0 s0 w0 "last_active" d (UserProfile.last_active p0) L)
      as [t1 H1].
    rewrite (bind_ok _ _ _ _ _ _ _ H1). intros C.
    destruct (stored_date_bad S0 s0 w0 "created_at" d (UserProfile.created_at p0) C)
      as [e H2].
    rewrite (bind_raise _ _ _ _ _ _ _ H2). eauto.
  - intros _.
    destruct (stored_date_bad S0 s0 w0 "last_active" d (UserProfile.last_active p0) L)
      as [e H1].
    rewrite (bind_raise _ _ _ _ _ _ _ H1). eauto.
Qed.

(** A dict comprehension raises as soon as one value cannot be decoded. *)
Lemma comprehension_raises {S V} (f : pyval -> M S V) (dec : pyval -> bool) :
  (forall v s w, dec v = false -> exists e s' w', f v s w = (Raise e, s', w')) ->
  forall (d : pydict pyval) (acc : pydict V) s w,
    forallb (fun kv => dec (snd kv)) d = false ->
    exists e s' w', DialogueManager.comprehension f d acc s w = (Raise e, s', w').
Proof.
  intros Hf. induction d as [|[k v] r IH]; intros acc s w B; [discriminate|].
  cbn [DialogueManager.comprehension].
  destruct (f v s w) as [[[x|e] s1] w1] eqn:F.
  - rewrite (bind_ok _ _ _ _ _ _ _ F).
    cbn [forallb snd] in B. destruct (dec v) eqn:Dv.
    + apply IH. exact B.
    + destruct (Hf v s w Dv) as (e & s' & w' & F'). congruence.
  - rewrite (bind_raise _ _ _ _ _ _ _ F). eauto.
Qed.

Lemma section_raises {S V} (f : pyval -> M S V) (dec : pyval -> bool) key top
    (k : pydict V -> M S unit) s w :
  (forall v s w, dec v = false -> exists e s' w', f v s w = (Raise e, s', w')) ->
  section_decodable dec key top = false ->
  exists e s' w',
    (docs <- lift (DialogueManager.items (PyDict.get_default key (PDict []) top)) ;;
     xs <- DialogueManager.comprehension f docs [] ;;
     k xs) s w = (Raise e, s', w').
Proof.
  intros Hf. unfold section_decodable, PyDict.get_default.
  destruct (PyDict.get key top) as [v|]; [|discriminate].
  destruct v as [| | | | |l|docs|]; try (intros _; do 3 eexists; reflexivity).
  intros B. cbn [DialogueManager.items].
  rewrite (bind_ok (lift (Ok docs)) _ _ _ _ _ _ eq_refl).
  destruct (comprehension_raises f dec Hf docs [] s w B) as (e & s' & w' & H).
  rewrite (bind_raise _ _ _ _ _ _ _ H). eauto.
Qed.

(** Loading is all or nothing.  When the snapshot file holds a document in
    which one stored context or one stored profile cannot be decoded (or a
    section, or the document, is not a dict), the manager starts with no
    context and no profile at all: what was decoded before the failure is
    dropped with the rest. *)
Theorem undecodable_snapshot_gives_empty_manager
    (E : Env) (S0 : Type) (s0 : S0) (w : World) (doc : pyval) :
  snapshot w = DiskJson doc ->
  snapshot_decodable doc = false ->
  exists self' w',
    DialogueManager.__init__ E s0 w = (Ok self', s0, w')
    /\ DialogueManager.contexts self' = []
    /\ DialogueManager.user_profiles self' = [].
Proof.
  intros Hd B.
  unfold DialogueManager.__init__, DialogueManager.mkdir_storage_parent,
    DialogueManager.dir_ready.
  rewrite Hd. unfold DialogueManager._load_contexts.
  set (self0 := DialogueManager.mk [] [] _ _).
  match goal with
  | |- context [try_except ?m ?h self0 w] =>
      assert (R : exists e s' w', m self0 w = (Raise e, s', w'))
  end.
  { assert (Hr : @read_snapshot DialogueManager.t self0 w = (Ok (Some doc), self0, w))
      by (unfold read_snapshot; rewrite Hd; reflexivity).
    rewrite (bind_ok _ _ _ _ _ _ _ Hr).
    destruct doc as [| | | | |l|top|]; try (do 3 eexists; reflexivity).
    cbn [DialogueManager.items].
    rewrite (bind_ok (lift (Ok top)) _ _ _ _ _ _ eq_refl).
    cbn [snapshot_decodable] in B.
    destruct (section_decodable context_decodable "contexts" top) eqn:Bc.
    - cbn [andb] in B.
      match goal with
      | |- context [bind (lift ?i) _ self0 w] => destruct i as [cdocs|e] eqn:I
      end; [|do 3 eexists; reflexivity].
      rewrite (bind_ok (lift (Ok cdocs)) _ _ _ _ _ _ eq_refl).
      match goal with
      | |- context [bind (DialogueManager.comprehension ?f cdocs []) _ self0 w] =>
          destruct (DialogueManager.comprehension f cdocs [] self0 w)
            as [[[cs|e] s1] w1] eqn:C
      end; [|rewrite (bind_raise _ _ _ _ _ _ _ C); eauto].
      rewrite (bind_ok _ _ _ _ _ _ _ C).
      rewrite (bind_ok (modify _) _ _ _ _ _ _ eq_refl).
      apply (section_raises (UserProfile.from_dict E) profile_decodable);
        [intros v s x; apply profile_undecodable|exact B].
    - apply (section_raises (ConversationContext.from_dict E) context_decodable);
        [intros v s x; apply context_undecodable|exact Bc]. }
  destruct R as (e & s' & w' & R).
  unfold try_except. rewrite R.
  do 2 eexists. split; [reflexivity|]. split; reflexivity.
Qed.

Lemma undecodable_snapshot_gives_empty_manager_witness :
  exists self' w',
    DialogueManager.__init__ sample_env tt
      (with_snapshot (DiskJson damaged_snapshot) sample_world)
    = (Ok self', tt, w')
    /\ DialogueManager.contexts self' = []
    /\ DialogueManager.user_profiles self' = [].
Proof.
  apply (undecodable_snapshot_gives_empty_manager sample_env unit tt
           (with_snapshot (DiskJson damaged_snapshot) sample_world)
           damaged_snapshot); reflexivity.
Defined.

(** *** Ending a session *)

Lemma stable_end_session E u :
  stable DialogueManager.chatbot (DialogueManager.end_session E u).
Proof.
  unfold DialogueManager.end_session. stable_auto.
Qed.

(** [end_session] removes the user's context and nothing else of the
    conversation: the chatbot's history stays, so that the prompt of the
    user's next message on the generative path is built from everything
    said before the session was ended. *)
Theorem end_session_keeps_chat_history
    (E : Env) (u message : string) (self : DialogueManager.t) (w : World) :
  api_key_set E = true ->
  CareerCoachChatbot.use_gemini (DialogueManager.chatbot self) = true ->
  takes_generative_path message ->
  let ended := DialogueManager.end_session E u self w in
  let next :=
    DialogueManager.process_message E u message (snd (fst ended)) (snd ended) in
  fst (fst ended) = Ok (PyDict.mem u (DialogueManager.contexts self))
  /\ PyDict.get u (DialogueManager.contexts (snd (fst ended))) = None
  /\ DialogueManager.chatbot (snd (fst ended)) = DialogueManager.chatbot self
  /\ generate_calls (snd next)
     = (generate_calls w
        ++ [CareerCoachChatbot.build_prompt message
              (CareerCoachChatbot.conversation_history (DialogueManager.chatbot self)
               ++ [CareerCoachChatbot.mkTurn "user" message])])%list.
Proof.
  intros Hk Hu Hpath. cbv zeta.
  destruct (end_session_effect E u self w) as (s1 & w1 & H & G & _).
  destruct (stable_end_session E u self w) as [C Gc].
  rewrite H in *. cbn [fst snd] in *.
  split; [reflexivity|]. split; [exact G|]. split; [exact C|].
  assert (Hu1 : CareerCoachChatbot.use_gemini (DialogueManager.chatbot s1) = true)
    by (rewrite C; exact Hu).
  destruct (process_message_chat E u message s1 w1 Hk Hu1 Hpath) as [_ G2].
  cbv zeta in G2. rewrite G2, C, Gc. reflexivity.
Qed.

Lemma end_session_keeps_chat_history_witness :
  let ended := DialogueManager.end_session sample_env "u1" talked_manager sample_world in
  let next :=
    DialogueManager.process_message sample_env "u1" "Quelles formations suivre ?"
      (snd (fst ended)) (snd ended) in
  fst (fst ended) = Ok (PyDict.mem "u1" (DialogueManager.contexts talked_manager))
  /\ PyDict.get "u1" (DialogueManager.contexts (snd (fst ended))) = None
  /\ DialogueManager.chatbot (snd (fst ended)) = DialogueManager.chatbot talked_manager
  /\ generate_calls (snd next)
     = (generate_calls sample_world
        ++ [CareerCoachChatbot.build_prompt "Quelles formations suivre ?"
              (CareerCoachChatbot.conversation_history
                 (DialogueManager.chatbot talked_manager)
               ++ [CareerCoachChatbot.mkTurn "user" "Quelles formations suivre ?"])])%list.
Proof.
  apply (end_session_keeps_chat_history sample_env "u1" "Quelles formations suivre ?"
           talked_manager sample_world);
    [reflexivity|reflexivity|repeat split; reflexivity].
Defined.

(** *** The clean-up *)

(** [_cleanup_old_contexts] never removes a context, however old: with any
    context in store it raises before deleting anything, so it can only
    return on a manager that holds none.  Profiles are not touched
    either. *)
Theorem cleanup_never_removes_a_context
    (E : Env) (max_age_days : Z) (self : DialogueManager.t) (w : World) :
  let out := DialogueManager._cleanup_old_contexts E max_age_days self w in
  DialogueManager.contexts (snd (fst out)) = DialogueManager.contexts self
  /\ DialogueManager.user_profiles (snd (fst out)) = DialogueManager.user_profiles self
  /\ (fst (fst out) = Ok tt -> DialogueManager.contexts self = []).
Proof.
  cbv zeta. destruct (DialogueManager.contexts self) as [|kc r] eqn:C.
  - unfold DialogueManager._cleanup_old_contexts, bind, utcnow, lift, get_self.
    destruct (DialogueManager.timedelta_days max_age_days) as [delta|e];
      [|cbn; auto].
    destruct (sub_days _ delta) as [cutoff|e]; [|cbn; auto].
    rewrite C. cbn [filter_m for_each ret].
    match goal with
    | |- context [DialogueManager._save_contexts E ?s ?x] =>
        destruct (save_contexts_effect E s x) as (w' & Hs & _); rewrite Hs
    end.
    cbn. auto.
  - assert (N : DialogueManager.contexts self <> []) by (rewrite C; discriminate).
    destruct (cleanup_raises_when_nonempty E self w max_age_days N)
      as (e & w' & H & _).
    rewrite H. cbn [fst snd]. split; [exact C|]. split; [reflexivity|discriminate].
Qed.
